(** * FMC SNORT utilisation / ThousandEyes dashboard: the aggregation pipeline

    A shallow embedding of [flask_app/app.py], [flask_app/fmc.py] and
    [flask_app/thousandeyes.py].

    - [Py]        : the fragment of Python the three files rely on: values as
                    [json.loads] produces them, exceptions, insertion-ordered
                    dictionaries, [str.split], slicing, binary64 floats with
                    [float()], [sum], [/], [max], [round(_, 1)] and
                    [datetime.utcfromtimestamp(_).strftime("%H:%M")].
    - [App]       : app.py (normalisation, summary statistics, the merge and
                    sort done by [index]).
    - [Http]      : a [requests.Session] talking to a scripted server.
    - [FirePower] : fmc.py ([authRequest], [getData]).
    - [ThousandEyes] : thousandeyes.py ([getData], [getTestData_NetworkE2E]).
    - [Spec]      : the vocabulary of the statements.

    The properties follow the definitions, numbered C1 to C10.

    Strings are sequences of ASCII characters. *)

From Stdlib Require Import ZArith List String Ascii Bool Lia SpecFloat DecimalString.
From Stdlib Require Import Permutation Sorted.
Import ListNotations.

Set Warnings "-register-all".

#[local] Open Scope string_scope.
#[local] Open Scope list_scope.
#[local] Open Scope Z_scope.

Module Py.

(** ** Exceptions and the error monad *)

(** The exception classes that the modelled code can meet.  [SystemExit] is
    what [sys.exit] raises; it derives from [BaseException] only, so an
    [except Exception] clause lets it through. *)
Inductive exn : Type :=
| TypeError | ValueError | KeyError | IndexError | AttributeError
| OverflowError | ZeroDivisionError | RequestException | SystemExit.

Definition is_Exception (e : exn) : bool :=
  match e with SystemExit => false | _ => true end.

Inductive result (A : Type) : Type :=
| Ok (a : A)
| Raise (e : exn).
Arguments Ok {A} a.
Arguments Raise {A} e.

Definition bind {A B} (r : result A) (k : A -> result B) : result B :=
  match r with Ok a => k a | Raise e => Raise e end.

Notation "x <- c ;; k" := (bind c (fun x => k))
  (at level 61, c at next level, right associativity).

(** [try: body / except Exception: handler]. *)
Definition try_except {A} (body : result A) (handler : exn -> result A) : result A :=
  match body with
  | Ok a => Ok a
  | Raise e => if is_Exception e then handler e else Raise e
  end.

(** ** Values *)

(** Python values as [json.loads] builds them; [PNone] is [None]. *)
Inductive pyval : Type :=
| PNone
| PBool (b : bool)
| PInt (z : Z)
| PFloat (f : spec_float)
| PStr (s : string)
| PList (l : list pyval)
| PDict (d : list (string * pyval)).

(** ** Dictionaries with string keys

    A [dict] keeps its keys in insertion order; assigning to a key that is
    already there replaces the value and leaves the position alone. *)
Definition dict (V : Type) : Type := list (string * V).

Fixpoint dict_get {V} (d : dict V) (k : string) : option V :=
  match d with
  | [] => None
  | (k', v) :: d' => if String.eqb k' k then Some v else dict_get d' k
  end.

Definition dict_has {V} (d : dict V) (k : string) : bool :=
  match dict_get d k with Some _ => true | None => false end.

Fixpoint dict_set {V} (d : dict V) (k : string) (v : V) : dict V :=
  match d with
  | [] => [(k, v)]
  | (k', v') :: d' =>
      if String.eqb k' k then (k', v) :: d' else (k', v') :: dict_set d' k v
  end.

Definition dict_keys {V} (d : dict V) : list string := map fst d.
Definition dict_values {V} (d : dict V) : list V := map snd d.

(** [d[k]] *)
Definition dict_item {V} (d : dict V) (k : string) : result V :=
  match dict_get d k with Some v => Ok v | None => Raise KeyError end.

(** Truth value of a dictionary, a list, a string. *)
Definition truthy_list {A} (l : list A) : bool :=
  match l with [] => false | _ => true end.
Definition truthy_str (s : string) : bool :=
  match s with EmptyString => false | _ => true end.

(** ** Strings *)

(** [str.isspace] on one ASCII character: TAB..CR, FS..US and the blank. *)
Definition is_space (c : ascii) : bool :=
  let n := Z.of_nat (nat_of_ascii c) in
  ((9 <=? n) && (n <=? 13)) || ((28 <=? n) && (n <=? 32)).

(** [s.split()]: the maximal runs of non-blank characters of [s]. *)
Fixpoint split_go (s : string) (cur : string) : list string :=
  match s with
  | EmptyString => match cur with EmptyString => [] | _ => [cur] end
  | String c s' =>
      if is_space c
      then match cur with
           | EmptyString => split_go s' EmptyString
           | _ => cur :: split_go s' EmptyString
           end
      else split_go s' (cur ++ String c EmptyString)
  end.
Definition split (s : string) : list string := split_go s EmptyString.

(** [s[:-3]] *)
Definition drop_last3 (s : string) : string :=
  substring 0 (String.length s - 3) s.

(** [needle in hay] on strings. *)
Fixpoint is_substring (needle hay : string) : bool :=
  if prefix needle hay then true
  else match hay with
       | EmptyString => false
       | String _ hay' => is_substring needle hay'
       end.

(** ** Subscripts and membership *)

(** [x[i]] for a non-negative integer literal [i]. *)
Definition getitem_nat (x : pyval) (i : nat) : result pyval :=
  match x with
  | PList l => match nth_error l i with Some v => Ok v | None => Raise IndexError end
  | PStr s => match get i s with
              | Some c => Ok (PStr (String c EmptyString))
              | None => Raise IndexError
              end
  | PDict _ => Raise KeyError
  | _ => Raise TypeError
  end.

(** [x[k]] for a string literal [k]. *)
Definition getitem_str (x : pyval) (k : string) : result pyval :=
  match x with
  | PDict d => dict_item d k
  | _ => Raise TypeError
  end.

Definition is_PStr (k : string) (v : pyval) : bool :=
  match v with PStr s => String.eqb s k | _ => false end.

(** [k in x] for a string literal [k]. *)
Definition contains_str (k : string) (x : pyval) : result bool :=
  match x with
  | PDict d => Ok (dict_has d k)
  | PList l => Ok (existsb (is_PStr k) l)
  | PStr s => Ok (is_substring k s)
  | _ => Raise TypeError
  end.

(** The items that iterating over [x] yields ([for _ in x], [list += x]). *)
Definition iterate (x : pyval) : result (list pyval) :=
  match x with
  | PList l => Ok l
  | PStr s => Ok (map (fun c => PStr (String c EmptyString)) (list_ascii_of_string s))
  | PDict d => Ok (map PStr (dict_keys d))
  | _ => Raise TypeError
  end.

(** ** Binary64 floats

    A Python [float] is an IEEE 754 binary64 number: [spec_float] at
    precision 53 and maximal exponent 1024, every operation rounding to
    nearest, ties to even. *)
Definition prec : Z := 53.
Definition emax : Z := 1024.

Definition b64_add : spec_float -> spec_float -> spec_float := SFadd prec emax.
Definition b64_mul : spec_float -> spec_float -> spec_float := SFmul prec emax.
Definition b64_div : spec_float -> spec_float -> spec_float := SFdiv prec emax.
Definition b64_ltb : spec_float -> spec_float -> bool := SFltb.

(** The float nearest to the integer [n]. *)
Definition b64_of_Z (n : Z) : spec_float := binary_normalize prec emax n 0 false.

(** The float nearest to the fraction [n / d], with sign [s]. *)
Definition b64_of_ratio (s : bool) (n d : positive) : spec_float :=
  b64_div (S754_finite s n 0) (S754_finite false d 0).

Definition is_inf (f : spec_float) : bool :=
  match f with S754_infinity _ => true | _ => false end.

Definition is_zero (f : spec_float) : bool :=
  match f with S754_zero _ => true | _ => false end.

(** [float(n)] for an [int]: too large a magnitude is an [OverflowError]. *)
Definition int_to_float (n : Z) : result spec_float :=
  let f := b64_of_Z n in
  if is_inf f then Raise OverflowError else Ok f.

(** The integer nearest to [n * 2^e], ties to even ([0 <= n]). *)
Definition rne_scaled (n e : Z) : Z :=
  if 0 <=? e then n * 2 ^ e
  else
    let d := 2 ^ (- e) in
    let q := n / d in
    let r := n mod d in
    match 2 * r ?= d with
    | Lt => q
    | Gt => q + 1
    | Eq => if Z.even q then q else q + 1
    end.

(** [round(f, 1)]: the exact value of [f] is rounded to one decimal, ties to
    even, and the decimal is read back as a float.  The sign is kept when
    the result is zero; infinities and NaN are returned as they are. *)
Definition round1 (f : spec_float) : spec_float :=
  match f with
  | S754_finite s m e =>
      match rne_scaled (Zpos m * 10) e with
      | Zpos k => b64_of_ratio s k 10
      | _ => S754_zero s
      end
  | _ => f
  end.

(** *** [float(str)] *)

Definition code (c : ascii) : Z := Z.of_nat (nat_of_ascii c).
Definition is_digit (c : ascii) : bool := (48 <=? code c) && (code c <=? 57).
Definition digit_val (c : ascii) : Z := code c - 48.
Definition lower (c : ascii) : ascii :=
  if (65 <=? code c) && (code c <=? 90)
  then ascii_of_nat (nat_of_ascii c + 32) else c.

(** The blanks that [float] strips from an ASCII string: TAB..CR and the
    blank (FS..US, blanks for [str.split], are not among them). *)
Definition is_float_space (c : ascii) : bool :=
  ((9 <=? code c) && (code c <=? 13)) || (code c =? 32).

Fixpoint lstrip (cs : list ascii) : list ascii :=
  match cs with
  | c :: cs' => if is_float_space c then lstrip cs' else cs
  | [] => []
  end.
Definition strip (cs : list ascii) : list ascii :=
  rev (lstrip (rev (lstrip cs))).

(** A run of digits, single underscores allowed between two digits: the
    value read so far, the number of digits, and what is left. *)
Fixpoint digits_go (cs : list ascii) (acc : Z) (n : nat) : Z * nat * list ascii :=
  match cs with
  | c :: cs' =>
      if is_digit c then digits_go cs' (10 * acc + digit_val c) (S n)
      else if Ascii.eqb c "_" && negb (Nat.eqb n 0) then
        match cs' with
        | d :: _ => if is_digit d then digits_go cs' acc n else (acc, n, cs)
        | [] => (acc, n, cs)
        end
      else (acc, n, cs)
  | [] => (acc, n, [])
  end.
Definition digitpart (cs : list ascii) : Z * nat * list ascii := digits_go cs 0 O.

(** An optional sign: [true] for a minus. *)
Definition take_sign (cs : list ascii) : bool * list ascii :=
  match cs with
  | c :: cs' =>
      if Ascii.eqb c "-" then (true, cs')
      else if Ascii.eqb c "+" then (false, cs')
      else (false, cs)
  | [] => (false, [])
  end.

(** The float nearest to [(-1)^s * d * 10^p]. *)
Definition b64_of_decimal (s : bool) (d p : Z) : spec_float :=
  match d with
  | Zpos m =>
      if 0 <=? p then binary_normalize prec emax (cond_Zopp s (Zpos m * 10 ^ p)) 0 s
      else b64_of_ratio s m (Z.to_pos (10 ^ (- p)))
  | _ => S754_zero s
  end.

(** [floatnumber]: digits with an optional point and an optional exponent;
    the whole input has to be used up.  The number read is [d * 10^p]. *)
Definition read_decimal (cs : list ascii) : option (Z * Z) :=
  let '(zi, ni, r1) := digitpart cs in
  let '(zf, nf, r2) :=
    match r1 with
    | c :: r1' => if Ascii.eqb c "." then digitpart r1' else (0, O, r1)
    | [] => (0, O, r1)
    end in
  if Nat.eqb (ni + nf) 0 then None
  else
    let d := zi * 10 ^ Z.of_nat nf + zf in
    match r2 with
    | [] => Some (d, - Z.of_nat nf)
    | c :: r2' =>
        if Ascii.eqb (lower c) "e" then
          let '(se, r3) := take_sign r2' in
          match digitpart r3 with
          | (ze, S _, []) => Some (d, cond_Zopp se ze - Z.of_nat nf)
          | _ => None
          end
        else None
    end.

Definition parse_number (s : bool) (cs : list ascii) : option spec_float :=
  match read_decimal cs with
  | Some (d, p) => Some (b64_of_decimal s d p)
  | None => None
  end.

(** [float(s)] for a string: blanks around, a sign, then [inf], [infinity],
    [nan] (any case) or a number. *)
Definition parse_float (str : string) : option spec_float :=
  let '(s, body) := take_sign (strip (list_ascii_of_string str)) in
  let word := string_of_list_ascii (map lower body) in
  if String.eqb word "inf" || String.eqb word "infinity" then Some (S754_infinity s)
  else if String.eqb word "nan" then Some S754_nan
  else parse_number s body.

(** *** Numbers: [float(x)], [+], [/], [round(x, 1)], [max] *)

Definition as_int (v : pyval) : option Z :=
  match v with
  | PInt z => Some z
  | PBool b => Some (if b then 1 else 0)
  | _ => None
  end.

(** [float(v)] *)
Definition py_float (v : pyval) : result spec_float :=
  match v with
  | PFloat f => Ok f
  | PInt z => int_to_float z
  | PBool b => Ok (b64_of_Z (if b then 1 else 0))
  | PStr s => match parse_float s with Some f => Ok f | None => Raise ValueError end
  | _ => Raise TypeError
  end.

(** The float an arithmetic operand stands for, when it is a number. *)
Definition operand_float (v : pyval) : result spec_float :=
  match v with
  | PFloat f => Ok f
  | _ => match as_int v with Some z => int_to_float z | None => Raise TypeError end
  end.

(** [a + b] for a number [a]. *)
Definition num_add (a b : pyval) : result pyval :=
  match as_int a, as_int b with
  | Some m, Some n => Ok (PInt (m + n))
  | _, _ =>
      x <- operand_float a ;;
      y <- operand_float b ;;
      Ok (PFloat (b64_add x y))
  end.

(** [sum(l)]: the items are added from left to right to the integer 0
    (float additions are the plain ones, as [sum] does them up to
    CPython 3.11). *)
Fixpoint sum_from (acc : pyval) (l : list pyval) : result pyval :=
  match l with
  | [] => Ok acc
  | x :: l' => acc' <- num_add acc x ;; sum_from acc' l'
  end.
Definition py_sum (l : list pyval) : result pyval := sum_from (PInt 0) l.

(** [a / b] *)
Definition truediv (a b : pyval) : result pyval :=
  match as_int a, as_int b with
  | Some m, Some n =>
      let s := xorb (m <? 0) (n <? 0) in
      match Z.abs m, Z.abs n with
      | _, Z0 => Raise ZeroDivisionError
      | Zpos p, Zpos q =>
          let f := b64_of_ratio s p q in
          if is_inf f then Raise OverflowError else Ok (PFloat f)
      | _, _ => Ok (PFloat (S754_zero s))
      end
  | _, _ =>
      x <- operand_float a ;;
      y <- operand_float b ;;
      if is_zero y then Raise ZeroDivisionError else Ok (PFloat (b64_div x y))
  end.

(** [round(v, 1)] *)
Definition py_round1 (v : pyval) : result pyval :=
  match v with
  | PFloat f => Ok (PFloat (round1 f))
  | _ => match as_int v with Some z => Ok (PInt z) | None => Raise TypeError end
  end.

(** [max(x :: l)] on floats: a later item replaces the current maximum when
    it is strictly greater. *)
Definition max_from (x : spec_float) (l : list spec_float) : spec_float :=
  fold_left (fun m y => if b64_ltb m y then y else m) l x.

(** [len(l)] as a Python integer. *)
Definition py_len {A} (l : list A) : pyval := PInt (Z.of_nat (List.length l)).

(** *** [datetime.datetime.utcfromtimestamp(x).strftime("%H:%M")] *)

Definition digit_char (n : Z) : ascii := ascii_of_nat (Z.to_nat (48 + n)).
Definition two_digits (n : Z) : string :=
  String (digit_char (n / 10)) (String (digit_char (n mod 10)) EmptyString).

(** Hour and minute of the day, in UTC, of a Unix time in seconds. *)
Definition hhmm (t : Z) : string :=
  two_digits ((t mod 86400) / 3600) ++ ":" ++ two_digits ((t mod 3600) / 60).

(** The first and last second that a [datetime] can hold (years 1 to 9999). *)
Definition MIN_TIMESTAMP : Z := -62135596800.
Definition MAX_TIMESTAMP : Z := 253402300799.

(** The whole seconds of a float timestamp: the fraction is turned into
    microseconds, rounded half to even, and a carry goes to the seconds. *)
Definition float_seconds (f : spec_float) : result Z :=
  match f with
  | S754_nan => Raise ValueError
  | S754_infinity _ => Raise OverflowError
  | S754_zero _ => Ok 0
  | S754_finite s m e =>
      let whole := if 0 <=? e then Zpos m * 2 ^ e else Zpos m / 2 ^ (- e) in
      let rest := if 0 <=? e then 0 else Zpos m mod 2 ^ (- e) in
      let frac := binary_normalize prec emax (cond_Zopp s rest) e s in
      let us :=
        match b64_mul frac (b64_of_Z 1000000) with
        | S754_finite s' m' e' => cond_Zopp s' (rne_scaled (Zpos m') e')
        | _ => 0
        end in
      Ok (cond_Zopp s whole
          + (if 1000000 <=? us then 1 else if us <? 0 then -1 else 0))
  end.

Definition timestamp_seconds (x : pyval) : result Z :=
  match x with
  | PFloat f => float_seconds f
  | _ => match as_int x with Some z => Ok z | None => Raise TypeError end
  end.

(** A timestamp outside the years 1..9999 is rejected ([ValueError],
    [OverflowError] or [OSError] depending on how far out it is: one class
    stands for the three, all of them caught by [except Exception]).
    Negative timestamps are accepted, as on POSIX systems. *)
Definition utc_hhmm (x : pyval) : result string :=
  t <- timestamp_seconds x ;;
  if (MIN_TIMESTAMP <=? t) && (t <=? MAX_TIMESTAMP) then Ok (hhmm t)
  else Raise ValueError.

(** ** Truth values, [len], [== 0], keys of any type *)

(** The truth value of [v] in an [if]. *)
Definition truthy (v : pyval) : bool :=
  match v with
  | PNone => false
  | PBool b => b
  | PInt z => negb (z =? 0)
  | PFloat f => negb (is_zero f)
  | PStr s => truthy_str s
  | PList l => truthy_list l
  | PDict d => truthy_list d
  end.

(** [len(v)] *)
Definition py_len_of (v : pyval) : result Z :=
  match v with
  | PList l => Ok (Z.of_nat (List.length l))
  | PStr s => Ok (Z.of_nat (String.length s))
  | PDict d => Ok (Z.of_nat (List.length d))
  | _ => Raise TypeError
  end.

(** [v == 0] *)
Definition equals_zero (v : pyval) : bool :=
  match v with
  | PInt z => z =? 0
  | PBool b => negb b
  | PFloat f => is_zero f
  | _ => false
  end.

(** The integer [z] and the float [f] are the same number. *)
Definition int_eq_float (z : Z) (f : spec_float) : bool :=
  match f with
  | S754_zero _ => z =? 0
  | S754_finite s m e =>
      if 0 <=? e then z =? cond_Zopp s (Zpos m * 2 ^ e)
      else z * 2 ^ (- e) =? cond_Zopp s (Zpos m)
  | _ => false
  end.

(** Lists and dictionaries cannot be keys. *)
Definition hashable (v : pyval) : bool :=
  match v with
  | PList _ | PDict _ => false
  | _ => true
  end.

(** Two keys are the same key of a dictionary: numbers by value whatever
    their type, strings by content, [None] with itself.  A NaN differs from
    every number, but every NaN of a decoded document is the one object of
    the decoder, which a dictionary finds by identity. *)
Definition key_eqb (a b : pyval) : bool :=
  match a, b with
  | PNone, PNone => true
  | PStr x, PStr y => String.eqb x y
  | PFloat S754_nan, PFloat S754_nan => true
  | PFloat x, PFloat y => SFeqb x y
  | PFloat x, _ => match as_int b with Some z => int_eq_float z x | None => false end
  | _, PFloat y => match as_int a with Some z => int_eq_float z y | None => false end
  | _, _ => match as_int a, as_int b with Some x, Some y => x =? y | _, _ => false end
  end.

(** A dictionary whose keys are any hashable values. *)
Definition kdict (V : Type) : Type := list (pyval * V).

Fixpoint kdict_get {V} (d : kdict V) (k : pyval) : option V :=
  match d with
  | [] => None
  | (k', v) :: d' => if key_eqb k' k then Some v else kdict_get d' k
  end.

Fixpoint kdict_set {V} (d : kdict V) (k : pyval) (v : V) : kdict V :=
  match d with
  | [] => [(k, v)]
  | (k', v') :: d' =>
      if key_eqb k' k then (k', v) :: d' else (k', v') :: kdict_set d' k v
  end.

(** [d[k] = v] *)
Definition kdict_setitem {V} (d : kdict V) (k : pyval) (v : V) : result (kdict V) :=
  if hashable k then Ok (kdict_set d k v) else Raise TypeError.

(** [d[k] if k in d else None] *)
Definition kdict_find {V} (d : kdict V) (k : pyval) : result (option V) :=
  if hashable k then Ok (kdict_get d k) else Raise TypeError.

End Py.

(** * app.py *)
Module App.
Import Py.

(** A [for] loop whose body may raise: the state is threaded through the
    items in order and the first exception ends the loop. *)
Fixpoint for_each {A S} (l : list A) (body : S -> A -> result S) (s : S) : result S :=
  match l with
  | [] => Ok s
  | x :: l' => s' <- body s x ;; for_each l' body s'
  end.

(** A list comprehension [[f(x) for x in l]]. *)
Fixpoint comprehension {A B} (f : A -> result B) (l : list A) : result (list B) :=
  match l with
  | [] => Ok []
  | x :: l' => y <- f x ;; ys <- comprehension f l' ;; Ok (y :: ys)
  end.

(** ** convert_snort_metric_data *)

(** What the [try] block computes for one sample [data]: the "HH:MM" label
    [utcfromtimestamp(data[0]).strftime("%H:%M")] and the value [data[1]]. *)
Definition snort_entry (data : pyval) : result (string * pyval) :=
  stamp <- getitem_nat data 0 ;;
  converted_time <- utc_hhmm stamp ;;
  value <- getitem_nat data 1 ;;
  Ok (converted_time, value).

(** One round of the inner loop, [snort_cpu_metrics] being the dictionary
    under construction: the assignment
    [snort_cpu_metrics[device][converted_time] = data[1]] inside
    [try ... except Exception] (the handler logs and goes on). *)
Definition snort_sample (device : string) (snort_cpu_metrics : dict (dict pyval))
    (data : pyval) : result (dict (dict pyval)) :=
  try_except
    (entry <- snort_entry data ;;
     series <- dict_item snort_cpu_metrics device ;;
     Ok (dict_set snort_cpu_metrics device (dict_set series (fst entry) (snd entry))))
    (fun _ => Ok snort_cpu_metrics).

Definition convert_snort_metric_data (raw_snort_cpu_metrics : dict (list pyval))
    : result (dict (dict pyval)) :=
  for_each (dict_keys raw_snort_cpu_metrics)
    (fun snort_cpu_metrics device =>
       samples <- dict_item raw_snort_cpu_metrics device ;;
       for_each samples (snort_sample device) (dict_set snort_cpu_metrics device []))
    [].

(** ** convert_te_test_data *)

(** [date.split()], for whatever [data['date']] holds. *)
Definition py_split (date : pyval) : result (list string) :=
  match date with
  | PStr s => Ok (split s)
  | _ => Raise AttributeError
  end.

(** What the [try] block computes for one record: the key
    [data['date'].split()[1][:-3]] and the list
    [[data['avgLatency'], data['loss'], data['jitter']]]. *)
Definition te_entry (data : pyval) : result (string * pyval) :=
  date <- getitem_str data "date" ;;
  parts <- py_split date ;;
  time <- match nth_error parts 1 with Some t => Ok t | None => Raise IndexError end ;;
  let converted_time := drop_last3 time in
  avgLatency <- getitem_str data "avgLatency" ;;
  loss <- getitem_str data "loss" ;;
  jitter <- getitem_str data "jitter" ;;
  Ok (converted_time, PList [avgLatency; loss; jitter]).

Definition te_sample (device : string) (te_results : dict (dict pyval))
    (data : pyval) : result (dict (dict pyval)) :=
  try_except
    (entry <- te_entry data ;;
     series <- dict_item te_results device ;;
     Ok (dict_set te_results device (dict_set series (fst entry) (snd entry))))
    (fun _ => Ok te_results).

Definition convert_te_test_data (raw_te_results : dict (list pyval))
    : result (dict (dict pyval)) :=
  for_each (dict_keys raw_te_results)
    (fun te_results device =>
       records <- dict_item raw_te_results device ;;
       for_each records (te_sample device) (dict_set te_results device []))
    [].

(** ** calculate_snort_avg, calculate_snort_max, calculate_te_avg *)

(** [sum(values) / len(values) if len(values) > 0 else 0] *)
Definition average_or_zero (values : list pyval) : result pyval :=
  if 0 <? Z.of_nat (List.length values)
  then total <- py_sum values ;; truediv total (py_len values)
  else Ok (PInt 0).

(** The body of the loop of [calculate_snort_avg] for the series of one
    device. *)
Definition snort_avg_of (series : dict pyval) : result pyval :=
  cpu_values <- comprehension py_float (dict_values series) ;;
  average <- average_or_zero (map PFloat cpu_values) ;;
  py_round1 average.

Definition snort_max_of (series : dict pyval) : result pyval :=
  cpu_values <- comprehension py_float (dict_values series) ;;
  let max_cpu :=
    match cpu_values with
    | x :: rest => PFloat (max_from x rest)
    | [] => PInt 0
    end in
  py_round1 max_cpu.

Definition te_avg_of (series : dict pyval) : result pyval :=
  latency_values <- comprehension (fun value => getitem_nat value 0) (dict_values series) ;;
  average <- average_or_zero latency_values ;;
  py_round1 average.

(** The loop shared by the three functions: [out[device] = stat(m[device])]
    for every key of [m]. *)
Definition per_device (stat : dict pyval -> result pyval) (m : dict (dict pyval))
    : result (dict pyval) :=
  for_each (dict_keys m)
    (fun out device =>
       series <- dict_item m device ;;
       value <- stat series ;;
       Ok (dict_set out device value))
    [].

Definition calculate_snort_avg (snort_cpu_metrics : dict (dict pyval)) : result (dict pyval) :=
  per_device snort_avg_of snort_cpu_metrics.

Definition calculate_snort_max (snort_cpu_metrics : dict (dict pyval)) : result (dict pyval) :=
  per_device snort_max_of snort_cpu_metrics.

Definition calculate_te_avg (te_results : dict (dict pyval)) : result (dict pyval) :=
  per_device te_avg_of te_results.

(** ** index *)

(** A device dictionary as [get_ftd_devices] builds it.  The two keys that
    the pipeline reads are fields of the record: ['id'] is always there and
    ['name'] is [None] when the device record had no name.  Every other key
    ('hostName', ..., and the keys that [index] adds) is in [dev_fields]. *)
Record ftd_device : Type := {
  dev_id : string;
  dev_name : option string;
  dev_fields : dict pyval
}.

(** [device[k] = v] for a key other than 'id' and 'name'. *)
Definition set_field (d : ftd_device) (k : string) (v : pyval) : ftd_device :=
  {| dev_id := dev_id d; dev_name := dev_name d;
     dev_fields := dict_set (dev_fields d) k v |}.

(** [m[id] if m and id in m else None] *)
Definition found_or_none {V} (inj : V -> pyval) (m : option (dict V)) (id : string)
    : result pyval :=
  match m with
  | Some d =>
      if truthy_list d && dict_has d id
      then value <- dict_item d id ;; Ok (inj value)
      else Ok PNone
  | None => Ok PNone
  end.

(** [a < b] on two sort keys [device['name']]: a string and [None] cannot be
    compared. *)
Definition name_lt (a b : option string) : result bool :=
  match a, b with
  | Some x, Some y => Ok (String.ltb x y)
  | _, _ => Raise TypeError
  end.

(** [sorted(devices, key=lambda device: device['name'])].  The built-in sort
    is stable and compares keys with [<] only; a stable insertion sort
    stands for it (same result, and an exception exactly when two keys that
    cannot be compared meet, which happens as soon as there are two devices
    and one key is [None]). *)
Fixpoint insert_by_name (x : ftd_device) (l : list ftd_device) : result (list ftd_device) :=
  match l with
  | [] => Ok [x]
  | y :: l' =>
      below <- name_lt (dev_name y) (dev_name x) ;;
      if below then (r <- insert_by_name x l' ;; Ok (y :: r))
      else Ok (x :: y :: l')
  end.

Fixpoint sorted_by_name (l : list ftd_device) : result (list ftd_device) :=
  match l with
  | [] => Ok []
  | x :: l' => s <- sorted_by_name l' ;; insert_by_name x s
  end.

Section Index.
(** [config.TIME_PERIOD_SECONDS] and the three memoised fetchers, taken as
    functions of their arguments. *)
Variable TIME_PERIOD_SECONDS : Z.
Variable get_ftd_devices : option (list ftd_device).
Variable get_health_metrics :
  Z -> list string -> string -> string -> option (dict (list pyval)).
Variable get_te_test_results :
  Z -> list ftd_device -> dict (list pyval) * dict pyval.

(** The body of the loop "Append metrics to devices list". *)
Definition append_metrics
    (raw_te_test_details : dict pyval)
    (snort_cpu_metrics : option (dict (dict pyval)))
    (snort_average snort_max_24h : option (dict pyval))
    (te_results : dict (dict pyval))
    (te_latency_average : dict pyval)
    (device : ftd_device) : result ftd_device :=
  v <- found_or_none (fun x => x) (Some raw_te_test_details) (dev_id device) ;;
  let device := set_field device "te_test_details" v in
  v <- found_or_none PDict snort_cpu_metrics (dev_id device) ;;
  let device := set_field device "snort_cpu_data" v in
  v <- found_or_none (fun x => x) snort_average (dev_id device) ;;
  let device := set_field device "snort_cpu_avg" v in
  v <- found_or_none (fun x => x) snort_max_24h (dev_id device) ;;
  let device := set_field device "snort_cpu_max" v in
  v <- found_or_none PDict (Some te_results) (dev_id device) ;;
  let device := set_field device "te_test_data" v in
  v <- found_or_none (fun x => x) (Some te_latency_average) (dev_id device) ;;
  Ok (set_field device "te_latency_avg" v).

(** The value of [devices] that [index] hands to [render_template]. *)
Definition index : result (option (list ftd_device)) :=
  match get_ftd_devices with
  | None => Ok None
  | Some [] => Ok (Some [])
  | Some devices =>
      let device_uuids :=
        map dev_id (filter (fun device => truthy_str (dev_id device)) devices) in
      let raw_snort_cpu_metrics :=
        get_health_metrics TIME_PERIOD_SECONDS device_uuids "cpu" "snort_avg" in
      snort <-
        match raw_snort_cpu_metrics with
        | Some raw =>
            if truthy_list raw then
              snort_cpu_metrics <- convert_snort_metric_data raw ;;
              snort_average <- calculate_snort_avg snort_cpu_metrics ;;
              Ok (Some snort_cpu_metrics, Some snort_average)
            else Ok (None, None)
        | None => Ok (None, None)
        end ;;
      let raw_snort_cpu_metrics_24h :=
        get_health_metrics 86400 device_uuids "cpu" "snort_avg" in
      snort_max_24h <-
        match raw_snort_cpu_metrics_24h with
        | Some raw =>
            if truthy_list raw then
              snort_cpu_metrics_24h <- convert_snort_metric_data raw ;;
              snort_max <- calculate_snort_max snort_cpu_metrics_24h ;;
              Ok (Some snort_max)
            else Ok None
        | None => Ok None
        end ;;
      let '(raw_te_results, raw_te_test_details) :=
        get_te_test_results TIME_PERIOD_SECONDS devices in
      te_results <- convert_te_test_data raw_te_results ;;
      te_latency_average <- calculate_te_avg te_results ;;
      devices <- comprehension
                   (append_metrics raw_te_test_details (fst snort) (snd snort)
                      snort_max_24h te_results te_latency_average)
                   devices ;;
      devices <- sorted_by_name devices ;;
      Ok (Some devices)
  end.
End Index.

End App.

(** * A [requests.Session] against a scripted server *)
Module Http.
Import Py.

Inductive verb : Type := GET | POST.

Record request : Type := {
  req_verb : verb;
  req_url : string;
  req_headers : option (dict string);
  req_params : dict pyval;
  req_auth : option (string * string)
}.

Record response : Type := {
  status_code : Z;
  text : string;
  headers : dict string
}.

(** The server is a script: [answers n] is what comes back for the request
    sent after [n] earlier ones.  [sent] is the list of requests so far. *)
Record session : Type := {
  answers : nat -> response;
  sent : list request
}.

Definition send (r : request) (s : session) : response * session :=
  (answers s (List.length (sent s)),
   {| answers := answers s; sent := sent s ++ [r] |}).

(** Header names are looked up without regard to case, as
    [resp.headers[name]] does. *)
Definition lower_str (s : string) : string :=
  string_of_list_ascii (map lower (list_ascii_of_string s)).

Fixpoint header_get (h : dict string) (name : string) : option string :=
  match h with
  | [] => None
  | (k, v) :: h' =>
      if String.eqb (lower_str k) (lower_str name) then Some v else header_get h' name
  end.

(** [s.lstrip()] *)
Fixpoint lstrip_str (s : string) : string :=
  match s with
  | String c s' => if is_space c then lstrip_str s' else s
  | EmptyString => s
  end.

(** [requests] sends a request only to a URL that, without its leading
    blanks and whatever the case of its letters, starts with "http://" or
    "https://".  For any other URL [Session.get] raises [MissingSchema],
    [InvalidSchema] or [InvalidURL], each of them a [RequestException],
    before anything is sent. *)
Definition has_http_scheme (url : string) : bool :=
  let u := lower_str (lstrip_str url) in
  (prefix "http://" u || prefix "https://" u)%bool.

End Http.

(** * fmc.py *)
Module FirePower.
Import Py Http.

(** The attributes of a [FirePower] object. *)
Record firepower : Type := {
  self_headers : option (dict string);
  refresh_token : option string;
  auth_token : option string;
  global_UUID : option string;
  s : session
}.

(** A method: it may change the object and ends with a value or an
    exception. *)
Definition method (A : Type) : Type := firepower -> result A * firepower.

Section Client.
(** The environment variables read when the module is loaded. *)
Variables FMC_HOSTNAME FMC_USERNAME FMC_PASSWORD : string.

Definition PLATFORM_URL : string := "https://" ++ FMC_HOSTNAME ++ "/api/fmc_platform/v1".
Definition CONFIG_URL : string := "https://" ++ FMC_HOSTNAME ++ "/api/fmc_config/v1".

Definition auth_request : request :=
  {| req_verb := POST; req_url := (PLATFORM_URL ++ "/auth/generatetoken")%string;
     req_headers := None; req_params := [];
     req_auth := Some (FMC_USERNAME, FMC_PASSWORD) |}.

(** [authRequest]: on 204 the three headers are stored one after the
    other (a missing one is a [KeyError]) and the session headers are
    rebuilt; any other status ends in [sys.exit(-1)]. *)
Definition authRequest : method unit := fun self =>
  let '(resp, s') := send auth_request (s self) in
  let self :=
    {| self_headers := self_headers self; refresh_token := refresh_token self;
       auth_token := auth_token self; global_UUID := global_UUID self; s := s' |} in
  if status_code resp =? 204 then
    match header_get (headers resp) "X-auth-access-token" with
    | None => (Raise KeyError, self)
    | Some access =>
        let self :=
          {| self_headers := self_headers self; refresh_token := refresh_token self;
             auth_token := Some access; global_UUID := global_UUID self; s := s' |} in
        match header_get (headers resp) "X-auth-refresh-token" with
        | None => (Raise KeyError, self)
        | Some refresh =>
            let self :=
              {| self_headers := self_headers self; refresh_token := Some refresh;
                 auth_token := Some access; global_UUID := global_UUID self; s := s' |} in
            match header_get (headers resp) "DOMAIN_UUID" with
            | None => (Raise KeyError, self)
            | Some domain =>
                (Ok tt,
                 {| self_headers :=
                      Some [("Content-Type", "application/json");
                            ("X-auth-access-token", access)];
                    refresh_token := Some refresh;
                    auth_token := Some access;
                    global_UUID := Some domain;
                    s := s' |})
            end
        end
    end
  else (Raise SystemExit, self).

(** [self.s.get(get_url, headers=self.headers, params=params, verify=False)] *)
Definition session_get (get_url : string) (params : dict pyval) : method response :=
  fun self =>
    let '(resp, s') :=
      send {| req_verb := GET; req_url := get_url; req_headers := self_headers self;
              req_params := params; req_auth := None |} (s self) in
    (Ok resp,
     {| self_headers := self_headers self; refresh_token := refresh_token self;
        auth_token := auth_token self; global_UUID := global_UUID self; s := s' |}).

(** [getData]: [Some text] on 200, [None] otherwise. *)
Definition getData (get_url : string) (params : dict pyval) : method (option string) :=
  fun self =>
    match session_get get_url params self with
    | (Raise e, self) => (Raise e, self)
    | (Ok resp, self) =>
        let retried :=
          if status_code resp =? 401 then
            match authRequest self with
            | (Raise e, self) => (Raise e, self)
            | (Ok _, self) => session_get get_url params self
            end
          else (Ok resp, self) in
        match retried with
        | (Raise e, self) => (Raise e, self)
        | (Ok resp, self) =>
            if status_code resp =? 200 then (Ok (Some (text resp)), self)
            else (Ok None, self)
        end
    end.
(** [json.loads]: [None] when the text is not a JSON document. *)
Variable json_loads : string -> option pyval.

Definition loads (t : string) : result pyval :=
  match json_loads t with Some v => Ok v | None => Raise ValueError end.

(** [f"{self.global_UUID}"] *)
Definition format_uuid (uuid : option string) : string :=
  match uuid with Some u => u | None => "None" end.

(** [resp_json['items']] when ['items' in resp_json and
    len(resp_json['items']) > 0]. *)
Definition items_of (resp_json : pyval) : result (option pyval) :=
  b <- contains_str "items" resp_json ;;
  if b then
    items <- getitem_str resp_json "items" ;;
    n <- py_len_of items ;;
    if 0 <? n then Ok (Some items) else Ok None
  else Ok None.

(** [getDeviceRecords]: the items of the device inventory, or [None]. *)
Definition getDeviceRecords : method (option pyval) := fun self =>
  let url := (CONFIG_URL ++ "/domain/" ++ format_uuid (global_UUID self)
              ++ "/devices/devicerecords")%string in
  let params := [("expanded", PBool true); ("limit", PInt 1000)] in
  match getData url params self with
  | (Raise e, self) => (Raise e, self)
  | (Ok None, self) => (Ok None, self)
  | (Ok (Some resp), self) =>
      if truthy_str resp then
        match (resp_json <- loads resp ;; items_of resp_json) with
        | Raise e => (Raise e, self)
        | Ok found => (Ok found, self)
        end
      else (Ok None, self)
  end.

(** [FirePower(logger)]: a fresh object, then [authRequest]. *)
Definition init (session : session) : result unit * firepower :=
  authRequest {| self_headers := None; refresh_token := None; auth_token := None;
                 global_UUID := None; s := session |}.
End Client.

End FirePower.

(** * thousandeyes.py *)
Module ThousandEyes.
Import Py Http.

Definition BASE_URL : string := "https://api.thousandeyes.com/v6".

(** [f"{n}"] for an integer. *)
Definition format_int (n : Z) : string := DecimalString.NilZero.string_of_int (Z.to_int n).

Section Client.
Variable THOUSAND_EYES_TOKEN : string.
(** [json.loads]: [None] when the text is not a JSON document. *)
Variable json_loads : string -> option pyval.

Definition self_headers : dict string :=
  [("Content-Type", "application/json");
   ("Accept", "application/json");
   ("Authorization", ("Bearer " ++ THOUSAND_EYES_TOKEN)%string)].

(** [getData]: [Some text] on 200, [None] otherwise; no retry. *)
Definition getData (get_url : string) (params : dict pyval) (s : session)
    : option string * session :=
  let '(resp, s') :=
    send {| req_verb := GET; req_url := get_url; req_headers := Some self_headers;
            req_params := params; req_auth := None |} s in
  (if status_code resp =? 200 then Some (text resp) else None, s').

(** [json.loads(resp)] for what [getData] returned. *)
Definition loads (resp : option string) : result pyval :=
  match resp with
  | None => Raise TypeError
  | Some t => match json_loads t with Some v => Ok v | None => Raise ValueError end
  end.

(** ['net' in resp_json and 'metrics' in resp_json['net']] *)
Definition has_metrics (resp_json : pyval) : result bool :=
  b <- contains_str "net" resp_json ;;
  if b then (net <- getitem_str resp_json "net" ;; contains_str "metrics" net)
  else Ok false.

(** [metrics += resp_json['net']['metrics']], when the page has them. *)
Definition add_metrics (resp_json : pyval) (metrics : list pyval) : result (list pyval) :=
  b <- has_metrics resp_json ;;
  if b then
    net <- getitem_str resp_json "net" ;;
    page <- getitem_str net "metrics" ;;
    items <- iterate page ;;
    Ok (metrics ++ items)
  else Ok metrics.

(** The cursor [resp_json['pages']['next']], when ['next' in
    resp_json['pages']]. *)
Definition next_page (resp_json : pyval) : result (option pyval) :=
  pages <- getitem_str resp_json "pages" ;;
  b <- contains_str "next" pages ;;
  if b then (url <- getitem_str pages "next" ;; Ok (Some url)) else Ok None.

(** Whether [requests] accepts a URL that has the http or https scheme: it
    raises [InvalidURL] for one in which it finds no host, or no valid host
    or port. *)
Variable url_accepted : string -> bool.

(** The URLs to which [requests] sends a request.  The URLs that the client
    builds itself are BASE_URL followed by a path, which [requests]
    accepts; the cursor of a page comes from the server. *)
Definition sendable (url : string) : bool := has_http_scheme url && url_accepted url.

(** The [while True] loop.  [fuel] bounds the number of rounds; [None]
    says that the bound was reached with the loop still running.  A cursor
    that [requests] refuses, a value that is not a string among them, ends
    the loop with the exception of [requests]. *)
Fixpoint pages_loop (fuel : nat) (resp_json : pyval) (metrics : list pyval)
    (s : session) : option (result (list pyval)) * session :=
  match fuel with
  | O => (None, s)
  | S fuel' =>
      match add_metrics resp_json metrics with
      | Raise e => (Some (Raise e), s)
      | Ok metrics =>
          match next_page resp_json with
          | Raise e => (Some (Raise e), s)
          | Ok None => (Some (Ok metrics), s)
          | Ok (Some (PStr url)) =>
              if sendable url then
                let '(resp, s) := getData url [] s in
                match loads resp with
                | Raise e => (Some (Raise e), s)
                | Ok resp_json => pages_loop fuel' resp_json metrics s
                end
              else (Some (Raise RequestException), s)
          | Ok (Some _) => (Some (Raise RequestException), s)
          end
      end
  end.

Definition getTestData_NetworkE2E (fuel : nat) (test_id time_period : Z) (s : session)
    : option (result (option (list pyval))) * session :=
  let url := (BASE_URL ++ "/net/metrics/" ++ format_int test_id)%string in
  let params := [("window", PStr (format_int time_period ++ "s")%string)] in
  let '(resp, s) := getData url params s in
  match resp with
  | Some t =>
      if truthy_str t then
        match loads resp with
        | Raise e => (Some (Raise e), s)
        | Ok resp_json =>
            match has_metrics resp_json with
            | Raise e => (Some (Raise e), s)
            | Ok true =>
                match pages_loop fuel resp_json [] s with
                | (Some (Ok metrics), s) => (Some (Ok (Some metrics)), s)
                | (Some (Raise e), s) => (Some (Raise e), s)
                | (None, s) => (None, s)
                end
            | Ok false => (Some (Ok None), s)
            end
        end
      else (Some (Ok None), s)
  | None => (Some (Ok None), s)
  end.
(** The attributes of a [ThousandEyes] object that change: the index of
    test names and the session. *)
Record thousandeyes : Type := {
  test_name_to_id : kdict pyval;
  te_session : session
}.

(** One round of the loop of [__getTestList]:
    [if test['savedEvent'] == 0: index[test['testName']] = test['testId']]. *)
Definition add_test (index : kdict pyval) (test : pyval) : result (kdict pyval) :=
  saved <- getitem_str test "savedEvent" ;;
  if equals_zero saved then
    id <- getitem_str test "testId" ;;
    name <- getitem_str test "testName" ;;
    kdict_setitem index name id
  else Ok index.

(** The tests of the answer, when ['test' in resp_json and
    len(resp_json['test']) > 0]. *)
Definition tests_of (resp_json : pyval) : result (option (list pyval)) :=
  b <- contains_str "test" resp_json ;;
  if b then
    tests <- getitem_str resp_json "test" ;;
    n <- py_len_of tests ;;
    if 0 <? n then (items <- iterate tests ;; Ok (Some items)) else Ok None
  else Ok None.

(** [__getTestList]: the index is filled from the list of tests; without
    tests the process ends in [sys.exit(-1)]. *)
Definition getTestList (self : thousandeyes) : result thousandeyes :=
  let '(resp, s) := getData (BASE_URL ++ "/tests")%string [] (te_session self) in
  found <-
    match resp with
    | Some t =>
        if truthy_str t then
          resp_json <- loads resp ;;
          tests <- tests_of resp_json ;;
          match tests with
          | Some items =>
              index <- App.for_each items add_test (test_name_to_id self) ;;
              Ok (Some index)
          | None => Ok None
          end
        else Ok None
    | None => Ok None
    end ;;
  match found with
  | Some index => Ok {| test_name_to_id := index; te_session := s |}
  | None => Raise SystemExit
  end.

(** [ThousandEyes(logger)] *)
Definition init (session : session) : result thousandeyes :=
  getTestList {| test_name_to_id := []; te_session := session |}.

(** [getTestID] *)
Definition getTestID (self : thousandeyes) (test_name : pyval) : result (option pyval) :=
  kdict_find (test_name_to_id self) test_name.

(** [getTestDetails]: the first element of the answer's 'test'. *)
Definition getTestDetails (test_id : Z) (s : session) : result (option pyval) * session :=
  let url := (BASE_URL ++ "/tests/" ++ format_int test_id)%string in
  let '(resp, s) := getData url [] s in
  match resp with
  | Some t =>
      if truthy_str t then
        (resp_json <- loads resp ;;
         b <- contains_str "test" resp_json ;;
         if b then
           tests <- getitem_str resp_json "test" ;;
           first <- getitem_nat tests 0 ;;
           Ok (Some first)
         else Ok None, s)
      else (Ok None, s)
  | None => (Ok None, s)
  end.
End Client.

End ThousandEyes.

(** * app.py: the fetchers *)
Module Fetchers.
Import Py App Http.

(** ** get_ftd_devices *)

(** [device[k] if k in device else None] *)
Definition optional_field (device : pyval) (k : string) : result pyval :=
  b <- contains_str k device ;;
  if b then getitem_str device k else Ok PNone.

(** The dictionary built for one device record. *)
Definition curated (device : pyval) : result (dict pyval) :=
  id <- getitem_str device "id" ;;
  name <- optional_field device "name" ;;
  hostName <- optional_field device "hostName" ;;
  performanceTier <- optional_field device "performanceTier" ;;
  sw_version <- optional_field device "sw_version" ;;
  snortEngine <- optional_field device "snortEngine" ;;
  metadata <- getitem_str device "metadata" ;;
  b <- contains_str "snortVersion" metadata ;;
  snortVersion <- (if b then getitem_str metadata "snortVersion" else Ok PNone) ;;
  Ok [("id", id); ("name", name); ("hostName", hostName);
      ("performanceTier", performanceTier); ("sw_version", sw_version);
      ("snortEngine", snortEngine); ("snortVersion", snortVersion)].

(** One round of the loop "Useful logging":
    [if device['name']: log_devices[device['name']] = device['id']]; only
    the exception that the assignment can raise matters. *)
Definition logged (device : dict pyval) : result unit :=
  name <- dict_item device "name" ;;
  if truthy name then
    (_ <- dict_item device "id" ;;
     if hashable name then Ok tt else Raise TypeError)
  else Ok tt.

(** [get_ftd_devices], given what [fmc.getDeviceRecords()] returned. *)
Definition get_ftd_devices (device_records : option pyval)
    : result (option (list (dict pyval))) :=
  match device_records with
  | Some records =>
      if truthy records then
        items <- iterate records ;;
        devices <- comprehension curated items ;;
        _ <- comprehension logged devices ;;
        Ok (Some devices)
      else Ok None
  | None => Ok None
  end.

Section Clients.
(** The two client objects, seen through the methods that the fetchers
    call: a method takes the state of the client and gives a value or an
    exception, and a new state. *)
Variable fmc_state : Type.
Variable getHealthMetrics :
  Z -> string -> string -> string -> fmc_state -> result (option pyval) * fmc_state.
Variable json_loads : string -> option pyval.

(** ** get_health_metrics *)

(** The first loop: one call per device, [health_metric[0]] kept when the
    call returned something true. *)
Fixpoint fetch_metrics (time_period_seconds : Z) (device_uuids : list string)
    (metric regexFilter : string) (health_metrics : list pyval) (fmc : fmc_state)
    : result (list pyval) * fmc_state :=
  match device_uuids with
  | [] => (Ok health_metrics, fmc)
  | device_uuid :: rest =>
      match getHealthMetrics time_period_seconds device_uuid metric regexFilter fmc with
      | (Raise e, fmc) => (Raise e, fmc)
      | (Ok health_metric, fmc) =>
          let found :=
            match health_metric with
            | Some items => if truthy items then Some items else None
            | None => None
            end in
          match found with
          | Some items =>
              match getitem_nat items 0 with
              | Ok first =>
                  fetch_metrics time_period_seconds rest metric regexFilter
                    (health_metrics ++ [first]) fmc
              | Raise e => (Raise e, fmc)
              end
          | None =>
              fetch_metrics time_period_seconds rest metric regexFilter health_metrics fmc
          end
      end
  end.

(** [json.loads(x)] for any value [x]: only a string can be decoded. *)
Definition loads_value (x : pyval) : result pyval :=
  match x with
  | PStr t => match json_loads t with Some v => Ok v | None => Raise ValueError end
  | _ => Raise TypeError
  end.

(** The [try] block of the second loop: the key and the raw data of one
    health metric. *)
Definition metric_entry (health_metric : pyval) : result (pyval * pyval) :=
  response <- getitem_str health_metric "response" ;;
  metric_data <- loads_value response ;;
  data <- getitem_str metric_data "data" ;;
  results <- getitem_str data "result" ;;
  first <- getitem_nat results 0 ;;
  raw_data <- getitem_str first "values" ;;
  device_uuid <- getitem_str health_metric "deviceUUID" ;;
  if hashable device_uuid then Ok (device_uuid, raw_data) else Raise TypeError.

(** One round of the second loop.  The handler formats
    [health_metric['deviceUUID']] for the log, which can raise in turn. *)
Definition keep_metric (device_uuid_to_metrics : kdict pyval) (health_metric : pyval)
    : result (kdict pyval) :=
  try_except
    (entry <- metric_entry health_metric ;;
     Ok (kdict_set device_uuid_to_metrics (fst entry) (snd entry)))
    (fun _ =>
       _ <- getitem_str health_metric "deviceUUID" ;;
       Ok device_uuid_to_metrics).

Definition get_health_metrics (time_period_seconds : Z) (device_uuids : list string)
    (metric regexFilter : string) (fmc : fmc_state)
    : result (option (kdict pyval)) * fmc_state :=
  match fetch_metrics time_period_seconds device_uuids metric regexFilter [] fmc with
  | (Raise e, fmc) => (Raise e, fmc)
  | (Ok health_metrics, fmc) =>
      if 0 <? Z.of_nat (List.length health_metrics) then
        match for_each health_metrics keep_metric [] with
        | Ok device_uuid_to_metrics => (Ok (Some device_uuid_to_metrics), fmc)
        | Raise e => (Raise e, fmc)
        end
      else (Ok None, fmc)
  end.

(** ** get_te_test_results *)

Variable te_state : Type.
Variable getTestID : string -> te_state -> result (option pyval) * te_state.
Variable getTestDetails : pyval -> te_state -> result (option pyval) * te_state.
Variable getTestData_NetworkE2E :
  pyval -> Z -> te_state -> result (option (list pyval)) * te_state.
(** [config.TE_TEST_MAPPING] *)
Variable TE_TEST_MAPPING : dict string.

(** The name of the test mapped to a device, when
    [device['name'] and device['name'] in config.TE_TEST_MAPPING]. *)
Definition mapped_test (device : ftd_device) : option string :=
  match dev_name device with
  | Some name => if truthy_str name then dict_get TE_TEST_MAPPING name else None
  | None => None
  end.

(** One round of the loop over the devices. *)
Definition te_device (time_period_seconds : Z)
    (acc : dict (list pyval) * dict pyval) (device : ftd_device) (te : te_state)
    : result (dict (list pyval) * dict pyval) * te_state :=
  let '(te_results, te_test_details) := acc in
  match mapped_test device with
  | Some test_name =>
      match getTestID test_name te with
      | (Raise e, te) => (Raise e, te)
      | (Ok test_id, te) =>
          match (match test_id with
                 | Some id => if truthy id then Some id else None
                 | None => None
                 end) with
          | Some test_id =>
              match getTestDetails test_id te with
              | (Raise e, te) => (Raise e, te)
              | (Ok test_details, te) =>
                  let te_test_details :=
                    match test_details with
                    | Some details =>
                        if truthy details
                        then dict_set te_test_details (dev_id device) details
                        else te_test_details
                    | None => te_test_details
                    end in
                  match getTestData_NetworkE2E test_id time_period_seconds te with
                  | (Raise e, te) => (Raise e, te)
                  | (Ok test_data, te) =>
                      let te_results :=
                        match test_data with
                        | Some data =>
                            if truthy_list data
                            then dict_set te_results (dev_id device) data
                            else te_results
                        | None => te_results
                        end in
                      (Ok (te_results, te_test_details), te)
                  end
              end
          | None => (Ok (te_results, te_test_details), te)
          end
      end
  | None => (Ok (te_results, te_test_details), te)
  end.

Fixpoint te_devices (time_period_seconds : Z) (devices : list ftd_device)
    (acc : dict (list pyval) * dict pyval) (te : te_state)
    : result (dict (list pyval) * dict pyval) * te_state :=
  match devices with
  | [] => (Ok acc, te)
  | device :: rest =>
      match te_device time_period_seconds acc device te with
      | (Raise e, te) => (Raise e, te)
      | (Ok acc, te) => te_devices time_period_seconds rest acc te
      end
  end.

Definition get_te_test_results (time_period_seconds : Z) (devices : list ftd_device)
    (te : te_state) : result (dict (list pyval) * dict pyval) * te_state :=
  te_devices time_period_seconds devices ([], []) te.
End Clients.

End Fetchers.

(** * Vocabulary of the statements *)
Module Spec.
Import Py App Http.

(** The series that [raw[device]] stands for, empty for an unknown key. *)
Definition series_of {A} (raw : dict (list A)) (device : string) : list A :=
  match dict_get raw device with Some l => l | None => [] end.

(** One sample absorbed into a normalised series: stored under its label
    when [entry] yields one, left out when [entry] raises. *)
Definition keep (entry : pyval -> result (string * pyval))
    (series : dict pyval) (data : pyval) : dict pyval :=
  match entry data with
  | Ok (label, value) => dict_set series label value
  | Raise _ => series
  end.

Definition fill (entry : pyval -> result (string * pyval))
    (samples : list pyval) (series : dict pyval) : dict pyval :=
  fold_left (keep entry) samples series.

Definition normalised (entry : pyval -> result (string * pyval))
    (raw : dict (list pyval)) : dict (dict pyval) :=
  fold_left (fun out device => dict_set out device (fill entry (series_of raw device) []))
            (dict_keys raw) [].

(** [data] is the last sample of [samples], in list order, that bears
    [label], and its value is [value]. *)
Definition last_with (entry : pyval -> result (string * pyval))
    (samples : list pyval) (label : string) (value : pyval) : Prop :=
  exists before data after,
    samples = before ++ data :: after /\
    entry data = Ok (label, value) /\
    forall later value', In later after -> entry later <> Ok (label, value').

(** The loop body shared by [snort_sample] and [te_sample], for any [try]
    block [entry]. *)
Definition absorb (entry : pyval -> result (string * pyval)) (device : string)
    (out : dict (dict pyval)) (data : pyval) : result (dict (dict pyval)) :=
  try_except
    (e <- entry data ;;
     series <- dict_item out device ;;
     Ok (dict_set out device (dict_set series (fst e) (snd e))))
    (fun _ => Ok out).

(** The loop body of the three [calculate_*] functions, for any statistic
    [stat]. *)
Definition stat_step (stat : dict pyval -> result pyval) (m : dict (dict pyval))
    (out : dict pyval) (device : string) : result (dict pyval) :=
  series <- dict_item m device ;;
  value <- stat series ;;
  Ok (dict_set out device value).

(** No character of [s] is a blank. *)
Definition no_space (s : string) : bool :=
  forallb (fun c => negb (is_space c)) (list_ascii_of_string s).

(** The [GET] that [FirePower.getData] sends with the headers [h]. *)
Definition fmc_get (url : string) (h : option (dict string)) (params : dict pyval)
    : request :=
  {| req_verb := GET; req_url := url; req_headers := h; req_params := params;
     req_auth := None |}.

(** The answer to the token request is 204 and carries the three headers
    that [authRequest] reads. *)
Definition auth_accepted (resp : response) : bool :=
  (status_code resp =? 204) &&
  match header_get (headers resp) "X-auth-access-token",
        header_get (headers resp) "X-auth-refresh-token",
        header_get (headers resp) "DOMAIN_UUID" with
  | Some _, Some _, Some _ => true
  | _, _, _ => false
  end.

(** The session headers after an accepted token request. *)
Definition fresh_headers (resp : response) : option (dict string) :=
  match header_get (headers resp) "X-auth-access-token" with
  | Some access =>
      Some [("Content-Type", "application/json"); ("X-auth-access-token", access)]
  | None => None
  end.

(** "No data" unless the status is 200. *)
Definition data_of (resp : response) : option string :=
  if status_code resp =? 200 then Some (text resp) else None.

(** *** Pages of network metrics *)

(** The [net.metrics] array of a page, empty when the page has none. *)
Definition page_items (resp_json : pyval) : list pyval :=
  match resp_json with
  | PDict d =>
      match dict_get d "net" with
      | Some (PDict net) =>
          match dict_get net "metrics" with Some (PList l) => l | _ => [] end
      | _ => []
      end
  | _ => []
  end.

(** The [pages.next] cursor of a page. *)
Definition page_cursor (resp_json : pyval) : option string :=
  match resp_json with
  | PDict d =>
      match dict_get d "pages" with
      | Some (PDict pages) =>
          match dict_get pages "next" with Some (PStr url) => Some url | _ => None end
      | _ => None
      end
  | _ => None
  end.

(** A page as the platform sends it: an object with a "pages" object whose
    "next", if any, is a string, and whose "net", if any, is an object
    whose "metrics", if any, is an array. *)
Definition well_formed_page (resp_json : pyval) : bool :=
  match resp_json with
  | PDict d =>
      andb
        (match dict_get d "net" with
         | None => true
         | Some (PDict net) =>
             match dict_get net "metrics" with
             | None | Some (PList _) => true
             | _ => false
             end
         | _ => false
         end)
        (match dict_get d "pages" with
         | Some (PDict pages) =>
             match dict_get pages "next" with
             | None | Some (PStr _) => true
             | _ => false
             end
         | _ => false
         end)
  | _ => false
  end.

(** The page has a [net.metrics] array. *)
Definition page_has_metrics (resp_json : pyval) : bool :=
  match resp_json with
  | PDict d =>
      match dict_get d "net" with
      | Some (PDict net) => dict_has net "metrics"
      | _ => false
      end
  | _ => false
  end.





(** A page with the items [items] and, possibly, a cursor. *)
Definition make_page (items : list pyval) (cursor : option string) : pyval :=
  PDict [("net", PDict [("metrics", PList items)]);
         ("pages", PDict (("current", PInt 1)
                          :: match cursor with
                             | Some url => [("next", PStr url)]
                             | None => []
                             end))].

(** *** The device list *)

(** The six keys that [index] adds to a device. *)
Definition derived_fields : list string :=
  ["te_test_details"; "snort_cpu_data"; "snort_cpu_avg"; "snort_cpu_max";
   "te_test_data"; "te_latency_avg"].

(** Every derived key is present in the dictionary of [d]. *)
Definition uniform (d : ftd_device) : bool :=
  forallb (dict_has (dev_fields d)) derived_fields.

Definition named (d : ftd_device) : bool :=
  match dev_name d with Some _ => true | None => false end.

(** [a] may stand before [b] in a list sorted by name, ascending. *)
Definition name_le (a b : ftd_device) : bool :=
  match dev_name a, dev_name b with
  | Some x, Some y => String.leb x y
  | _, _ => false
  end.

(** *** Rounding *)

(** [k] is an integer nearest to the fraction [num / den], for [0 < den]:
    [|num / den - k| <= 1/2]. *)
Definition nearest (num den k : Z) : Prop := 2 * Z.abs (num - k * den) <= den.

(** [num / den] lies half-way between two integers and [k] is one of
    them. *)
Definition tie (num den k : Z) : Prop := 2 * Z.abs (num - k * den) = den.

(** The float sum of [sum]: the floats are added from left to right to
    [float(0)]. *)
Definition b64_sum (fs : list spec_float) : spec_float :=
  fold_left b64_add fs (S754_zero false).

(** The exact value of a number, as a fraction [(num, den)] with [0 < den]:
    of a float, of an integer, of the decimal that a string spells. *)
Definition float_fraction (f : spec_float) : option (Z * Z) :=
  match f with
  | S754_zero _ => Some (0, 1)
  | S754_finite s m e =>
      Some (cond_Zopp s (Zpos m) * 2 ^ Z.max 0 e, 2 ^ Z.max 0 (- e))
  | _ => None
  end.

Definition decimal_fraction (str : string) : option (Z * Z) :=
  let '(s, body) := take_sign (strip (list_ascii_of_string str)) in
  match read_decimal body with
  | Some (d, p) => Some (cond_Zopp s d * 10 ^ Z.max 0 p, 10 ^ Z.max 0 (- p))
  | None => None
  end.

Definition exact_value (v : pyval) : option (Z * Z) :=
  match v with
  | PFloat f => float_fraction f
  | PInt z => Some (z, 1)
  | PStr str => decimal_fraction str
  | _ => None
  end.

(** The exact sum of the values, as a fraction. *)
Fixpoint exact_sum (values : list pyval) : option (Z * Z) :=
  match values with
  | [] => Some (0, 1)
  | v :: rest =>
      match exact_value v, exact_sum rest with
      | Some (a, b), Some (c, d) => Some (a * d + c * b, b * d)
      | _, _ => None
      end
  end.

(** [r] is the exact average of [values] rounded to one decimal: the float
    nearest to [k / 10] for an integer [k] nearest to ten times the
    average (whatever the rule for ties). *)
Definition exact_average_rounded (values : list pyval) (r : pyval) : Prop :=
  exists num den k,
    exact_sum values = Some (num, den) /\
    nearest (10 * num) (den * Z.of_nat (List.length values)) k /\
    r = PFloat (b64_of_decimal (k <? 0) (Z.abs k) (-1)).

(** A sample is malformed when its [try] block raises. *)
Definition malformed (entry : pyval -> result (string * pyval)) (data : pyval) : Prop :=
  exists e, entry data = Raise e.

(** *** Labels *)

(** [s] reads "HH:MM": two digits, a colon, two digits, the hour below 24
    and the minute below 60. *)
Definition is_hhmm (s : string) : bool :=
  match list_ascii_of_string s with
  | [h1; h2; colon; m1; m2] =>
      is_digit h1 && is_digit h2 && Ascii.eqb colon ":" && is_digit m1 && is_digit m2
      && (10 * digit_val h1 + digit_val h2 <? 24)
      && (10 * digit_val m1 + digit_val m2 <? 60)
  | _ => false
  end.

(** The minute of the day, in UTC, of a Unix time. *)
Definition minute_of_day (t : Z) : Z := (t mod 86400) / 60.

(** The minute of the day that a label "HH:MM" spells. *)
Definition label_minute (s : string) : Z :=
  match list_ascii_of_string s with
  | [h1; h2; _; m1; m2] =>
      60 * (10 * digit_val h1 + digit_val h2) + (10 * digit_val m1 + digit_val m2)
  | _ => -1
  end.

(** *** The merge *)

(** The entry of [m] for [id], or [None]. *)
Definition entry_or_none {V} (inj : V -> pyval) (m : option (dict V)) (id : string)
    : pyval :=
  match m with
  | Some d => match dict_get d id with Some v => inj v | None => PNone end
  | None => PNone
  end.

(** The devices of [l] whose name is [n], in the order of [l]. *)
Definition with_name (n : option string) (l : list ftd_device) : list ftd_device :=
  filter (fun d => match dev_name d, n with
                   | Some x, Some y => String.eqb x y
                   | None, None => true
                   | _, _ => false
                   end) l.

(** *** Requests without end *)

(** From request number [i] on, every answer is a page that has a cursor,
    a URL to which a request can be sent. *)
Definition endless (sendable : string -> bool) (answers : nat -> response)
    (json_loads : string -> option pyval) (i : nat) : Prop :=
  forall k, (i <= k)%nat ->
    status_code (answers k) = 200 /\
    exists page url,
      json_loads (text (answers k)) = Some page /\
      well_formed_page page = true /\
      page_cursor page = Some url /\
      sendable url = true.

(** *** The curated devices *)

(** The value of an optional key: [None] when the key is absent. *)
Definition or_none (o : option pyval) : pyval :=
  match o with Some v => v | None => PNone end.

Definition device_keys : list string :=
  ["id"; "name"; "hostName"; "performanceTier"; "sw_version"; "snortEngine";
   "snortVersion"].

Definition optional_keys : list string :=
  ["name"; "hostName"; "performanceTier"; "sw_version"; "snortEngine"].

(** [device] is the curated form of the inventory record [d]. *)
Definition curated_from (d : dict pyval) (device : dict pyval) : Prop :=
  dict_keys device = device_keys /\
  dict_get d "id" <> None /\
  dict_get device "id" = dict_get d "id" /\
  (forall k, In k optional_keys -> dict_get device k = Some (or_none (dict_get d k))) /\
  exists metadata,
    dict_get d "metadata" = Some metadata /\
    forall md, metadata = PDict md ->
      dict_get device "snortVersion" = Some (or_none (dict_get md "snortVersion")).

(** *** The health metrics *)

(** The device and the raw samples of a health metric of the expected
    shape: an object with a 'deviceUUID' that can be a key and a 'response'
    that is the text of an object whose data.result[0].values exists. *)
Definition raw_values (json_loads : string -> option pyval) (health_metric : pyval)
    : option (pyval * pyval) :=
  match health_metric with
  | PDict hm =>
      match dict_get hm "response", dict_get hm "deviceUUID" with
      | Some (PStr t), Some uuid =>
          match json_loads t with
          | Some (PDict metric_data) =>
              match dict_get metric_data "data" with
              | Some (PDict data) =>
                  match dict_get data "result" with
                  | Some (PList (PDict first :: _)) =>
                      match dict_get first "values" with
                      | Some raw => if hashable uuid then Some (uuid, raw) else None
                      | None => None
                      end
                  | _ => None
                  end
              | _ => None
              end
          | _ => None
          end
      | _, _ => None
      end
  | _ => None
  end.

(** The raw samples of the last health metric of the expected shape whose
    device is [uuid]. *)
Definition values_for (json_loads : string -> option pyval) (health_metrics : list pyval)
    (uuid : string) : option pyval :=
  fold_left
    (fun found health_metric =>
       match raw_values json_loads health_metric with
       | Some (PStr u, raw) => if String.eqb u uuid then Some raw else found
       | _ => found
       end)
    health_metrics None.

(** *** The ThousandEyes results *)

(** What the entries of a dictionary of results can be after the round of
    [device]: what they were, or a new value stored under the id of this
    device, which is mapped to a test. *)
Definition entry_after {V} (TE_TEST_MAPPING : dict string) (good : V -> Prop)
    (device : ftd_device) (before after : dict V) : Prop :=
  forall id v, dict_get after id = Some v ->
    dict_get before id = Some v \/
    (good v /\ dev_id device = id /\ Fetchers.mapped_test TE_TEST_MAPPING device <> None).

(** *** The index of tests *)

(** The id of [test] when it is a live test (its 'savedEvent' is 0) called
    [name]. *)
Definition live_test (name : string) (test : pyval) : option pyval :=
  match test with
  | PDict d =>
      match dict_get d "savedEvent", dict_get d "testName", dict_get d "testId" with
      | Some saved, Some (PStr n), Some id =>
          if equals_zero saved && String.eqb n name then Some id else None
      | _, _, _ => None
      end
  | _ => None
  end.

(** The id of the last live test of [tests] called [name]. *)
Definition last_live (tests : list pyval) (name : string) : option pyval :=
  fold_left
    (fun found test =>
       match live_test name test with Some id => Some id | None => found end)
    tests None.

(** The answer has no tests: no 'test', or one of length 0. *)
Definition no_tests (d : dict pyval) : Prop :=
  match dict_get d "test" with
  | None => True
  | Some tests => py_len_of tests = Ok 0
  end.

(** *** The windows of the dashboard *)

(** What a device called [id] shows of the metrics [raw] of one window:
    its entry of [compute raw], and [None] when there are no metrics or no
    entry. *)
Definition from_window {V} (inj : V -> pyval)
    (compute : dict (list pyval) -> result (dict V))
    (raw : option (dict (list pyval))) (id : string) : pyval :=
  match raw with
  | Some raw =>
      match compute raw with
      | Ok m => entry_or_none inj (Some m) id
      | Raise _ => PNone
      end
  | None => PNone
  end.

(** *** Sums and quotients of numbers *)

(** A number as [sum] and [/] see it: an integer is exact (a boolean counts
    as 0 or 1), a float is binary. *)
Inductive number : Type :=
| Exact (z : Z)
| Binary (f : spec_float).

Definition number_of (v : pyval) : option number :=
  match v with
  | PInt z => Some (Exact z)
  | PBool b => Some (Exact (if b then 1 else 0))
  | PFloat f => Some (Binary f)
  | _ => None
  end.

(** The float that stands for a number in a float operation: the nearest
    one for an integer, none for an integer beyond the floats. *)
Definition binary_of (x : number) : option spec_float :=
  match x with
  | Binary f => Some f
  | Exact z => match b64_of_Z z with S754_infinity _ => None | f => Some f end
  end.

(** Two integers are added exactly; when a float takes part the sum is the
    float sum. *)
Definition plus (a b : number) : option number :=
  match a, b with
  | Exact m, Exact n => Some (Exact (m + n))
  | _, _ =>
      match binary_of a, binary_of b with
      | Some x, Some y => Some (Binary (b64_add x y))
      | _, _ => None
      end
  end.

(** The numbers of [l] added to [acc] from left to right. *)
Fixpoint total (acc : number) (l : list number) : option number :=
  match l with
  | [] => Some acc
  | x :: l' =>
      match plus acc x with
      | Some acc' => total acc' l'
      | None => None
      end
  end.

(** The integer [z] as a float that is not rounded. *)
Definition exact_float (z : Z) : spec_float :=
  match z with
  | Z0 => S754_zero false
  | Zpos p => S754_finite false p 0
  | Zneg p => S754_finite true p 0
  end.

(** The sum divided by the count [n]: a float sum by the float of [n], an
    integer sum by [n] itself (one rounding, of the quotient of the two
    integers), none when this quotient is beyond the floats. *)
Definition quotient (sum : number) (n : Z) : option spec_float :=
  match sum with
  | Binary f => Some (b64_div f (b64_of_Z n))
  | Exact z =>
      match b64_div (exact_float z) (exact_float n) with
      | S754_infinity _ => None
      | q => Some q
      end
  end.

(** The average that [sum(l) / len(l)] computes for numbers. *)
Definition number_average (l : list number) : option spec_float :=
  match total (Exact 0) l with
  | Some sum => quotient sum (Z.of_nat (List.length l))
  | None => None
  end.

End Spec.

(** * Properties *)

Import Py App Http.

(** ** Dictionaries *)

Section DictFacts.
Context {V : Type}.
Implicit Types (d : dict V) (k : string) (v : V).

Lemma dict_get_set_same d k v : dict_get (dict_set d k v) k = Some v.
Proof.
  induction d as [|[k' v'] d IH]; simpl.
  - now rewrite String.eqb_refl.
  - destruct (String.eqb k' k) eqn:E; simpl; rewrite E; auto.
Qed.

Lemma dict_get_set_other d k k' v :
  k <> k' -> dict_get (dict_set d k v) k' = dict_get d k'.
Proof.
  intros Hne. induction d as [|[k0 v0] d IH]; simpl.
  - destruct (String.eqb_spec k k'); congruence.
  - destruct (String.eqb_spec k0 k) as [->|]; simpl.
    + destruct (String.eqb_spec k k'); congruence.
    + now rewrite IH.
Qed.

Lemma dict_get_set d k k' v :
  dict_get (dict_set d k v) k' = if String.eqb k k' then Some v else dict_get d k'.
Proof.
  destruct (String.eqb_spec k k') as [->|Hne].
  - apply dict_get_set_same.
  - now apply dict_get_set_other.
Qed.

Lemma dict_get_In d k : In k (dict_keys d) <-> exists v, dict_get d k = Some v.
Proof.
  induction d as [|[k' v'] d IH]; simpl.
  - split; [tauto | intros [v H]; discriminate].
  - destruct (String.eqb_spec k' k) as [->|Hne].
    + split; eauto.
    + rewrite IH. split; [intros [?|?]; [congruence | auto] | auto].
Qed.

Lemma dict_get_None d k : ~ In k (dict_keys d) <-> dict_get d k = None.
Proof.
  rewrite dict_get_In. destruct (dict_get d k); split; try congruence.
  - intros H. exfalso. eauto.
  - intros _ [v' H]. discriminate.
Qed.

Lemma dict_keys_set_In d k v k' :
  In k' (dict_keys (dict_set d k v)) <-> k' = k \/ In k' (dict_keys d).
Proof.
  rewrite !dict_get_In, dict_get_set.
  destruct (String.eqb_spec k k') as [->|Hne].
  - split; eauto.
  - split; [auto | intros [?|?]; [congruence | auto]].
Qed.

Lemma dict_keys_set_old d k v :
  In k (dict_keys d) -> dict_keys (dict_set d k v) = dict_keys d.
Proof.
  induction d as [|[k' v'] d IH]; simpl; [tauto|].
  destruct (String.eqb_spec k' k) as [->|Hne]; simpl; auto.
  intros [?|Hin]; [congruence|]. now rewrite IH.
Qed.

Lemma dict_keys_set_new d k v :
  ~ In k (dict_keys d) -> dict_keys (dict_set d k v) = dict_keys d ++ [k].
Proof.
  induction d as [|[k' v'] d IH]; simpl; auto.
  destruct (String.eqb_spec k' k) as [->|Hne]; simpl.
  - tauto.
  - intros Hn. rewrite IH; tauto.
Qed.

Lemma dict_set_NoDup d k v : NoDup (dict_keys d) -> NoDup (dict_keys (dict_set d k v)).
Proof.
  intros Hnd. destruct (in_dec string_dec k (dict_keys d)) as [Hin|Hn].
  - now rewrite dict_keys_set_old.
  - rewrite dict_keys_set_new by assumption.
    apply NoDup_app; [assumption | repeat constructor; simpl; tauto |].
    intros x Hx [<-|[]]. contradiction.
Qed.

Lemma dict_has_In d k : dict_has d k = true <-> In k (dict_keys d).
Proof.
  unfold dict_has. rewrite dict_get_In.
  destruct (dict_get d k); split; try congruence; eauto.
  intros [v' H]; discriminate.
Qed.
End DictFacts.

(** ** Loops *)

Lemma dict_set_twice {V} (d : dict V) k v v' :
  dict_set (dict_set d k v) k v' = dict_set d k v'.
Proof.
  induction d as [|[k0 v0] d IH]; simpl.
  - now rewrite String.eqb_refl.
  - destruct (String.eqb k0 k) eqn:E; simpl; rewrite E; [reflexivity | now rewrite IH].
Qed.

Lemma dict_set_same_value {V} (d : dict V) k v :
  dict_get d k = Some v -> dict_set d k v = d.
Proof.
  induction d as [|[k0 v0] d IH]; simpl; [discriminate|].
  destruct (String.eqb k0 k) eqn:E.
  - now intros [= ->].
  - intros H. now rewrite IH.
Qed.

Lemma for_each_app {A S} (l1 l2 : list A) (body : S -> A -> result S) (s : S) :
  for_each (l1 ++ l2) body s = (s' <- for_each l1 body s ;; for_each l2 body s').
Proof.
  revert s. induction l1 as [|x l1 IH]; intros s; simpl; [reflexivity|].
  destruct (body s x); simpl; auto.
Qed.

Lemma fill_snoc entry samples data series :
  Spec.fill entry (samples ++ [data]) series
  = Spec.keep entry (Spec.fill entry samples series) data.
Proof. unfold Spec.fill. now rewrite fold_left_app. Qed.

(** The inner loop of a [convert_*] function leaves every device alone but
    the current one, whose series absorbs the samples one by one; it never
    raises. *)
Section InnerLoop.
Variable entry : pyval -> result (string * pyval).
Hypothesis entry_Exception : forall data e, entry data = Raise e -> is_Exception e = true.

Lemma inner_loop device samples : forall out series,
  dict_get out device = Some series ->
  for_each samples (Spec.absorb entry device) out
  = Ok (dict_set out device (Spec.fill entry samples series)).
Proof.
  induction samples as [|data samples IH]; intros out series Hget; simpl.
  - now rewrite dict_set_same_value.
  - unfold Spec.absorb at 1, Spec.keep. destruct (entry data) as [[label value]|e] eqn:E; simpl.
    + unfold dict_item. rewrite Hget. simpl.
      rewrite (IH _ (dict_set series label value)) by apply dict_get_set_same.
      now rewrite dict_set_twice.
    + rewrite (entry_Exception _ _ E). simpl. now apply IH.
Qed.

Lemma outer_loop (raw : dict (list pyval)) : forall keys out,
  (forall k, In k keys -> In k (dict_keys raw)) ->
  for_each keys
    (fun out device =>
       samples <- dict_item raw device ;;
       for_each samples (Spec.absorb entry device) (dict_set out device []))
    out
  = Ok (fold_left
          (fun out device => dict_set out device (Spec.fill entry (Spec.series_of raw device) []))
          keys out).
Proof.
  induction keys as [|k keys IH]; intros out Hin; simpl; [reflexivity|].
  destruct (proj1 (dict_get_In raw k) (Hin k (or_introl eq_refl))) as [l Hl].
  unfold dict_item at 1. rewrite Hl. simpl.
  rewrite (inner_loop k l _ []) by apply dict_get_set_same.
  simpl. rewrite dict_set_twice. unfold Spec.series_of at 2. rewrite Hl.
  apply IH. intros k' Hk'. apply Hin. now right.
Qed.
End InnerLoop.

(** ** The two [try] blocks raise nothing but [Exception]s *)

Lemma getitem_nat_Exception x i e : getitem_nat x i = Raise e -> is_Exception e = true.
Proof.
  destruct x; simpl; try (intros [= <-]; reflexivity).
  - destruct (get i s); intros [= <-]; reflexivity.
  - destruct (nth_error l i); intros [= <-]; reflexivity.
Qed.

Lemma getitem_str_Exception x k e : getitem_str x k = Raise e -> is_Exception e = true.
Proof.
  destruct x; simpl; try (intros [= <-]; reflexivity).
  unfold dict_item. destruct (dict_get d k); intros [= <-]; reflexivity.
Qed.

Lemma utc_hhmm_Exception x e : utc_hhmm x = Raise e -> is_Exception e = true.
Proof.
  unfold utc_hhmm, timestamp_seconds, float_seconds.
  destruct x as [ | b | z | f | s | l | d]; simpl;
    try (intros [= <-]; reflexivity);
    try (destruct (_ && _); intros [= <-]; reflexivity).
  destruct f; simpl;
    try (intros [= <-]; reflexivity);
    try (destruct (_ && _); intros [= <-]; reflexivity).
Qed.

Lemma snort_entry_Exception data e : snort_entry data = Raise e -> is_Exception e = true.
Proof.
  unfold snort_entry.
  destruct (getitem_nat data 0) as [stamp|e0] eqn:E0; simpl.
  2:{ intros [= <-]. eapply getitem_nat_Exception; eauto. }
  destruct (utc_hhmm stamp) as [t|e1] eqn:E1; simpl.
  2:{ intros [= <-]. eapply utc_hhmm_Exception; eauto. }
  destruct (getitem_nat data 1) as [v|e2] eqn:E2; simpl; [discriminate|].
  intros [= <-]. eapply getitem_nat_Exception; eauto.
Qed.

Lemma te_entry_Exception data e : te_entry data = Raise e -> is_Exception e = true.
Proof.
  unfold te_entry.
  destruct (getitem_str data "date") as [date|e0] eqn:E0; cbn [bind].
  2:{ intros [= <-]. eapply getitem_str_Exception; eauto. }
  destruct (py_split date) as [parts|e1] eqn:E1; cbn [bind].
  2:{ intros [= <-]. destruct date; cbn [bind] in E1; inversion E1; reflexivity. }
  destruct (nth_error parts 1); cbn [bind]; [|intros [= <-]; reflexivity].
  destruct (getitem_str data "avgLatency") as [a|e2] eqn:E2; cbn [bind].
  2:{ intros [= <-]. eapply getitem_str_Exception; eauto. }
  destruct (getitem_str data "loss") as [l|e3] eqn:E3; cbn [bind].
  2:{ intros [= <-]. eapply getitem_str_Exception; eauto. }
  destruct (getitem_str data "jitter") as [j|e4] eqn:E4; cbn [bind]; [discriminate|].
  intros [= <-]. eapply getitem_str_Exception; eauto.
Qed.

(** Both [convert_*] functions return, and what they return is
    [Spec.normalised]. *)
Lemma convert_snort_metric_data_normalised raw :
  convert_snort_metric_data raw = Ok (Spec.normalised snort_entry raw).
Proof.
  unfold convert_snort_metric_data, Spec.normalised.
  apply (outer_loop snort_entry snort_entry_Exception raw). auto.
Qed.

Lemma convert_te_test_data_normalised raw :
  convert_te_test_data raw = Ok (Spec.normalised te_entry raw).
Proof.
  unfold convert_te_test_data, Spec.normalised.
  apply (outer_loop te_entry te_entry_Exception raw). auto.
Qed.

(** ** What a normalised series holds *)

Section Normalised.
Variable entry : pyval -> result (string * pyval).

Lemma fold_set_get (f : string -> dict pyval) keys : forall (out : dict (dict pyval)) k,
  dict_get (fold_left (fun out device => dict_set out device (f device)) keys out) k
  = if in_dec string_dec k keys then Some (f k) else dict_get out k.
Proof.
  induction keys as [|k0 keys IH]; intros out k; simpl; [reflexivity|].
  rewrite IH. destruct (in_dec string_dec k keys) as [Hin|Hn].
  - destruct (string_dec k0 k); reflexivity.
  - rewrite dict_get_set. destruct (string_dec k0 k) as [->|Hne].
    + now rewrite String.eqb_refl.
    + destruct (String.eqb_spec k0 k); congruence.
Qed.

Lemma normalised_get raw device :
  dict_get (Spec.normalised entry raw) device
  = option_map (fun samples => Spec.fill entry samples []) (dict_get raw device).
Proof.
  unfold Spec.normalised.
  rewrite (fold_set_get (fun device => Spec.fill entry (Spec.series_of raw device) [])).
  destruct (in_dec string_dec device (dict_keys raw)) as [Hin|Hn].
  - apply dict_get_In in Hin. destruct Hin as [l Hl].
    unfold Spec.series_of. now rewrite Hl.
  - apply dict_get_None in Hn. now rewrite Hn.
Qed.

Lemma normalised_keys_In raw k :
  In k (dict_keys (Spec.normalised entry raw)) <-> In k (dict_keys raw).
Proof.
  rewrite !dict_get_In, normalised_get.
  destruct (dict_get raw k); simpl; split; intros [v H]; eauto; discriminate.
Qed.

Lemma fold_set_keys (f : string -> dict pyval) keys : forall (out : dict (dict pyval)),
  NoDup keys -> (forall k, In k keys -> ~ In k (dict_keys out)) ->
  dict_keys (fold_left (fun out device => dict_set out device (f device)) keys out)
  = dict_keys out ++ keys.
Proof.
  induction keys as [|k0 keys IH]; intros out Hnd Hfresh; simpl.
  - now rewrite app_nil_r.
  - inversion Hnd as [|? ? Hk0 Hnd']; subst.
    rewrite IH; auto.
    + rewrite dict_keys_set_new by (apply Hfresh; now left).
      now rewrite <- app_assoc.
    + intros k Hk. rewrite dict_keys_set_In. intros [->|Hin]; [contradiction|].
      apply (Hfresh k); [now right | assumption].
Qed.

Lemma normalised_keys raw :
  NoDup (dict_keys raw) -> dict_keys (Spec.normalised entry raw) = dict_keys raw.
Proof.
  intros Hnd. unfold Spec.normalised.
  rewrite (fold_set_keys (fun device => Spec.fill entry (Spec.series_of raw device) []));
    auto.
Qed.

Lemma fill_NoDup samples : forall series,
  NoDup (dict_keys series) -> NoDup (dict_keys (Spec.fill entry samples series)).
Proof.
  induction samples as [|data samples IH]; intros series Hnd; simpl; [assumption|].
  apply IH. unfold Spec.keep. destruct (entry data) as [[label value]|e]; auto.
  now apply dict_set_NoDup.
Qed.

Lemma fill_keys samples k :
  In k (dict_keys (Spec.fill entry samples []))
  <-> exists data value, In data samples /\ entry data = Ok (k, value).
Proof.
  induction samples as [|data samples IH] using rev_ind.
  - simpl. split; [tauto | intros (d & v & [] & _)].
  - rewrite fill_snoc. unfold Spec.keep at 1.
    destruct (entry data) as [[label value]|e] eqn:E.
    + rewrite dict_keys_set_In, IH. split.
      * intros [->|(d & v & Hin & Hd)].
        -- exists data, value. split; [apply in_or_app; right; now left | assumption].
        -- exists d, v. split; [apply in_or_app; now left | assumption].
      * intros (d & v & Hin & Hd). apply in_app_or in Hin.
        destruct Hin as [Hin|[<-|[]]]; [right; eauto | left; congruence].
    + rewrite IH. split.
      * intros (d & v & Hin & Hd). exists d, v. split; [apply in_or_app; now left | assumption].
      * intros (d & v & Hin & Hd). apply in_app_or in Hin.
        destruct Hin as [Hin|[<-|[]]]; [eauto | congruence].
Qed.

Lemma snoc_split {A} (l : list A) x before data after :
  l ++ [x] = before ++ data :: after ->
  (after = [] /\ l = before /\ x = data)
  \/ (exists after', after = after' ++ [x] /\ l = before ++ data :: after').
Proof.
  destruct after as [|y after' _] using rev_ind; intros H.
  - left. apply (app_inj_tail l before) in H. destruct H; auto.
  - right. exists after'.
    replace (before ++ data :: after' ++ [y]) with ((before ++ data :: after') ++ [y]) in H
      by now rewrite <- app_assoc.
    apply app_inj_tail in H. destruct H as [-> ->]. auto.
Qed.

Lemma last_with_snoc_hit samples data label value v :
  entry data = Ok (label, value) ->
  Spec.last_with entry (samples ++ [data]) label v <-> v = value.
Proof.
  intros E. split.
  - intros (before & d & after & Heq & Hd & Hlast).
    apply snoc_split in Heq. destruct Heq as [(-> & -> & ->)|(after' & -> & ->)].
    + congruence.
    + exfalso. apply (Hlast data value); [apply in_or_app; right; now left | assumption].
  - intros ->. exists samples, data, []. repeat split; auto; intros ? ? [].
Qed.

Lemma last_with_snoc_miss samples data label v :
  (forall value, entry data <> Ok (label, value)) ->
  Spec.last_with entry (samples ++ [data]) label v <-> Spec.last_with entry samples label v.
Proof.
  intros E. split.
  - intros (before & d & after & Heq & Hd & Hlast).
    apply snoc_split in Heq. destruct Heq as [(-> & -> & ->)|(after' & -> & ->)].
    + exfalso. eapply E; eauto.
    + exists before, d, after'. repeat split; auto.
      intros later v' Hin. apply Hlast. apply in_or_app; now left.
  - intros (before & d & after & -> & Hd & Hlast).
    exists before, d, (after ++ [data]). repeat split; auto.
    + now rewrite <- app_assoc.
    + intros later v' Hin. apply in_app_or in Hin.
      destruct Hin as [Hin|[<-|[]]]; [now apply Hlast | apply E].
Qed.

Lemma fill_get samples label v :
  dict_get (Spec.fill entry samples []) label = Some v
  <-> Spec.last_with entry samples label v.
Proof.
  revert v. induction samples as [|data samples IH] using rev_ind; intros v.
  - simpl. split; [discriminate|].
    intros (before & d & after & Heq & _). destruct before; discriminate.
  - rewrite fill_snoc. unfold Spec.keep at 1.
    destruct (entry data) as [[label' value]|e] eqn:E.
    + rewrite dict_get_set. destruct (String.eqb_spec label' label) as [->|Hne].
      * rewrite (last_with_snoc_hit _ _ _ value) by assumption.
        split; [now intros [= ->] | now intros ->].
      * rewrite IH. symmetry. apply last_with_snoc_miss. intros value'. congruence.
    + rewrite IH. symmetry. apply last_with_snoc_miss. intros value'. congruence.
Qed.

(** A malformed sample leaves no trace. *)
Lemma fill_skips before data after series :
  Spec.malformed entry data ->
  Spec.fill entry (before ++ data :: after) series
  = Spec.fill entry (before ++ after) series.
Proof.
  intros [e E]. unfold Spec.fill. rewrite !fold_left_app. simpl.
  unfold Spec.keep at 2. now rewrite E.
Qed.

Lemma fill_all_malformed samples :
  (forall data, In data samples -> Spec.malformed entry data) ->
  Spec.fill entry samples [] = [].
Proof.
  induction samples as [|data samples IH] using rev_ind; intros Hbad; [reflexivity|].
  rewrite fill_snoc, IH.
  - destruct (Hbad data) as [e E]; [apply in_or_app; right; now left|].
    unfold Spec.keep. now rewrite E.
  - intros d Hd. apply Hbad. apply in_or_app. now left.
Qed.
End Normalised.

(** ** The labels of the samples *)

Lemma two_digits_table :
  forallb (fun h =>
    forallb (fun m => Spec.is_hhmm (two_digits (Z.of_nat h) ++ ":" ++ two_digits (Z.of_nat m)))
            (seq 0 60))
    (seq 0 24) = true.
Proof. vm_compute. reflexivity. Qed.

Lemma hhmm_is_hhmm t : Spec.is_hhmm (hhmm t) = true.
Proof.
  unfold hhmm.
  assert (Hx : 0 <= t mod 86400 < 86400) by (apply Z.mod_pos_bound; lia).
  assert (Hy : 0 <= t mod 3600 < 3600) by (apply Z.mod_pos_bound; lia).
  assert (Hh : 0 <= t mod 86400 / 3600 < 24).
  { split; [apply Z.div_pos; lia | apply Z.div_lt_upper_bound; lia]. }
  assert (Hm : 0 <= t mod 3600 / 60 < 60).
  { split; [apply Z.div_pos; lia | apply Z.div_lt_upper_bound; lia]. }
  pose proof two_digits_table as Htab.
  rewrite forallb_forall in Htab.
  specialize (Htab (Z.to_nat (t mod 86400 / 3600))).
  rewrite forallb_forall in Htab.
  specialize (fun H => Htab H (Z.to_nat (t mod 3600 / 60))).
  rewrite !Z2Nat.id in Htab by lia.
  apply Htab; apply in_seq; lia.
Qed.

Lemma label_minute_table :
  forallb (fun h =>
    forallb (fun m =>
               Spec.label_minute (two_digits (Z.of_nat h) ++ ":" ++ two_digits (Z.of_nat m))
               =? 60 * Z.of_nat h + Z.of_nat m)
            (seq 0 60))
    (seq 0 24) = true.
Proof. vm_compute. reflexivity. Qed.

Lemma minute_of_day_split t :
  (t mod 86400) / 3600 = Spec.minute_of_day t / 60 /\
  (t mod 3600) / 60 = Spec.minute_of_day t mod 60.
Proof.
  unfold Spec.minute_of_day. set (x := t mod 86400).
  assert (Hx : 0 <= x < 86400) by (apply Z.mod_pos_bound; lia).
  assert (Ht : t mod 3600 = x mod 3600).
  { unfold x. symmetry. apply Z.mod_mod_divide. exists 24. reflexivity. }
  split.
  - rewrite Z.div_div by lia. reflexivity.
  - rewrite Ht. symmetry. apply Z.div_unique with (r := x mod 60).
    + left. apply Z.mod_pos_bound. lia.
    + replace 3600 with (60 * 60) by reflexivity. rewrite Z.rem_mul_r by lia. lia.
Qed.

Lemma label_minute_hhmm t : Spec.label_minute (hhmm t) = Spec.minute_of_day t.
Proof.
  unfold hhmm. destruct (minute_of_day_split t) as [-> ->].
  assert (Hx : 0 <= t mod 86400 < 86400) by (apply Z.mod_pos_bound; lia).
  assert (Hd : 0 <= Spec.minute_of_day t < 1440).
  { unfold Spec.minute_of_day.
    split; [apply Z.div_pos; lia | apply Z.div_lt_upper_bound; lia]. }
  assert (Hh : 0 <= Spec.minute_of_day t / 60 < 24).
  { split; [apply Z.div_pos; lia | apply Z.div_lt_upper_bound; lia]. }
  assert (Hm : 0 <= Spec.minute_of_day t mod 60 < 60) by (apply Z.mod_pos_bound; lia).
  pose proof label_minute_table as Htab.
  rewrite forallb_forall in Htab.
  specialize (Htab (Z.to_nat (Spec.minute_of_day t / 60))).
  rewrite forallb_forall in Htab.
  specialize (fun H => Htab H (Z.to_nat (Spec.minute_of_day t mod 60))).
  rewrite !Z2Nat.id in Htab by lia.
  rewrite (proj1 (Z.eqb_eq _ _) (Htab ltac:(apply in_seq; lia) ltac:(apply in_seq; lia))).
  pose proof (Z.div_mod (Spec.minute_of_day t) 60 ltac:(lia)). lia.
Qed.

(** Two times get the same label exactly when they fall in the same minute
    of the day. *)
Lemma hhmm_same_label t1 t2 :
  hhmm t1 = hhmm t2 <-> Spec.minute_of_day t1 = Spec.minute_of_day t2.
Proof.
  split.
  - intros H. rewrite <- !label_minute_hhmm. now rewrite H.
  - intros H. unfold hhmm.
    destruct (minute_of_day_split t1) as [-> ->].
    destruct (minute_of_day_split t2) as [-> ->]. now rewrite H.
Qed.

Lemma digit_val_inj a b :
  is_digit a = true -> is_digit b = true -> digit_val a = digit_val b -> a = b.
Proof.
  unfold is_digit, digit_val, code. intros _ _ H.
  assert (Hn : nat_of_ascii a = nat_of_ascii b) by lia.
  rewrite <- (ascii_nat_embedding a), <- (ascii_nat_embedding b). now rewrite Hn.
Qed.

Lemma is_digit_bound c : is_digit c = true -> 0 <= digit_val c <= 9.
Proof.
  unfold is_digit, digit_val. intros H. apply andb_prop in H. destruct H as [Hlo Hhi].
  apply Z.leb_le in Hlo, Hhi. lia.
Qed.

(** A label is determined by the minute of the day that it spells. *)
Lemma label_minute_inj a b :
  Spec.is_hhmm a = true -> Spec.is_hhmm b = true ->
  Spec.label_minute a = Spec.label_minute b -> a = b.
Proof.
  unfold Spec.is_hhmm, Spec.label_minute.
  destruct a as [|a1 [|a2 [|a3 [|a4 [|a5 [|a6 a]]]]]]; cbn [list_ascii_of_string];
    try discriminate.
  destruct b as [|b1 [|b2 [|b3 [|b4 [|b5 [|b6 b]]]]]]; cbn [list_ascii_of_string];
    try discriminate.
  intros Ha Hb Heq.
  rewrite !Bool.andb_true_iff in Ha, Hb.
  destruct Ha as ((((((A1 & A2) & A3) & A4) & A5) & Ah) & Am).
  destruct Hb as ((((((B1 & B2) & B3) & B4) & B5) & Bh) & Bm).
  apply Z.ltb_lt in Ah, Am, Bh, Bm.
  apply Ascii.eqb_eq in A3, B3. subst a3 b3.
  pose proof (is_digit_bound a1 A1). pose proof (is_digit_bound a2 A2).
  pose proof (is_digit_bound a4 A4). pose proof (is_digit_bound a5 A5).
  pose proof (is_digit_bound b1 B1). pose proof (is_digit_bound b2 B2).
  pose proof (is_digit_bound b4 B4). pose proof (is_digit_bound b5 B5).
  assert (digit_val a1 = digit_val b1 /\ digit_val a2 = digit_val b2 /\
          digit_val a4 = digit_val b4 /\ digit_val a5 = digit_val b5) as (E1 & E2 & E4 & E5)
    by lia.
  f_equal; [|f_equal; [|f_equal; f_equal; [|f_equal]]];
    apply digit_val_inj; assumption.
Qed.

(** C1.  [convert_snort_metric_data] returns for every input; in what it
    returns the series of a device has exactly one entry per "HH:MM" label
    that a sample of the raw series yields, and the value under a label is
    the value of the last sample, in list order, with that label.  A sample
    yields a label exactly when it is a list whose first item is a
    timestamp that [utcfromtimestamp] accepts and that has a second item:
    the label is then the "HH:MM" that spells the minute of the day, in
    UTC, of the timestamp, and the value is the second item.  An integer
    timestamp counts as that many seconds. *)
Theorem C1_one_entry_per_label_last_wins :
  forall raw : dict (list pyval),
    (exists out,
       convert_snort_metric_data raw = Ok out /\
       forall device samples,
         dict_get raw device = Some samples ->
         exists series,
           dict_get out device = Some series /\
           NoDup (dict_keys series) /\
           (forall label,
              In label (dict_keys series)
              <-> exists data value,
                    In data samples /\ snort_entry data = Ok (label, value)) /\
           (forall label value,
              dict_get series label = Some value
              <-> Spec.last_with snort_entry samples label value))
    /\
    (forall data label value,
       snort_entry data = Ok (label, value)
       <-> exists items stamp t,
             data = PList items /\
             nth_error items 0 = Some stamp /\
             nth_error items 1 = Some value /\
             timestamp_seconds stamp = Ok t /\
             MIN_TIMESTAMP <= t <= MAX_TIMESTAMP /\
             Spec.is_hhmm label = true /\
             Spec.label_minute label = Spec.minute_of_day t)
    /\
    (forall t : Z, timestamp_seconds (PInt t) = Ok t).
Proof.
  intros raw. split; [|split].
  - exists (Spec.normalised snort_entry raw). split.
    + apply convert_snort_metric_data_normalised.
    + intros device samples Hraw.
      exists (Spec.fill snort_entry samples []). split; [|split; [|split]].
      * now rewrite normalised_get, Hraw.
      * apply fill_NoDup. constructor.
      * intros label. apply fill_keys.
      * intros label value. apply fill_get.
  - intros data label value. unfold snort_entry, utc_hhmm. split.
    + intros H. destruct data as [| | | |str|items|d]; try discriminate.
      * cbn [getitem_nat] in H. destruct (get 0 str); cbn [bind] in H; discriminate.
      * cbn [getitem_nat] in H.
        destruct (nth_error items 0) as [stamp|] eqn:H0; cbn [bind] in H; [|discriminate].
        destruct (timestamp_seconds stamp) as [t|] eqn:Ht; cbn [bind] in H; [|discriminate].
        destruct ((MIN_TIMESTAMP <=? t) && (t <=? MAX_TIMESTAMP)) eqn:Hrange;
          cbn [bind] in H; [|discriminate].
        destruct (nth_error items 1) as [v|] eqn:H1; cbn [bind] in H; [|discriminate].
        injection H as <- <-.
        apply andb_prop in Hrange. destruct Hrange as [Hlo Hhi].
        apply Z.leb_le in Hlo, Hhi.
        exists items, stamp, t. repeat split; auto.
        -- apply hhmm_is_hhmm.
        -- apply label_minute_hhmm.
    + intros (items & stamp & t & -> & H0 & H1 & Ht & [Hlo Hhi] & Hlabel & Hminute).
      cbn [getitem_nat]. rewrite H0. cbn [bind]. rewrite Ht. cbn [bind].
      apply Z.leb_le in Hlo, Hhi. rewrite Hlo, Hhi. cbn [andb bind].
      rewrite H1. cbn [bind]. do 2 f_equal.
      apply label_minute_inj; [apply hhmm_is_hhmm | assumption |].
      now rewrite label_minute_hhmm.
  - reflexivity.
Qed.

Lemma snort_entry_pair t value rest :
  MIN_TIMESTAMP <= t <= MAX_TIMESTAMP ->
  snort_entry (PList (PInt t :: value :: rest)) = Ok (hhmm t, value).
Proof.
  intros [Hlo Hhi]. unfold snort_entry, utc_hhmm. simpl.
  apply Z.leb_le in Hlo, Hhi. now rewrite Hlo, Hhi.
Qed.

(** ** The summary loops *)

Section PerDevice.
Variable stat : dict pyval -> result pyval.
Variable m : dict (dict pyval).

Lemma per_device_loop_Ok keys : forall out r,
  for_each keys (Spec.stat_step stat m) out = Ok r ->
  forall device,
    (In device keys ->
     exists series value,
       dict_get m device = Some series /\ stat series = Ok value /\
       dict_get r device = Some value)
    /\ (~ In device keys -> dict_get r device = dict_get out device).
Proof.
  induction keys as [|k keys IH]; intros out r Hrun device; simpl in *.
  - injection Hrun as <-. tauto.
  - unfold Spec.stat_step at 1, dict_item in Hrun.
    destruct (dict_get m k) as [series|] eqn:Hk; simpl in Hrun; [|discriminate].
    destruct (stat series) as [value|e] eqn:Hs; simpl in Hrun; [|discriminate].
    destruct (IH _ _ Hrun device) as [Hin Hout].
    destruct (in_dec string_dec device keys) as [Hd|Hd].
    + split; [auto | tauto].
    + split.
      * intros [->|?]; [|contradiction].
        exists series, value. repeat split; auto.
        rewrite (Hout Hd). apply dict_get_set_same.
      * intros Hn. rewrite (Hout Hd). apply dict_get_set_other. tauto.
Qed.

Lemma per_device_loop_Raise keys : forall out e,
  (forall k, In k keys -> In k (dict_keys m)) ->
  for_each keys (Spec.stat_step stat m) out = Raise e ->
  exists device series, dict_get m device = Some series /\ stat series = Raise e.
Proof.
  induction keys as [|k keys IH]; intros out e Hsub Hrun; simpl in *; [discriminate|].
  destruct (proj1 (dict_get_In m k) (Hsub k (or_introl eq_refl))) as [series Hk].
  unfold Spec.stat_step at 1, dict_item in Hrun. rewrite Hk in Hrun. simpl in Hrun.
  destruct (stat series) as [value|e'] eqn:Hs; simpl in Hrun.
  - eapply IH; eauto.
  - injection Hrun as <-. eauto.
Qed.

Lemma per_device_singleton device series :
  per_device stat [(device, series)] = (value <- stat series ;; Ok [(device, value)]).
Proof.
  unfold per_device. cbn [dict_keys map fst for_each]. unfold dict_item.
  cbn [dict_get]. rewrite String.eqb_refl. cbn [bind].
  destruct (stat series); reflexivity.
Qed.

(** A successful run holds the statistic of every device of [m]. *)
Lemma per_device_Ok r device series :
  per_device stat m = Ok r ->
  dict_get m device = Some series ->
  exists value, stat series = Ok value /\ dict_get r device = Some value.
Proof.
  intros Hrun Hget.
  destruct (per_device_loop_Ok _ _ _ Hrun device) as [Hin _].
  destruct Hin as (series' & value & Hget' & Hs & Hr).
  - apply dict_get_In. eauto.
  - exists value. split; congruence.
Qed.

(** A run that raises does so in the statistic of one of the devices. *)
Lemma per_device_Raise e :
  per_device stat m = Raise e ->
  exists device series, dict_get m device = Some series /\ stat series = Raise e.
Proof. intros Hrun. eapply per_device_loop_Raise; eauto. Qed.

Lemma per_device_keys r k :
  per_device stat m = Ok r -> In k (dict_keys r) <-> In k (dict_keys m).
Proof.
  intros Hrun. destruct (per_device_loop_Ok _ _ _ Hrun k) as [Hin Hout]. split.
  - intros Hk. destruct (in_dec string_dec k (dict_keys m)) as [|Hn]; [assumption|].
    apply dict_get_In in Hk. destruct Hk as [v Hv]. rewrite (Hout Hn) in Hv. discriminate.
  - intros Hk. destruct (Hin Hk) as (s & v & _ & _ & Hr). apply dict_get_In. eauto.
Qed.
End PerDevice.

(** C2.  An empty normalised series gives 0 in each of the three summary
    functions: the statistic of the empty series is the integer 0, a run
    that returns holds 0 for the device, and a run that raises does so on
    the non-empty series of some device. *)
Theorem C2_empty_series_is_zero :
  forall (m : dict (dict pyval)) (device : string),
    dict_get m device = Some [] ->
    (snort_avg_of [] = Ok (PInt 0) /\ snort_max_of [] = Ok (PInt 0)
     /\ te_avg_of [] = Ok (PInt 0)) /\
    (forall r, calculate_snort_avg m = Ok r -> dict_get r device = Some (PInt 0)) /\
    (forall r, calculate_snort_max m = Ok r -> dict_get r device = Some (PInt 0)) /\
    (forall r, calculate_te_avg m = Ok r -> dict_get r device = Some (PInt 0)) /\
    (forall e, calculate_snort_avg m = Raise e ->
       exists d series, dict_get m d = Some series /\ series <> []
                        /\ snort_avg_of series = Raise e) /\
    (forall e, calculate_snort_max m = Raise e ->
       exists d series, dict_get m d = Some series /\ series <> []
                        /\ snort_max_of series = Raise e) /\
    (forall e, calculate_te_avg m = Raise e ->
       exists d series, dict_get m d = Some series /\ series <> []
                        /\ te_avg_of series = Raise e).
Proof.
  intros m device Hempty.
  assert (Hzero : forall stat r, stat [] = Ok (PInt 0) ->
            per_device stat m = Ok r -> dict_get r device = Some (PInt 0)).
  { intros stat r Hs Hrun.
    destruct (per_device_Ok stat m r device [] Hrun Hempty) as (v & Hv & Hr). congruence. }
  assert (Hblame : forall stat e, stat [] = Ok (PInt 0) ->
            per_device stat m = Raise e ->
            exists d series, dict_get m d = Some series /\ series <> [] /\ stat series = Raise e).
  { intros stat e Hs Hrun.
    destruct (per_device_Raise stat m e Hrun) as (d & series & Hd & He).
    exists d, series. repeat split; auto. intros ->. congruence. }
  repeat split; try reflexivity.
  - intros r. now apply Hzero.
  - intros r. now apply Hzero.
  - intros r. now apply Hzero.
  - intros e. now apply Hblame.
  - intros e. now apply Hblame.
  - intros e. now apply Hblame.
Qed.

Lemma C2_empty_series_is_zero_witness :
  dict_get [("ftd-1", @nil (string * pyval))] "ftd-1" = Some [] /\
  calculate_snort_avg [("ftd-1", [])] = Ok [("ftd-1", PInt 0)] /\
  dict_get [("ftd-1", PInt 0)] "ftd-1" = Some (PInt 0).
Proof.
  split; [reflexivity|]. split; [reflexivity|].
  exact (proj1 (proj2 (C2_empty_series_is_zero [("ftd-1", [])] "ftd-1" eq_refl))
           [("ftd-1", PInt 0)] eq_refl).
Defined.

(** ** Devices are never dropped *)

Section KeysKept.
Variable entry : pyval -> result (string * pyval).
Variable stat : dict pyval -> result pyval.
Hypothesis stat_empty : stat [] = Ok (PInt 0).

Lemma normalised_keeps_devices raw :
  (forall k, In k (dict_keys (Spec.normalised entry raw)) <-> In k (dict_keys raw)) /\
  (NoDup (dict_keys raw) -> dict_keys (Spec.normalised entry raw) = dict_keys raw) /\
  (forall device samples,
     dict_get raw device = Some samples ->
     (forall data, In data samples -> Spec.malformed entry data) ->
     dict_get (Spec.normalised entry raw) device = Some [] /\
     (forall r, per_device stat (Spec.normalised entry raw) = Ok r ->
                dict_get r device = Some (PInt 0)) /\
     (forall e, per_device stat (Spec.normalised entry raw) = Raise e ->
                exists d series,
                  dict_get (Spec.normalised entry raw) d = Some series /\
                  series <> [] /\ stat series = Raise e)).
Proof.
  split; [|split].
  - intros k. apply normalised_keys_In.
  - apply normalised_keys.
  - intros device samples Hraw Hbad.
    assert (Hget : dict_get (Spec.normalised entry raw) device = Some []).
    { rewrite normalised_get, Hraw. simpl. now rewrite fill_all_malformed. }
    split; [assumption|]. split.
    + intros r Hrun.
      destruct (per_device_Ok stat _ r device [] Hrun Hget) as (v & Hv & Hr). congruence.
    + intros e Hrun.
      destruct (per_device_Raise stat _ e Hrun) as (d & series & Hd & He).
      exists d, series. repeat split; auto. intros ->. congruence.
Qed.
End KeysKept.

(** C10.  Both [convert_*] functions return a mapping with the keys of
    their input (the same set, and the same sequence for a well-formed
    dictionary).  A device all of whose samples are malformed is mapped to
    the empty series; a run of a summary function over the result holds 0
    for it, and a run that raises does so on the non-empty series of another
    device. *)
Theorem C10_device_keys_preserved :
  forall raw : dict (list pyval),
    (exists out,
       convert_snort_metric_data raw = Ok out /\
       (forall k, In k (dict_keys out) <-> In k (dict_keys raw)) /\
       (NoDup (dict_keys raw) -> dict_keys out = dict_keys raw) /\
       (forall device samples,
          dict_get raw device = Some samples ->
          (forall data, In data samples -> Spec.malformed snort_entry data) ->
          dict_get out device = Some [] /\
          (forall r, calculate_snort_avg out = Ok r -> dict_get r device = Some (PInt 0)) /\
          (forall r, calculate_snort_max out = Ok r -> dict_get r device = Some (PInt 0)) /\
          (forall e, calculate_snort_avg out = Raise e ->
             exists d series,
               dict_get out d = Some series /\ series <> []
               /\ snort_avg_of series = Raise e) /\
          (forall e, calculate_snort_max out = Raise e ->
             exists d series,
               dict_get out d = Some series /\ series <> []
               /\ snort_max_of series = Raise e)))
    /\
    (exists out,
       convert_te_test_data raw = Ok out /\
       (forall k, In k (dict_keys out) <-> In k (dict_keys raw)) /\
       (NoDup (dict_keys raw) -> dict_keys out = dict_keys raw) /\
       (forall device records,
          dict_get raw device = Some records ->
          (forall data, In data records -> Spec.malformed te_entry data) ->
          dict_get out device = Some [] /\
          (forall r, calculate_te_avg out = Ok r -> dict_get r device = Some (PInt 0)) /\
          (forall e, calculate_te_avg out = Raise e ->
             exists d series,
               dict_get out d = Some series /\ series <> []
               /\ te_avg_of series = Raise e))).
Proof.
  intros raw. split.
  - exists (Spec.normalised snort_entry raw).
    split; [apply convert_snort_metric_data_normalised|].
    destruct (normalised_keeps_devices snort_entry snort_avg_of eq_refl raw) as (Hk & Hs & Ha).
    destruct (normalised_keeps_devices snort_entry snort_max_of eq_refl raw) as (_ & _ & Hm).
    split; [exact Hk|]. split; [exact Hs|].
    intros device samples Hraw Hbad.
    destruct (Ha device samples Hraw Hbad) as (Hget & Hzero & Hblame).
    destruct (Hm device samples Hraw Hbad) as (_ & Hzero' & Hblame').
    repeat (split; [assumption|]). assumption.
  - exists (Spec.normalised te_entry raw).
    split; [apply convert_te_test_data_normalised|].
    destruct (normalised_keeps_devices te_entry te_avg_of eq_refl raw) as (Hk & Hs & Ha).
    split; [exact Hk|]. split; [exact Hs|].
    intros device records Hraw Hbad.
    destruct (Ha device records Hraw Hbad) as (Hget & Hzero & Hblame).
    repeat (split; [assumption|]). assumption.
Qed.

(** ** Malformed records *)

(** A record whose [try] block raises is skipped: the series of its device
    is the one obtained without the record. *)
Lemma snort_malformed_sample_skipped raw raw' device before data after :
  dict_get raw device = Some (before ++ data :: after) ->
  dict_get raw' device = Some (before ++ after) ->
  Spec.malformed snort_entry data ->
  exists out out',
    convert_snort_metric_data raw = Ok out /\
    convert_snort_metric_data raw' = Ok out' /\
    dict_get out device = dict_get out' device.
Proof.
  intros H H' Hbad. exists (Spec.normalised snort_entry raw), (Spec.normalised snort_entry raw').
  repeat split; try apply convert_snort_metric_data_normalised.
  rewrite !normalised_get, H, H'. simpl. now rewrite fill_skips.
Qed.

Lemma te_malformed_record_skipped raw raw' device before data after :
  dict_get raw device = Some (before ++ data :: after) ->
  dict_get raw' device = Some (before ++ after) ->
  Spec.malformed te_entry data ->
  exists out out',
    convert_te_test_data raw = Ok out /\
    convert_te_test_data raw' = Ok out' /\
    dict_get out device = dict_get out' device.
Proof.
  intros H H' Hbad. exists (Spec.normalised te_entry raw), (Spec.normalised te_entry raw').
  repeat split; try apply convert_te_test_data_normalised.
  rewrite !normalised_get, H, H'. simpl. now rewrite fill_skips.
Qed.

(** A timestamp that is not a number and a record without a date are
    malformed in this sense. *)
Lemma bad_timestamp_malformed stamp value :
  Spec.malformed snort_entry (PList [PStr stamp; value]).
Proof. exists TypeError. reflexivity. Qed.

Lemma missing_date_malformed d :
  dict_get d "date" = None -> Spec.malformed te_entry (PDict d).
Proof.
  intros H. exists KeyError. unfold te_entry. simpl. unfold dict_item. now rewrite H.
Qed.

(** C3.  A value that is not a number is not skipped.  The sample
    [[1700000000, "abc"]] has a good timestamp, so [convert_snort_metric_data]
    stores "abc" under "22:13"; [calculate_snort_avg] then applies [float]
    to it outside any [try] and the [ValueError] ends the computation, the
    good sample [[1700000060, "4.1"]] notwithstanding. *)
Theorem C3_non_numeric_value_aborts :
  convert_snort_metric_data
    [("ftd-1", [PList [PInt 1700000000; PStr "abc"]; PList [PInt 1700000060; PStr "4.1"]])]
  = Ok [("ftd-1", [("22:13", PStr "abc"); ("22:14", PStr "4.1")])]
  /\ calculate_snort_avg [("ftd-1", [("22:13", PStr "abc"); ("22:14", PStr "4.1")])]
     = Raise ValueError
  /\ calculate_snort_max [("ftd-1", [("22:13", PStr "abc"); ("22:14", PStr "4.1")])]
     = Raise ValueError.
Proof. repeat split; vm_compute; reflexivity. Qed.

(** ** The scenario of the two samples *)

(** C4, as the specification has it, fails: 1700000000 is 22:13:20 UTC, not
    12:26, the two samples do not share a label, and the average is not
    4.1. *)
Lemma C4_counterexample :
  utc_hhmm (PInt 1700000000) <> Ok "12:26" /\
  utc_hhmm (PInt 1700000060) <> utc_hhmm (PInt 1700000000) /\
  convert_snort_metric_data
    [("ftd-1", [PList [PInt 1700000000; PStr "3.5"]; PList [PInt 1700000060; PStr "4.1"]])]
  <> Ok [("ftd-1", [("12:26", PStr "4.1")])] /\
  forall m f,
    convert_snort_metric_data
      [("ftd-1", [PList [PInt 1700000000; PStr "3.5"]; PList [PInt 1700000060; PStr "4.1"]])]
    = Ok m ->
    py_float (PStr "4.1") = Ok f ->
    calculate_snort_avg m <> Ok [("ftd-1", PFloat f)].
Proof.
  split; [vm_compute; discriminate|].
  split; [vm_compute; discriminate|].
  split; [vm_compute; discriminate|].
  intros m f Hm Hf. vm_compute in Hm. vm_compute in Hf.
  injection Hm as <-. injection Hf as <-. vm_compute. discriminate.
Qed.

(** C4, amended.  The samples at 1700000000 and 1700000060 fall in the
    minutes 22:13 and 22:14 UTC; the normalised series is
    {"22:13": "3.5", "22:14": "4.1"} and its average is 3.8. *)
Theorem C4_two_samples_two_labels :
  forall device : string,
    utc_hhmm (PInt 1700000000) = Ok "22:13" /\
    utc_hhmm (PInt 1700000060) = Ok "22:14" /\
    convert_snort_metric_data
      [(device, [PList [PInt 1700000000; PStr "3.5"]; PList [PInt 1700000060; PStr "4.1"]])]
    = Ok [(device, [("22:13", PStr "3.5"); ("22:14", PStr "4.1")])] /\
    exists average,
      py_float (PStr "3.8") = Ok average /\
      calculate_snort_avg [(device, [("22:13", PStr "3.5"); ("22:14", PStr "4.1")])]
      = Ok [(device, PFloat average)].
Proof.
  intros device. split; [reflexivity|]. split; [reflexivity|]. split.
  - rewrite convert_snort_metric_data_normalised.
    unfold Spec.normalised, Spec.series_of.
    cbn [dict_keys map fst fold_left dict_get dict_set]. rewrite String.eqb_refl.
    replace (Spec.fill snort_entry
               [PList [PInt 1700000000; PStr "3.5"]; PList [PInt 1700000060; PStr "4.1"]] [])
      with [("22:13", PStr "3.5"); ("22:14", PStr "4.1")]
      by (vm_compute; reflexivity).
    reflexivity.
  - exists (S754_finite false 8556839292003942 (-51)). split; [vm_compute; reflexivity|].
    unfold calculate_snort_avg. rewrite per_device_singleton.
    replace (snort_avg_of [("22:13", PStr "3.5"); ("22:14", PStr "4.1")])
      with (Ok (PFloat (S754_finite false 8556839292003942 (-51))))
      by (vm_compute; reflexivity).
    reflexivity.
Qed.

(** ** The key of a test record *)

Lemma string_app_assoc (a b c : string) : ((a ++ b) ++ c = a ++ (b ++ c))%string.
Proof. induction a as [|x a IH]; simpl; [reflexivity | now rewrite IH]. Qed.

Lemma string_app_empty (a : string) : (a ++ "" = a)%string.
Proof. induction a as [|x a IH]; simpl; [reflexivity | now rewrite IH]. Qed.

Lemma split_go_word word : forall rest cur,
  Spec.no_space word = true ->
  split_go (word ++ rest) cur = split_go rest (cur ++ word).
Proof.
  induction word as [|c word IH]; intros rest cur Hns; simpl.
  - now rewrite string_app_empty.
  - unfold Spec.no_space in Hns. simpl in Hns. apply andb_prop in Hns.
    destruct Hns as [Hc Hw]. apply negb_true_iff in Hc. rewrite Hc.
    rewrite IH by exact Hw. now rewrite string_app_assoc.
Qed.

Lemma split_two_words day time :
  Spec.no_space day = true -> day <> "" ->
  Spec.no_space time = true -> time <> "" ->
  split (day ++ " " ++ time) = [day; time].
Proof.
  intros Hd Hd0 Ht Ht0. unfold split. rewrite split_go_word by exact Hd. simpl.
  destruct day as [|c day]; [congruence|].
  f_equal. rewrite <- (string_app_empty time) at 1.
  rewrite split_go_word by exact Ht. simpl. destruct time; [congruence | reflexivity].
Qed.

Lemma substring_prefix (a b : string) : substring 0 (String.length a) (a ++ b) = a.
Proof.
  induction a as [|c a IH]; simpl.
  - destruct b; reflexivity.
  - now rewrite IH.
Qed.

Lemma string_length_app (a b : string) :
  String.length (a ++ b) = (String.length a + String.length b)%nat.
Proof. induction a as [|c a IH]; simpl; [reflexivity | now rewrite IH]. Qed.

Lemma drop_last3_seconds hm sec : String.length sec = 3%nat -> drop_last3 (hm ++ sec) = hm.
Proof.
  intros Hlen. unfold drop_last3. rewrite string_length_app, Hlen.
  replace (String.length hm + 3 - 3)%nat with (String.length hm) by lia.
  apply substring_prefix.
Qed.

(** When the [try] block of [convert_te_test_data] yields an entry. *)
Lemma te_entry_Ok data key triple :
  te_entry data = Ok (key, triple)
  <-> exists d date time avgLatency loss jitter,
        data = PDict d /\
        dict_get d "date" = Some (PStr date) /\
        nth_error (split date) 1 = Some time /\
        key = drop_last3 time /\
        dict_get d "avgLatency" = Some avgLatency /\
        dict_get d "loss" = Some loss /\
        dict_get d "jitter" = Some jitter /\
        triple = PList [avgLatency; loss; jitter].
Proof.
  split.
  - unfold te_entry. destruct data as [ | | | | | | d]; try discriminate.
    cbn [getitem_str]. unfold dict_item.
    destruct (dict_get d "date") as [date|] eqn:Hd; cbn [bind]; [|discriminate].
    destruct date as [ | | | | date | | ]; try discriminate. cbn [py_split bind].
    destruct (nth_error (split date) 1) as [time|] eqn:Ht; cbn [bind]; [|discriminate].
    destruct (dict_get d "avgLatency") as [a|] eqn:Ha; cbn [bind]; [|discriminate].
    destruct (dict_get d "loss") as [l|] eqn:Hl; cbn [bind]; [|discriminate].
    destruct (dict_get d "jitter") as [j|] eqn:Hj; cbn [bind]; [|discriminate].
    intros [= <- <-]. exists d, date, time, a, l, j. repeat split; assumption.
  - intros (d & date & time & a & l & j & -> & Hd & Ht & -> & Ha & Hl & Hj & ->).
    unfold te_entry. cbn [getitem_str]. unfold dict_item. rewrite Hd. cbn [bind py_split].
    rewrite Ht. cbn [bind]. rewrite Ha, Hl, Hj. reflexivity.
Qed.

(** C9.  [convert_te_test_data] returns for every input.  A record is kept
    exactly when it is a dictionary with a 'date' string of at least two
    words and the fields 'avgLatency', 'loss' and 'jitter'; it is keyed by
    the second word of the date without its last three characters (so
    "HH:MM" for a time "HH:MM:SS") and mapped to [avgLatency, loss,
    jitter], the last record of a key winning.  Any other record is
    skipped and the records after it are still processed. *)
Theorem C9_te_records_keyed_by_hhmm :
  forall raw : dict (list pyval),
    (exists out,
       convert_te_test_data raw = Ok out /\
       forall device records,
         dict_get raw device = Some records ->
         exists series,
           dict_get out device = Some series /\
           (forall key triple,
              dict_get series key = Some triple
              <-> Spec.last_with te_entry records key triple) /\
           (forall before data after,
              records = before ++ data :: after ->
              Spec.malformed te_entry data ->
              series = Spec.fill te_entry (before ++ after) []))
    /\
    (forall data key triple,
       te_entry data = Ok (key, triple)
       <-> exists d date time avgLatency loss jitter,
             data = PDict d /\
             dict_get d "date" = Some (PStr date) /\
             nth_error (split date) 1 = Some time /\
             key = drop_last3 time /\
             dict_get d "avgLatency" = Some avgLatency /\
             dict_get d "loss" = Some loss /\
             dict_get d "jitter" = Some jitter /\
             triple = PList [avgLatency; loss; jitter])
    /\
    (forall day hm sec : string,
       Spec.no_space day = true -> day <> "" ->
       Spec.no_space (hm ++ sec) = true -> String.length sec = 3%nat ->
       nth_error (split (day ++ " " ++ hm ++ sec)) 1 = Some (hm ++ sec)%string /\
       drop_last3 (hm ++ sec) = hm).
Proof.
  intros raw. split; [|split].
  - exists (Spec.normalised te_entry raw).
    split; [apply convert_te_test_data_normalised|].
    intros device records Hraw. exists (Spec.fill te_entry records []).
    split; [now rewrite normalised_get, Hraw|]. split.
    + intros key triple. apply fill_get.
    + intros before data after -> Hbad. now apply fill_skips.
  - apply te_entry_Ok.
  - intros day hm sec Hday Hday0 Htime Hsec. split.
    + rewrite split_two_words; auto.
      destruct sec; [discriminate|]. destruct hm; discriminate.
    + now apply drop_last3_seconds.
Qed.

(** ** fmc.py: one re-authentication, one retry *)

(** C5, as the specification has it, fails when the token request that
    follows a 401 is itself refused: [authRequest] ends the process with
    [sys.exit(-1)], the request is not retried and nothing is returned. *)
Lemma C5_counterexample :
  let refuse := {| status_code := 401; text := "Unauthorized"; headers := [] |} in
  let self := {| FirePower.self_headers := None; FirePower.refresh_token := None;
                 FirePower.auth_token := None; FirePower.global_UUID := None;
                 FirePower.s := {| answers := fun _ => refuse; sent := [] |} |} in
  let run := FirePower.getData "fmc.example" "api" "secret" "https://fmc.example/x" [] self in
  fst run = Raise SystemExit /\
  fst run <> Ok None /\
  map req_verb (sent (FirePower.s (snd run))) = [GET; POST].
Proof. repeat split; vm_compute; try reflexivity; discriminate. Qed.

(** C5, amended.  When the token request that follows a 401 is accepted,
    [getData] sends the request, authenticates once, sends the same URL and
    parameters once more with the new token, and returns the text of the
    second answer if its status is 200, "no data" otherwise (a second 401
    included).  Without a 401 it sends the request once and returns the
    text on 200, "no data" otherwise.  It never raises and never sends a
    third request. *)
Theorem C5_one_reauthentication_one_retry :
  forall (host user password : string) (self : FirePower.firepower)
         (url : string) (params : dict pyval),
    let n := List.length (sent (FirePower.s self)) in
    let first := answers (FirePower.s self) n in
    let token := answers (FirePower.s self) (S n) in
    let second := answers (FirePower.s self) (S (S n)) in
    (status_code first = 401 -> Spec.auth_accepted token = true) ->
    exists self',
      FirePower.getData host user password url params self
      = (Ok (Spec.data_of (if status_code first =? 401 then second else first)), self') /\
      answers (FirePower.s self') = answers (FirePower.s self) /\
      sent (FirePower.s self')
      = sent (FirePower.s self)
        ++ (if status_code first =? 401
            then [Spec.fmc_get url (FirePower.self_headers self) params;
                  FirePower.auth_request host user password;
                  Spec.fmc_get url (Spec.fresh_headers token) params]
            else [Spec.fmc_get url (FirePower.self_headers self) params]).
Proof.
  intros host user password self url params n first token second.
  subst n first token second. destruct self as [h rt at_ uu [ans snt]].
  cbn [FirePower.s FirePower.self_headers answers sent].
  set (n := List.length snt). set (first := ans n).
  set (token := ans (S n)). set (second := ans (S (S n))). intros Hauth.
  unfold FirePower.getData, FirePower.session_get, send.
  cbn [FirePower.s FirePower.self_headers FirePower.refresh_token
       FirePower.auth_token FirePower.global_UUID answers sent].
  fold n. fold first.
  destruct (status_code first =? 401) eqn:E401.
  - apply Z.eqb_eq in E401. specialize (Hauth E401).
    unfold Spec.auth_accepted in Hauth. apply andb_prop in Hauth. destruct Hauth as [H204 Hh].
    unfold FirePower.authRequest, send.
    cbn [FirePower.s FirePower.self_headers FirePower.refresh_token
         FirePower.auth_token FirePower.global_UUID answers sent].
    rewrite length_app. cbn [List.length]. rewrite Nat.add_1_r. fold n. fold token.
    rewrite H204.
    destruct (header_get (headers token) "X-auth-access-token") as [access|] eqn:Ha;
      [|discriminate].
    destruct (header_get (headers token) "X-auth-refresh-token") as [refresh|] eqn:Hr;
      [|discriminate].
    destruct (header_get (headers token) "DOMAIN_UUID") as [domain|] eqn:Hd;
      [|discriminate].
    cbn [FirePower.s FirePower.self_headers FirePower.refresh_token
         FirePower.auth_token FirePower.global_UUID answers sent].
    rewrite !length_app. cbn [List.length]. rewrite !Nat.add_1_r. fold n. fold second.
    unfold Spec.data_of, Spec.fresh_headers. rewrite Ha.
    destruct (status_code second =? 200); eexists;
      (split; [reflexivity|]);
      cbn [FirePower.s answers sent]; (split; [reflexivity|]);
      rewrite <- !app_assoc; reflexivity.
  - unfold Spec.data_of.
    destruct (status_code first =? 200); eexists;
      (split; [reflexivity|]);
      cbn [FirePower.s answers sent]; split; reflexivity.
Qed.

(** A 401, an accepted token request, and a second 401: one retry and "no
    data". *)
Lemma C5_one_reauthentication_one_retry_witness :
  let answer (k : nat) :=
    match k with
    | 1%nat => {| status_code := 204; text := "";
                  headers := [("X-auth-access-token", "t1");
                              ("X-auth-refresh-token", "r1");
                              ("DOMAIN_UUID", "d1")] |}
    | _ => {| status_code := 401; text := "Unauthorized"; headers := [] |}
    end in
  let self := {| FirePower.self_headers := Some [("X-auth-access-token", "t0")];
                 FirePower.refresh_token := Some "r0";
                 FirePower.auth_token := Some "t0"; FirePower.global_UUID := Some "d0";
                 FirePower.s := {| answers := answer; sent := [] |} |} in
  exists self',
    FirePower.getData "fmc.example" "api" "secret" "https://fmc.example/x" [] self
    = (Ok None, self') /\
    map req_verb (sent (FirePower.s self')) = [GET; POST; GET].
Proof.
  intros answer self.
  destruct (C5_one_reauthentication_one_retry "fmc.example" "api" "secret" self
              "https://fmc.example/x" [] (fun _ => eq_refl))
    as (self' & Hrun & _ & Hsent).
  exists self'. split; [exact Hrun | rewrite Hsent; reflexivity].
Defined.

(** ** thousandeyes.py: pagination *)

Section Pagination.
Variable token : string.
Variable json_loads : string -> option pyval.
Variable url_accepted : string -> bool.

Lemma well_formed_add_metrics page metrics :
  Spec.well_formed_page page = true ->
  ThousandEyes.add_metrics page metrics = Ok (metrics ++ Spec.page_items page).
Proof.
  unfold Spec.well_formed_page, ThousandEyes.add_metrics, ThousandEyes.has_metrics,
    Spec.page_items.
  destruct page as [ | | | | | | d]; try discriminate.
  cbn [contains_str getitem_str bind]. unfold dict_has, dict_item.
  destruct (dict_get d "net") as [net|]; cbn [bind].
  - destruct net as [ | | | | | | net]; try discriminate.
    cbn [contains_str getitem_str bind]. unfold dict_has, dict_item.
    destruct (dict_get net "metrics") as [page|]; cbn [bind].
    + destruct page as [ | | | | | l | ]; try discriminate. reflexivity.
    + now rewrite app_nil_r.
  - now rewrite app_nil_r.
Qed.

Lemma well_formed_next_page page :
  Spec.well_formed_page page = true ->
  ThousandEyes.next_page page = Ok (option_map PStr (Spec.page_cursor page)).
Proof.
  unfold Spec.well_formed_page, ThousandEyes.next_page, Spec.page_cursor.
  destruct page as [ | | | | | | d]; try discriminate.
  intros H. apply andb_prop in H. destruct H as [_ H].
  cbn [getitem_str bind]. unfold dict_item.
  destruct (dict_get d "pages") as [pages|]; [|discriminate].
  destruct pages as [ | | | | | | pages]; try discriminate.
  cbn [contains_str getitem_str bind]. unfold dict_has, dict_item.
  destruct (dict_get pages "next") as [url|]; cbn [bind]; [|reflexivity].
  destruct url; try discriminate. reflexivity.
Qed.

Lemma well_formed_has_metrics page :
  Spec.well_formed_page page = true ->
  ThousandEyes.has_metrics page = Ok (Spec.page_has_metrics page).
Proof.
  unfold Spec.well_formed_page, ThousandEyes.has_metrics, Spec.page_has_metrics.
  destruct page as [ | | | | | | d]; try discriminate.
  cbn [contains_str getitem_str bind]. unfold dict_has at 1, dict_item.
  destruct (dict_get d "net") as [net|]; cbn [bind]; [|reflexivity].
  destruct net; try discriminate. reflexivity.
Qed.


End Pagination.




(** ** app.py: the device list *)

Lemma ascii_compare_trans a b c :
  Ascii.compare a b = Lt -> Ascii.compare b c = Lt -> Ascii.compare a c = Lt.
Proof.
  unfold Ascii.compare. rewrite !N.compare_lt_iff. apply N.lt_trans.
Qed.

Lemma string_compare_trans a : forall b c,
  String.compare a b = Lt -> String.compare b c = Lt -> String.compare a c = Lt.
Proof.
  induction a as [|x a IH]; intros [|y b] [|z c]; simpl; try congruence.
  destruct (Ascii.compare x y) eqn:Exy; try discriminate;
    destruct (Ascii.compare y z) eqn:Eyz; try discriminate; intros Hab Hbc.
  - apply Ascii.compare_eq_iff in Exy, Eyz. subst.
    replace (Ascii.compare z z) with Eq
      by (symmetry; unfold Ascii.compare; apply N.compare_refl).
    eapply IH; eauto.
  - apply Ascii.compare_eq_iff in Exy. subst. now rewrite Eyz.
  - apply Ascii.compare_eq_iff in Eyz. subst. now rewrite Exy.
  - now rewrite (ascii_compare_trans _ _ _ Exy Eyz).
Qed.

Lemma string_leb_trans a b c :
  String.leb a b = true -> String.leb b c = true -> String.leb a c = true.
Proof.
  unfold String.leb.
  destruct (String.compare a b) eqn:Eab; try discriminate;
    destruct (String.compare b c) eqn:Ebc; try discriminate; intros _ _.
  - apply String.compare_eq_iff in Eab. apply String.compare_eq_iff in Ebc. subst.
    destruct (String.compare c c) eqn:E; try reflexivity.
    pose proof (String.compare_antisym c c) as H. rewrite E in H. discriminate H.
  - apply String.compare_eq_iff in Eab. subst. now rewrite Ebc.
  - apply String.compare_eq_iff in Ebc. subst. now rewrite Eab.
  - now rewrite (string_compare_trans _ _ _ Eab Ebc).
Qed.

Lemma string_ltb_leb a b : String.ltb a b = true -> String.leb a b = true.
Proof. unfold String.ltb, String.leb. destruct (String.compare a b); congruence. Qed.

Lemma string_not_ltb_leb a b : String.ltb a b = false -> String.leb b a = true.
Proof.
  unfold String.ltb, String.leb. rewrite (String.compare_antisym b a).
  destruct (String.compare a b); simpl; congruence.
Qed.

Lemma name_le_trans a b c :
  Spec.name_le a b = true -> Spec.name_le b c = true -> Spec.name_le a c = true.
Proof.
  unfold Spec.name_le.
  destruct (dev_name a), (dev_name b), (dev_name c); try discriminate.
  apply string_leb_trans.
Qed.

(** *** [sorted] *)

Lemma insert_by_name_Ok x : forall l r,
  insert_by_name x l = Ok r ->
  Permutation.Permutation (x :: l) r /\
  (Sorted.StronglySorted (fun a b => Spec.name_le a b = true) l ->
   Sorted.StronglySorted (fun a b => Spec.name_le a b = true) r).
Proof.
  induction l as [|y l IH]; intros r; simpl.
  - intros [= <-]. split; [apply Permutation.Permutation_refl|].
    intros _. repeat constructor.
  - unfold name_lt.
    destruct (dev_name y) as [ny|] eqn:Ey; [|discriminate].
    destruct (dev_name x) as [nx|] eqn:Ex; [|discriminate].
    cbn [bind]. destruct (String.ltb ny nx) eqn:Elt.
    + destruct (insert_by_name x l) as [r'|] eqn:Er; [|discriminate].
      cbn [bind]. intros [= <-]. destruct (IH r' eq_refl) as [Hperm Hsorted]. split.
      * eapply Permutation.perm_trans; [apply Permutation.perm_swap|].
        now apply Permutation.perm_skip.
      * intros Hs. inversion Hs as [|? ? Hl Hy]; subst.
        constructor; [now apply Hsorted|].
        eapply Permutation.Permutation_Forall; [exact Hperm|].
        constructor; [|assumption].
        unfold Spec.name_le. rewrite Ey, Ex. now apply string_ltb_leb.
    + intros [= <-]. split; [apply Permutation.Permutation_refl|].
      intros Hs. constructor; [assumption|].
      assert (Hxy : Spec.name_le x y = true).
      { unfold Spec.name_le. rewrite Ey, Ex. now apply string_not_ltb_leb. }
      constructor; [assumption|].
      inversion Hs as [|? ? Hl Hy]; subst.
      eapply Forall_impl; [|exact Hy]. intros z Hz. eapply name_le_trans; eauto.
Qed.

Lemma insert_by_name_named x l :
  Spec.named x = true -> Forall (fun d => Spec.named d = true) l ->
  exists r, insert_by_name x l = Ok r.
Proof.
  intros Hx Hl. induction Hl as [|y l Hy Hl IH]; simpl; [eauto|].
  unfold Spec.named in Hx, Hy. unfold name_lt.
  destruct (dev_name y); [|discriminate]. destruct (dev_name x); [|discriminate].
  cbn [bind]. destruct (String.ltb s s0); [|eauto].
  destruct IH as [r ->]. cbn [bind]. eauto.
Qed.

(** A sort that returns gives a sorted rearrangement of its input. *)
Lemma sorted_by_name_Ok : forall l r,
  sorted_by_name l = Ok r ->
  Permutation.Permutation l r /\
  Sorted.StronglySorted (fun a b => Spec.name_le a b = true) r.
Proof.
  induction l as [|x l IH]; intros r; simpl.
  - intros [= <-]. split; constructor.
  - destruct (sorted_by_name l) as [s|] eqn:Es; [|discriminate]. cbn [bind].
    intros Hins. destruct (IH s eq_refl) as [Hperm Hsorted].
    destruct (insert_by_name_Ok x s r Hins) as [Hperm' Hsorted']. split; [|auto].
    eapply Permutation.perm_trans; [|exact Hperm']. now apply Permutation.perm_skip.
Qed.

(** When every device has a name the sort returns. *)
Lemma sorted_by_name_named l :
  Forall (fun d => Spec.named d = true) l -> exists r, sorted_by_name l = Ok r.
Proof.
  induction l as [|x l IH]; intros Hall; simpl; [eauto|].
  inversion Hall as [|? ? Hx Hl]; subst.
  destruct (IH Hl) as [s Hs]. rewrite Hs. cbn [bind].
  apply insert_by_name_named; [assumption|].
  eapply Permutation.Permutation_Forall; [|exact Hl].
  now apply (sorted_by_name_Ok l s).
Qed.

Lemma insert_by_name_Raise x : forall l e, insert_by_name x l = Raise e -> e = TypeError.
Proof.
  induction l as [|y l IH]; intros e; simpl; [discriminate|].
  unfold name_lt. destruct (dev_name y); [|now intros [= <-]].
  destruct (dev_name x); [|now intros [= <-]].
  cbn [bind]. destruct (String.ltb s s0); [|discriminate].
  destruct (insert_by_name x l) eqn:E; cbn [bind]; [discriminate|].
  intros [= <-]. now apply IH.
Qed.

Lemma sorted_by_name_Raise : forall l e, sorted_by_name l = Raise e -> e = TypeError.
Proof.
  induction l as [|x l IH]; intros e; simpl; [discriminate|].
  destruct (sorted_by_name l) as [s|e'] eqn:Es; cbn [bind].
  - apply insert_by_name_Raise.
  - intros [= <-]. now apply IH.
Qed.

(** A sort that returns had at most one device, or names everywhere. *)
Lemma sorted_by_name_Ok_named : forall l r,
  sorted_by_name l = Ok r ->
  (List.length l <= 1)%nat \/ Forall (fun d => Spec.named d = true) l.
Proof.
  induction l as [|x l IH]; intros r; simpl; [intros _; left; lia|].
  destruct (sorted_by_name l) as [s|] eqn:Es; [|discriminate]. cbn [bind].
  intros Hins. destruct l as [|z l]; [left; simpl; lia|]. right.
  destruct (sorted_by_name_Ok _ _ Es) as [Hperm _].
  destruct s as [|y s].
  { apply Permutation.Permutation_sym, Permutation.Permutation_nil in Hperm. discriminate. }
  simpl in Hins. unfold name_lt in Hins.
  destruct (dev_name y) as [ny|] eqn:Ey; [|discriminate].
  destruct (dev_name x) as [nx|] eqn:Ex; [|discriminate].
  assert (Hx : Spec.named x = true) by (unfold Spec.named; now rewrite Ex).
  constructor; [assumption|].
  destruct (IH _ eq_refl) as [Hshort|Hall]; [|assumption].
  destruct l; [|simpl in Hshort; lia].
  apply Permutation.Permutation_length_1_inv in Hperm. injection Hperm as <-.
  constructor; [|constructor]. unfold Spec.named. now rewrite Ey.
Qed.

(** Two devices or more, one of them without a name: the sort raises
    [TypeError]. *)
Lemma sorted_by_name_nameless l :
  (2 <= List.length l)%nat -> Exists (fun d => Spec.named d = false) l ->
  sorted_by_name l = Raise TypeError.
Proof.
  intros Hlen Hex. destruct (sorted_by_name l) as [r|e] eqn:E.
  - destruct (sorted_by_name_Ok_named l r E) as [Hshort|Hall]; [lia|].
    apply Exists_exists in Hex. destruct Hex as (d & Hin & Hd).
    rewrite Forall_forall in Hall. specialize (Hall d Hin). congruence.
  - now rewrite (sorted_by_name_Raise l e E).
Qed.

(** *** The merge *)

Lemma found_or_none_total {V} (inj : V -> pyval) (m : option (dict V)) (id : string) :
  exists v, found_or_none inj m id = Ok v.
Proof.
  unfold found_or_none. destruct m as [d|]; [|eauto].
  destruct (truthy_list d); simpl; [|eauto].
  unfold dict_has, dict_item. destruct (dict_get d id); simpl; eauto.
Qed.

Lemma set_field_has d k v k' :
  dict_has (dev_fields (set_field d k v)) k'
  = (String.eqb k k' || dict_has (dev_fields d) k')%bool.
Proof.
  unfold dict_has, set_field. simpl. rewrite dict_get_set.
  destruct (String.eqb k k'); reflexivity.
Qed.

(** The loop body returns for every device; it leaves 'id' and 'name'
    alone and sets each of the six derived keys. *)
Lemma append_metrics_Ok details metrics average maximum results latency device :
  exists device',
    append_metrics details metrics average maximum results latency device = Ok device' /\
    dev_id device' = dev_id device /\
    dev_name device' = dev_name device /\
    Spec.uniform device' = true.
Proof.
  unfold append_metrics.
  destruct (found_or_none_total (fun x => x) (Some details) (dev_id device)) as [v1 ->].
  cbn [bind].
  destruct (found_or_none_total PDict metrics
              (dev_id (set_field device "te_test_details" v1))) as [v2 ->].
  cbn [bind].
  match goal with |- context [found_or_none _ average ?i] =>
    destruct (found_or_none_total (fun x => x) average i) as [v3 ->] end.
  cbn [bind].
  match goal with |- context [found_or_none _ maximum ?i] =>
    destruct (found_or_none_total (fun x => x) maximum i) as [v4 ->] end.
  cbn [bind].
  match goal with |- context [found_or_none _ (Some results) ?i] =>
    destruct (found_or_none_total PDict (Some results) i) as [v5 ->] end.
  cbn [bind].
  match goal with |- context [found_or_none _ (Some latency) ?i] =>
    destruct (found_or_none_total (fun x => x) (Some latency) i) as [v6 ->] end.
  cbn [bind].
  eexists. split; [reflexivity|]. split; [reflexivity|]. split; [reflexivity|].
  unfold Spec.uniform, Spec.derived_fields. cbn [forallb].
  rewrite !set_field_has. cbn. reflexivity.
Qed.

Lemma comprehension_append_metrics details metrics average maximum results latency :
  forall devices,
  exists devices',
    comprehension (append_metrics details metrics average maximum results latency) devices
    = Ok devices' /\
    map dev_id devices' = map dev_id devices /\
    map dev_name devices' = map dev_name devices /\
    Forall (fun d => Spec.uniform d = true) devices'.
Proof.
  induction devices as [|d devices IH]; simpl.
  - exists []. repeat split; constructor.
  - destruct (append_metrics_Ok details metrics average maximum results latency d)
      as (d' & -> & Hid & Hname & Hu).
    destruct IH as (devices' & -> & Hids & Hnames & Hall). cbn [bind].
    exists (d' :: devices'). simpl. rewrite Hid, Hname, Hids, Hnames.
    repeat split; auto.
Qed.

(** When [index] hands a non-empty device list to the page, the list is a
    rearrangement of the fetched devices, sorted by name, and every device
    carries the six derived keys. *)
Lemma index_sorted_and_uniform period devices health tests out :
  devices <> [] ->
  index period (Some devices) health tests = Ok (Some out) ->
  Permutation (map dev_id devices) (map dev_id out) /\
  StronglySorted (fun a b => Spec.name_le a b = true) out /\
  Forall (fun d => Spec.uniform d = true) out.
Proof.
  intros Hne. unfold index. destruct devices as [|d0 devices]; [congruence|].
  set (all := d0 :: devices).
  destruct (match health period _ "cpu" "snort_avg" with Some _ => _ | None => _ end)
    as [snort|]; cbn [bind]; [|discriminate].
  destruct (match health 86400 _ "cpu" "snort_avg" with Some _ => _ | None => _ end)
    as [snort_max|]; cbn [bind]; [|discriminate].
  destruct (tests period all) as [raw_te details].
  destruct (convert_te_test_data raw_te) as [te_results|]; cbn [bind]; [|discriminate].
  destruct (calculate_te_avg te_results) as [latency|]; cbn [bind]; [|discriminate].
  destruct (comprehension_append_metrics details (fst snort) (snd snort) snort_max
              te_results latency all) as (merged & -> & Hids & Hnames & Hall).
  cbn [bind].
  destruct (sorted_by_name merged) as [sorted|] eqn:Es; cbn [bind]; [|discriminate].
  intros [= <-]. destruct (sorted_by_name_Ok _ _ Es) as [Hperm Hsorted].
  split; [|split].
  - rewrite <- Hids. now apply Permutation_map.
  - assumption.
  - eapply Permutation_Forall; eauto.
Qed.

(** [index] hands over a list of two devices or more only if every device
    has a name. *)
Lemma index_Ok_named period devices health tests out :
  index period (Some devices) health tests = Ok (Some out) ->
  (List.length devices <= 1)%nat \/ Forall (fun d => dev_name d <> None) devices.
Proof.
  unfold index. destruct devices as [|d0 devices]; [intros _; left; simpl; lia|].
  set (all := d0 :: devices).
  destruct (match health period _ "cpu" "snort_avg" with Some _ => _ | None => _ end)
    as [snort|]; cbn [bind]; [|discriminate].
  destruct (match health 86400 _ "cpu" "snort_avg" with Some _ => _ | None => _ end)
    as [snort_max|]; cbn [bind]; [|discriminate].
  destruct (tests period all) as [raw_te details].
  destruct (convert_te_test_data raw_te) as [te_results|]; cbn [bind]; [|discriminate].
  destruct (calculate_te_avg te_results) as [latency|]; cbn [bind]; [|discriminate].
  destruct (comprehension_append_metrics details (fst snort) (snd snort) snort_max
              te_results latency all) as (merged & -> & Hids & Hnames & Hall).
  cbn [bind].
  destruct (sorted_by_name merged) as [sorted|] eqn:Es; cbn [bind]; [|discriminate].
  intros _. destruct (sorted_by_name_Ok_named _ _ Es) as [Hshort|Hnamed].
  - left. rewrite <- (length_map dev_id), <- Hids, length_map. exact Hshort.
  - right. apply Forall_forall. intros d Hd.
    assert (Hin : In (dev_name d) (map dev_name merged))
      by (rewrite Hnames; now apply in_map).
    apply in_map_iff in Hin. destruct Hin as (d' & Heq & Hd').
    rewrite Forall_forall in Hnamed. specialize (Hnamed d' Hd').
    unfold Spec.named in Hnamed. rewrite <- Heq. destruct (dev_name d'); congruence.
Qed.

(** C7.  Two fetched devices, the second without a name (a device record
    without 'name' gets [None] in [get_ftd_devices]), and no health or test
    data: the six keys are set on both devices, then [sorted] compares
    "ftd-1" with [None] and raises [TypeError]; no device list reaches the
    page. *)
Theorem C7_nameless_device_breaks_sort :
  let devices :=
    [ {| dev_id := "uuid-1"; dev_name := Some "ftd-1"; dev_fields := [] |};
      {| dev_id := "uuid-2"; dev_name := None; dev_fields := [] |} ] in
  index 3600 (Some devices) (fun _ _ _ _ => None) (fun _ _ => ([], []))
  = Raise TypeError
  /\ (exists merged,
        comprehension (append_metrics [] None None None [] []) devices = Ok merged /\
        Forall (fun d => Spec.uniform d = true) merged /\
        sorted_by_name merged = Raise TypeError).
Proof.
  split; [vm_compute; reflexivity|].
  eexists. split; [vm_compute; reflexivity|].
  split; [repeat constructor | vm_compute; reflexivity].
Qed.

(** ** Rounding to one decimal *)

Lemma rne_scaled_nearest n e :
  0 <= n ->
  0 <= rne_scaled n e /\
  Spec.nearest (n * 2 ^ Z.max 0 e) (2 ^ Z.max 0 (- e)) (rne_scaled n e) /\
  (Spec.tie (n * 2 ^ Z.max 0 e) (2 ^ Z.max 0 (- e)) (rne_scaled n e) ->
   Z.even (rne_scaled n e) = true).
Proof.
  intros Hn. unfold rne_scaled, Spec.nearest, Spec.tie.
  destruct (Z.leb_spec 0 e) as [He|He].
  - rewrite (Z.max_r 0 e), (Z.max_l 0 (- e)) by lia. rewrite Z.pow_0_r.
    assert (0 <= 2 ^ e) by (apply Z.pow_nonneg; lia).
    replace (n * 2 ^ e - n * 2 ^ e * 1) with 0 by ring. cbn [Z.abs Z.mul].
    split; [apply Z.mul_nonneg_nonneg; lia|]. split; [lia|]. intros; lia.
  - rewrite (Z.max_l 0 e), (Z.max_r 0 (- e)) by lia. rewrite Z.pow_0_r, Z.mul_1_r.
    set (d := 2 ^ (- e)).
    assert (Hd : 0 < d) by (apply Z.pow_pos_nonneg; lia).
    pose proof (Z.div_mod n d ltac:(lia)) as Hdm.
    pose proof (Z.mod_pos_bound n d Hd) as Hr.
    assert (Hq : 0 <= n / d) by (apply Z.div_pos; lia).
    set (q := n / d) in *. set (r := n mod d) in *.
    assert (Hq1 : n - q * d = r) by lia.
    assert (Hq2 : n - (q + 1) * d = r - d) by lia.
    destruct (Z.compare_spec (2 * r) d) as [Heq|Hlt|Hgt].
    + destruct (Z.even q) eqn:Ev.
      * rewrite Hq1. split; [lia|]. split; [lia|]. auto.
      * rewrite Hq2. split; [lia|]. split; [lia|]. intros _.
        rewrite Z.even_add, Ev. reflexivity.
    + rewrite Hq1. split; [lia|]. split; lia.
    + rewrite Hq2. split; [lia|]. split; lia.
Qed.

(** [round(f, 1)] of a finite float is the float nearest to [k / 10], for
    the integer [k] nearest to ten times [f], the even one on a tie. *)
Lemma round1_nearest_tenth s m e :
  exists k,
    0 <= k /\
    round1 (S754_finite s m e) = b64_of_decimal s k (-1) /\
    Spec.nearest (10 * Zpos m * 2 ^ Z.max 0 e) (2 ^ Z.max 0 (- e)) k /\
    (Spec.tie (10 * Zpos m * 2 ^ Z.max 0 e) (2 ^ Z.max 0 (- e)) k -> Z.even k = true).
Proof.
  exists (rne_scaled (Zpos m * 10) e).
  destruct (rne_scaled_nearest (Zpos m * 10) e ltac:(lia)) as (H0 & Hn & Ht).
  replace (10 * Zpos m) with (Zpos m * 10) by lia.
  split; [exact H0|]. split; [|split; [exact Hn | exact Ht]].
  unfold round1. destruct (rne_scaled (Zpos m * 10) e); reflexivity.
Qed.

(** ** Small integers are floats *)

Lemma digits2_pos_iter d : forall p,
  digits2_pos (Pos.iter xO p d) = (digits2_pos p + d)%positive.
Proof.
  induction d as [|d IH] using Pos.peano_ind; intros p.
  - simpl. lia.
  - rewrite Pos.iter_succ. simpl. rewrite IH. lia.
Qed.

Lemma digits2_pos_lower p : 2 ^ (Zpos (digits2_pos p) - 1) <= Zpos p.
Proof.
  induction p as [p IH|p IH|]; simpl digits2_pos.
  - rewrite Pos2Z.inj_succ. replace (Z.succ (Zpos (digits2_pos p)) - 1) with (Z.succ (Zpos (digits2_pos p) - 1)) by lia.
    rewrite Z.pow_succ_r by lia. lia.
  - rewrite Pos2Z.inj_succ. replace (Z.succ (Zpos (digits2_pos p)) - 1) with (Z.succ (Zpos (digits2_pos p) - 1)) by lia.
    rewrite Z.pow_succ_r by lia. lia.
  - simpl. lia.
Qed.

Lemma digits2_pos_bound p : Zpos p < 2 ^ 53 -> Zpos (digits2_pos p) <= 53.
Proof.
  intros Hp. destruct (Z.le_gt_cases (Zpos (digits2_pos p)) 53) as [|Hgt]; [assumption|].
  exfalso. pose proof (digits2_pos_lower p) as Hl.
  assert (2 ^ 53 <= 2 ^ (Zpos (digits2_pos p) - 1)) by (apply Z.pow_le_mono_r; lia).
  lia.
Qed.


Lemma binary_round_aux_exact mz ez :
  Zpos (digits2_pos mz) = 53 -> -1074 <= ez <= 971 ->
  binary_round_aux 53 1024 false (Zpos mz) ez loc_Exact = S754_finite false mz ez.
Proof.
  intros Hd He.
  assert (Hs : shr_fexp 53 1024 (Zpos mz) ez loc_Exact
               = ({| shr_m := Zpos mz; shr_r := false; shr_s := false |}, ez)).
  { unfold shr_fexp. cbn [Zdigits2 shr_record_of_loc]. rewrite Hd.
    replace (fexp 53 1024 (53 + ez) - ez) with 0 by (unfold fexp, emin; lia).
    reflexivity. }
  unfold binary_round_aux. rewrite Hs. cbn [shr_m loc_of_shr_record round_nearest_even].
  rewrite Hs. cbn [shr_m].
  replace (ez <=? 1024 - 53) with true by (symmetry; apply Z.leb_le; lia).
  reflexivity.
Qed.

Lemma b64_of_Z_finite p :
  Zpos p < 2 ^ 53 ->
  exists m e, b64_of_Z (Zpos p) = S754_finite false m e.
Proof.
  intros Hp. pose proof (digits2_pos_bound p Hp) as Hd.
  unfold b64_of_Z, prec, emax, binary_normalize, binary_round.
  replace (fexp 53 1024 (Zpos (digits2_pos p) + 0)) with (Zpos (digits2_pos p) - 53)
    by (unfold fexp, emin; lia).
  unfold shl_align.
  destruct (Zpos (digits2_pos p) - 53 - 0) as [|d|d] eqn:Ed; try lia.
  - eexists _, _. apply binary_round_aux_exact; lia.
  - eexists _, _. apply binary_round_aux_exact; [|lia].
    rewrite digits2_pos_iter. lia.
Qed.

(** ** The float average *)

Lemma comprehension_length {A B} (f : A -> result B) : forall l r,
  comprehension f l = Ok r -> List.length r = List.length l.
Proof.
  induction l as [|x l IH]; intros r; simpl.
  - now intros [= <-].
  - destruct (f x); cbn [bind]; [|discriminate].
    destruct (comprehension f l) eqn:E; cbn [bind]; [|discriminate].
    intros [= <-]. simpl. now rewrite (IH _ eq_refl).
Qed.

Lemma sum_from_floats fs : forall x,
  sum_from (PFloat x) (map PFloat fs) = Ok (PFloat (fold_left b64_add fs x)).
Proof.
  induction fs as [|f fs IH]; intros x; simpl; [reflexivity|]. apply IH.
Qed.

Lemma py_sum_floats f fs :
  py_sum (map PFloat (f :: fs)) = Ok (PFloat (Spec.b64_sum (f :: fs))).
Proof. unfold py_sum. simpl. apply sum_from_floats. Qed.

Lemma truediv_by_length x n :
  0 < n < 2 ^ 53 -> truediv (PFloat x) (PInt n) = Ok (PFloat (b64_div x (b64_of_Z n))).
Proof.
  intros Hn. destruct n as [|p|p]; try lia.
  destruct (b64_of_Z_finite p ltac:(lia)) as (m & e & Hf).
  unfold truediv. cbn [as_int operand_float bind]. unfold int_to_float.
  rewrite Hf. reflexivity.
Qed.

Lemma average_of_floats f fs :
  Z.of_nat (List.length (f :: fs)) < 2 ^ 53 ->
  average_or_zero (map PFloat (f :: fs))
  = Ok (PFloat (b64_div (Spec.b64_sum (f :: fs))
                        (b64_of_Z (Z.of_nat (List.length (f :: fs)))))).
Proof.
  intros Hlen. unfold average_or_zero, py_len. rewrite length_map.
  replace (0 <? Z.of_nat (List.length (f :: fs))) with true
    by (symmetry; apply Z.ltb_lt; simpl List.length; lia).
  rewrite py_sum_floats. cbn [bind]. apply truediv_by_length.
  simpl List.length in *. lia.
Qed.

(** ** The greatest float *)

Lemma b64_ltb_trans a b c :
  b64_ltb a b = true -> b64_ltb b c = true -> b64_ltb a c = true.
Proof.
  unfold b64_ltb, SFltb.
  destruct a as [sa|sa| |sa ma ea], b as [sb|sb| |sb mb eb], c as [sc|sc| |sc mc ec];
    cbn [SFcompare]; try discriminate; try reflexivity;
    try (destruct sa; discriminate || reflexivity);
    try (destruct sb; discriminate || reflexivity);
    try (destruct sc; discriminate || reflexivity);
    try (destruct sa, sb; discriminate || reflexivity);
    try (destruct sb, sc; discriminate || reflexivity);
    try (destruct sa, sc; discriminate || reflexivity);
    try (destruct sa, sb, sc; discriminate || reflexivity).
  all: change (Pos.compare_cont Eq) with Pos.compare.
  all: destruct sa, sb, sc; try discriminate; try reflexivity.
  all: destruct (Z.compare_spec ea eb), (Z.compare_spec eb ec), (Z.compare_spec ea ec);
    try discriminate; try reflexivity; try lia; subst.
  all: destruct (Pos.compare_spec ma mb), (Pos.compare_spec mb mc),
         (Pos.compare_spec ma mc); cbn [CompOpp]; try discriminate; try reflexivity; lia.
Qed.

Lemma b64_ltb_irrefl a : b64_ltb a a = false.
Proof.
  unfold b64_ltb, SFltb. destruct a as [s|s| |s m e]; cbn [SFcompare];
    try (destruct s; reflexivity); try reflexivity.
  change (Pos.compare_cont Eq) with Pos.compare.
  rewrite Z.compare_refl, Pos.compare_refl. destruct s; reflexivity.
Qed.

Lemma max_from_greatest l : forall x seen,
  In x seen -> (forall z, In z seen -> b64_ltb x z = false) ->
  In (max_from x l) (seen ++ l) /\
  forall z, In z (seen ++ l) -> b64_ltb (max_from x l) z = false.
Proof.
  induction l as [|y l IH]; intros x seen Hin Hmax; cbn [max_from fold_left].
  - rewrite app_nil_r. auto.
  - change (fold_left (fun m y0 => if b64_ltb m y0 then y0 else m) l
              (if b64_ltb x y then y else x))
      with (max_from (if b64_ltb x y then y else x) l).
    replace (seen ++ y :: l) with ((seen ++ [y]) ++ l) by now rewrite <- app_assoc.
    apply IH.
    + destruct (b64_ltb x y); apply in_or_app; [right; now left | now left].
    + intros z Hz. apply in_app_or in Hz. destruct (b64_ltb x y) eqn:E.
      * destruct Hz as [Hz|[<-|[]]]; [|apply b64_ltb_irrefl].
        destruct (b64_ltb y z) eqn:E'; [|reflexivity].
        rewrite <- (Hmax z Hz). symmetry. eapply b64_ltb_trans; eauto.
      * destruct Hz as [Hz|[<-|[]]]; auto.
Qed.

(** ** The average of numbers *)

Lemma num_add_plus (a : Spec.number) (v : pyval) (b : Spec.number) :
  Spec.number_of v = Some b ->
  num_add (match a with Spec.Exact z => PInt z | Spec.Binary f => PFloat f end) v
  = match Spec.plus a b with
    | Some (Spec.Exact z) => Ok (PInt z)
    | Some (Spec.Binary f) => Ok (PFloat f)
    | None => Raise OverflowError
    end.
Proof.
  intros Hv. unfold num_add, Spec.plus, Spec.binary_of, operand_float, int_to_float.
  destruct v as [|c|n|f|str|l|d]; try discriminate; injection Hv as <-;
    destruct a as [m|g]; cbn [as_int bind]; try reflexivity.
  - destruct (b64_of_Z (if c then 1 else 0)); reflexivity.
  - destruct (b64_of_Z n); reflexivity.
  - destruct (b64_of_Z m); reflexivity.
Qed.

Lemma sum_from_total latencies : forall (numbers : list Spec.number) (a : Spec.number),
  map Spec.number_of latencies = map Some numbers ->
  sum_from (match a with Spec.Exact z => PInt z | Spec.Binary f => PFloat f end) latencies
  = match Spec.total a numbers with
    | Some (Spec.Exact z) => Ok (PInt z)
    | Some (Spec.Binary f) => Ok (PFloat f)
    | None => Raise OverflowError
    end.
Proof.
  induction latencies as [|v latencies IH]; intros numbers a Hmap;
    destruct numbers as [|b numbers]; try discriminate.
  - destruct a; reflexivity.
  - cbn [map] in Hmap. injection Hmap as Hv Hrest.
    cbn [sum_from Spec.total]. rewrite (num_add_plus a v b Hv).
    destruct (Spec.plus a b) as [c|]; [|reflexivity].
    specialize (IH numbers c Hrest). destruct c; cbn [bind]; exact IH.
Qed.

Lemma truediv_quotient (sum : Spec.number) (n : Z) :
  0 < n < 2 ^ 53 ->
  truediv (match sum with Spec.Exact z => PInt z | Spec.Binary f => PFloat f end) (PInt n)
  = match Spec.quotient sum n with
    | Some q => Ok (PFloat q)
    | None => Raise OverflowError
    end.
Proof.
  intros Hn. destruct sum as [z|f]; cbn [Spec.quotient].
  - destruct n as [|q|q]; try lia. unfold truediv. cbn [as_int].
    replace (Zpos q <? 0) with false by reflexivity.
    destruct z as [|p|p]; cbn [Z.abs Spec.exact_float].
    + reflexivity.
    + replace (xorb (Zpos p <? 0) false) with false by reflexivity.
      unfold b64_of_ratio, is_inf.
      destruct (b64_div (S754_finite false p 0) (S754_finite false q 0)); reflexivity.
    + replace (xorb (Zneg p <? 0) false) with true by reflexivity.
      unfold b64_of_ratio, is_inf.
      destruct (b64_div (S754_finite true p 0) (S754_finite false q 0)); reflexivity.
  - now apply truediv_by_length.
Qed.

Lemma average_of_numbers latencies numbers :
  latencies <> [] ->
  Z.of_nat (List.length latencies) < 2 ^ 53 ->
  map Spec.number_of latencies = map Some numbers ->
  average_or_zero latencies
  = match Spec.number_average numbers with
    | Some x => Ok (PFloat x)
    | None => Raise OverflowError
    end.
Proof.
  intros Hne Hlen Hmap.
  assert (Hcount : List.length numbers = List.length latencies).
  { rewrite <- (length_map Some numbers), <- Hmap. apply length_map. }
  assert (Hpos : 0 < Z.of_nat (List.length latencies)).
  { destruct latencies; [congruence | cbn [List.length]; lia]. }
  unfold average_or_zero, py_len, py_sum, Spec.number_average.
  replace (0 <? Z.of_nat (List.length latencies)) with true
    by (symmetry; now apply Z.ltb_lt).
  rewrite (sum_from_total latencies numbers (Spec.Exact 0) Hmap). rewrite Hcount.
  destruct (Spec.total (Spec.Exact 0) numbers) as [sum|]; [|reflexivity].
  pose proof (truediv_quotient sum (Z.of_nat (List.length latencies)) (conj Hpos Hlen))
    as Hdiv.
  destruct sum; cbn [bind]; exact Hdiv.
Qed.

(** C8, amended.  For a non-empty series whose values [float] accepts, the
    SNORT average is [round(x, 1)] for the float average [x] (the float sum
    divided by the count) and the SNORT maximum is [round(x, 1)] for a
    float [x] of the series that no float of the series exceeds.  For a
    non-empty series whose latencies are numbers, the latency average is
    [round(x, 1)] for the average [x] of the numbers: integers are added
    exactly, from the first float on the sum is a float sum, and the sum is
    divided by the count (an integer too large for a float is an
    [OverflowError]); for float latencies this is the float average again.
    [round(x, 1)] of a finite float is the float nearest to [k / 10] where
    [k] is the integer nearest to ten times [x], the even one on a tie. *)
Theorem C8_statistics_rounded_to_one_decimal :
  forall (series : dict pyval) (fs : list spec_float),
    series <> [] ->
    Z.of_nat (List.length series) < 2 ^ 53 ->
    comprehension py_float (dict_values series) = Ok fs ->
    let average := b64_div (Spec.b64_sum fs) (b64_of_Z (Z.of_nat (List.length fs))) in
    snort_avg_of series = Ok (PFloat (round1 average)) /\
    (exists greatest,
       In greatest fs /\
       (forall y, In y fs -> b64_ltb greatest y = false) /\
       snort_max_of series = Ok (PFloat (round1 greatest))) /\
    (forall (te_series : dict pyval) (latencies : list pyval)
            (numbers : list Spec.number),
       te_series <> [] ->
       Z.of_nat (List.length te_series) < 2 ^ 53 ->
       comprehension (fun value => getitem_nat value 0) (dict_values te_series)
       = Ok latencies ->
       map Spec.number_of latencies = map Some numbers ->
       te_avg_of te_series
       = match Spec.number_average numbers with
         | Some x => Ok (PFloat (round1 x))
         | None => Raise OverflowError
         end) /\
    (forall te_series : dict pyval,
       comprehension (fun value => getitem_nat value 0) (dict_values te_series)
       = Ok (map PFloat fs) ->
       te_avg_of te_series = Ok (PFloat (round1 average))) /\
    (forall s m e,
       exists k,
         0 <= k /\
         round1 (S754_finite s m e) = b64_of_decimal s k (-1) /\
         Spec.nearest (10 * Zpos m * 2 ^ Z.max 0 e) (2 ^ Z.max 0 (- e)) k /\
         (Spec.tie (10 * Zpos m * 2 ^ Z.max 0 e) (2 ^ Z.max 0 (- e)) k
          -> Z.even k = true)).
Proof.
  intros series fs Hne Hlen Hfs average.
  pose proof (comprehension_length _ _ _ Hfs) as Hl.
  unfold dict_values in Hl. rewrite length_map in Hl.
  destruct fs as [|f fs].
  { destruct series; [congruence | discriminate]. }
  assert (Havg : average_or_zero (map PFloat (f :: fs)) = Ok (PFloat average)).
  { apply average_of_floats. rewrite Hl. exact Hlen. }
  split; [|split; [|split; [|split]]].
  - unfold snort_avg_of. rewrite Hfs. cbn [bind]. rewrite Havg. reflexivity.
  - destruct (max_from_greatest fs f [f]) as [Hin Hmax].
    + now left.
    + intros z [<-|[]]. apply b64_ltb_irrefl.
    + exists (max_from f fs). repeat split; auto.
      unfold snort_max_of. rewrite Hfs. reflexivity.
  - intros te_series latencies numbers Hte_ne Hte_len Hte Hnumbers.
    pose proof (comprehension_length _ _ _ Hte) as Hl'.
    unfold dict_values in Hl'. rewrite length_map in Hl'.
    unfold te_avg_of. rewrite Hte. cbn [bind].
    rewrite (average_of_numbers latencies numbers).
    + destruct (Spec.number_average numbers); reflexivity.
    + intros ->. destruct te_series; [congruence | discriminate].
    + rewrite Hl'. exact Hte_len.
    + exact Hnumbers.
  - intros te_series Hte. unfold te_avg_of. rewrite Hte. cbn [bind].
    rewrite Havg. reflexivity.
  - apply round1_nearest_tenth.
Qed.

(** The series {"22:13": "7.249"}: average and maximum are 7.2.  The
    integer latencies 7 and 8: their average is 7.5. *)
Lemma C8_statistics_rounded_to_one_decimal_witness :
  exists seven_two seven_five,
    py_float (PStr "7.2") = Ok seven_two /\
    py_float (PStr "7.5") = Ok seven_five /\
    snort_avg_of [("22:13", PStr "7.249")] = Ok (PFloat seven_two) /\
    snort_max_of [("22:13", PStr "7.249")] = Ok (PFloat seven_two) /\
    te_avg_of [("22:13", PList [PInt 7; PInt 0; PInt 1]);
               ("22:14", PList [PInt 8; PInt 0; PInt 2])]
    = Ok (PFloat seven_five).
Proof.
  exists (S754_finite false 8106479329266893 (-50)),
         (S754_finite false 8444249301319680 (-50)).
  split; [vm_compute; reflexivity|]. split; [vm_compute; reflexivity|].
  destruct (C8_statistics_rounded_to_one_decimal
              [("22:13", PStr "7.249")] [S754_finite false 8161648424702181 (-50)])
    as (Havg & (greatest & Hin & _ & Hmax) & Hte & _).
  - discriminate.
  - vm_compute. reflexivity.
  - vm_compute. reflexivity.
  - rewrite Havg, Hmax. destruct Hin as [<-|[]].
    split; [vm_compute; reflexivity|]. split; [vm_compute; reflexivity|].
    rewrite (Hte [("22:13", PList [PInt 7; PInt 0; PInt 1]);
                  ("22:14", PList [PInt 8; PInt 0; PInt 2])]
                 [PInt 7; PInt 8] [Spec.Exact 7; Spec.Exact 8]).
    + vm_compute. reflexivity.
    + discriminate.
    + vm_compute. reflexivity.
    + reflexivity.
    + reflexivity.
Defined.

(** C8, as the specification has it, fails: the average is computed in
    binary floating point and need not be the exact average rounded.  The
    exact average of 0.3 and 0.40000000000000001 is above 0.35 and rounds to
    0.4; the float average is below 0.35 and [calculate_snort_avg] gives
    0.3.  The same happens with the floats nearest to 0.3 and 0.4. *)
Lemma C8_counterexample :
  (exists x,
     py_float (PStr "0.3") = Ok x /\
     snort_avg_of [("22:13", PStr "0.3"); ("22:14", PStr "0.40000000000000001")]
     = Ok (PFloat x) /\
     ~ Spec.exact_average_rounded [PStr "0.3"; PStr "0.40000000000000001"] (PFloat x))
  /\
  (exists x y r,
     py_float (PStr "0.3") = Ok x /\ py_float (PStr "0.4") = Ok y /\
     snort_avg_of [("22:13", PFloat x); ("22:14", PFloat y)] = Ok r /\
     ~ Spec.exact_average_rounded [PFloat x; PFloat y] r).
Proof.
  split.
  - exists (S754_finite false 5404319552844595 (-54)).
    split; [vm_compute; reflexivity|]. split; [vm_compute; reflexivity|].
    intros (num & den & k & Hsum & Hnear & Hr).
    vm_compute in Hsum. injection Hsum as <- <-.
    unfold Spec.nearest in Hnear. cbn [List.length] in Hnear.
    assert (k = 4) by lia. subst k. vm_compute in Hr. discriminate.
  - exists (S754_finite false 5404319552844595 (-54)),
           (S754_finite false 7205759403792794 (-54)),
           (PFloat (S754_finite false 5404319552844595 (-54))).
    split; [vm_compute; reflexivity|]. split; [vm_compute; reflexivity|].
    split; [vm_compute; reflexivity|].
    intros (num & den & k & Hsum & Hnear & Hr).
    vm_compute in Hsum. injection Hsum as <- <-.
    unfold Spec.nearest in Hnear. cbn [List.length] in Hnear.
    assert (k = 4) by lia. subst k. vm_compute in Hr. discriminate.
Qed.

(** * Further properties *)

(** ** Labels of the normalised series *)

(** X1.  Every key of a series that [convert_snort_metric_data] returns
    reads "HH:MM" with the hour below 24 and the minute below 60. *)
Theorem X1_labels_are_hhmm :
  forall (raw : dict (list pyval)) out device series label,
    convert_snort_metric_data raw = Ok out ->
    dict_get out device = Some series ->
    In label (dict_keys series) ->
    Spec.is_hhmm label = true.
Proof.
  intros raw out device series label Hrun Hget Hin.
  rewrite convert_snort_metric_data_normalised in Hrun. injection Hrun as <-.
  rewrite normalised_get in Hget.
  destruct (dict_get raw device) as [samples|]; [|discriminate].
  injection Hget as <-. apply fill_keys in Hin.
  destruct Hin as (data & value & _ & Hentry).
  unfold snort_entry in Hentry.
  destruct (getitem_nat data 0) as [stamp|]; cbn [bind] in Hentry; [|discriminate].
  unfold utc_hhmm in Hentry.
  destruct (timestamp_seconds stamp) as [t|]; cbn [bind] in Hentry; [|discriminate].
  destruct ((MIN_TIMESTAMP <=? t) && (t <=? MAX_TIMESTAMP)); cbn [bind] in Hentry;
    [|discriminate].
  destruct (getitem_nat data 1); cbn [bind] in Hentry; [|discriminate].
  injection Hentry as <- _. apply hhmm_is_hhmm.
Qed.

Lemma X1_labels_are_hhmm_witness :
  Spec.is_hhmm "22:13" = true.
Proof.
  apply (X1_labels_are_hhmm
           [("ftd-1", [PList [PInt 1700000000; PStr "3.5"]])]
           [("ftd-1", [("22:13", PStr "3.5")])]
           "ftd-1" [("22:13", PStr "3.5")] "22:13").
  - vm_compute. reflexivity.
  - reflexivity.
  - simpl. auto.
Defined.

Lemma convert_snort_singleton device samples :
  convert_snort_metric_data [(device, samples)]
  = Ok [(device, Spec.fill snort_entry samples [])].
Proof.
  rewrite convert_snort_metric_data_normalised.
  unfold Spec.normalised, Spec.series_of.
  cbn [dict_keys map fst fold_left dict_get dict_set]. now rewrite String.eqb_refl.
Qed.

(** X2.  Labels keep the time of day only.  Of two samples in the same
    minute of the day (on the same day or any number of days apart) the
    second replaces the first; two samples in different minutes of the day
    are both kept. *)
Theorem X2_same_minute_of_day_overwrites :
  forall (device : string) (t1 t2 : Z) (v1 v2 : pyval),
    MIN_TIMESTAMP <= t1 <= MAX_TIMESTAMP ->
    MIN_TIMESTAMP <= t2 <= MAX_TIMESTAMP ->
    convert_snort_metric_data [(device, [PList [PInt t1; v1]; PList [PInt t2; v2]])]
    = Ok [(device,
           if Spec.minute_of_day t1 =? Spec.minute_of_day t2
           then [(hhmm t1, v2)]
           else [(hhmm t1, v1); (hhmm t2, v2)])].
Proof.
  intros device t1 t2 v1 v2 H1 H2. rewrite convert_snort_singleton.
  unfold Spec.fill. cbn [fold_left]. unfold Spec.keep.
  rewrite (snort_entry_pair t1 v1 [] H1), (snort_entry_pair t2 v2 [] H2).
  cbn [dict_set]. destruct (Z.eqb_spec (Spec.minute_of_day t1) (Spec.minute_of_day t2)) as [E|E].
  - apply hhmm_same_label in E. rewrite E, String.eqb_refl. reflexivity.
  - destruct (String.eqb_spec (hhmm t1) (hhmm t2)) as [E'|E']; [|reflexivity].
    apply hhmm_same_label in E'. contradiction.
Qed.

(** Two samples one day apart. *)
Lemma X2_same_minute_of_day_overwrites_witness :
  convert_snort_metric_data
    [("ftd-1", [PList [PInt 1700000000; PStr "3.5"]; PList [PInt 1700086400; PStr "4.1"]])]
  = Ok [("ftd-1", [("22:13", PStr "4.1")])].
Proof.
  apply (X2_same_minute_of_day_overwrites "ftd-1" 1700000000 1700086400
           (PStr "3.5") (PStr "4.1")); unfold MIN_TIMESTAMP, MAX_TIMESTAMP; lia.
Defined.

(** ** The maximum *)

(** X3.  The maximum of a non-empty series whose values [float] accepts is
    [round(v, 1)] for one of these floats [v], and none of the floats is
    greater than [v]. *)
Theorem X3_maximum_is_a_greatest_value :
  forall (series : dict pyval) (fs : list spec_float),
    series <> [] ->
    comprehension py_float (dict_values series) = Ok fs ->
    exists v,
      In v fs /\
      (forall y, In y fs -> b64_ltb v y = false) /\
      snort_max_of series = Ok (PFloat (round1 v)).
Proof.
  intros series fs Hne Hfs.
  pose proof (comprehension_length _ _ _ Hfs) as Hl.
  unfold dict_values in Hl. rewrite length_map in Hl.
  destruct fs as [|x rest]; [destruct series; [congruence | discriminate]|].
  destruct (max_from_greatest rest x [x]) as [Hin Hmax].
  - now left.
  - intros z [<-|[]]. apply b64_ltb_irrefl.
  - exists (max_from x rest). repeat split; auto.
    unfold snort_max_of. rewrite Hfs. reflexivity.
Qed.

Lemma X3_maximum_is_a_greatest_value_witness :
  exists v,
    py_float (PStr "4.1") = Ok v /\
    snort_max_of [("22:13", PStr "3.5"); ("22:14", PStr "4.1"); ("22:15", PStr "0.2")]
    = Ok (PFloat (round1 v)).
Proof.
  destruct (X3_maximum_is_a_greatest_value
              [("22:13", PStr "3.5"); ("22:14", PStr "4.1"); ("22:15", PStr "0.2")]
              [S754_finite false 7881299347898368 (-51);
               S754_finite false 4616189618054758 (-50);
               S754_finite false 7205759403792794 (-55)])
    as (v & Hin & Hmax & Hrun).
  - discriminate.
  - vm_compute. reflexivity.
  - exists (S754_finite false 4616189618054758 (-50)).
    split; [vm_compute; reflexivity|]. vm_compute. reflexivity.
Defined.

(** ** The type of a statistic *)

Lemma truediv_is_float a b v : truediv a b = Ok v -> exists f, v = PFloat f.
Proof.
  unfold truediv. destruct (as_int a) as [m|], (as_int b) as [n|].
  1: destruct (Z.abs m), (Z.abs n); try discriminate;
       try (intros [= <-]; eauto; fail);
       destruct (is_inf _); try discriminate; intros [= <-]; eauto.
  all: destruct (operand_float a); cbn [bind]; [|discriminate];
       destruct (operand_float b); cbn [bind]; [|discriminate];
       destruct (is_zero _); [discriminate|]; intros [= <-]; eauto.
Qed.

Lemma average_or_zero_type values v :
  average_or_zero values = Ok v ->
  (values = [] /\ v = PInt 0) \/ (values <> [] /\ exists f, v = PFloat f).
Proof.
  unfold average_or_zero. destruct values as [|x values].
  - cbn. intros [= <-]. auto.
  - replace (0 <? Z.of_nat (List.length (x :: values))) with true
      by (symmetry; apply Z.ltb_lt; cbn [List.length]; lia).
    destruct (py_sum (x :: values)) as [total|]; cbn [bind]; [|discriminate].
    intros H. right. split; [discriminate|]. eapply truediv_is_float; eauto.
Qed.

(** X4.  A statistic that is returned is the integer 0 when the series is
    empty and a float otherwise, in each of the three summary functions. *)
Theorem X4_statistic_is_zero_or_float :
  forall (series : dict pyval) (v : pyval),
    snort_avg_of series = Ok v \/ snort_max_of series = Ok v \/ te_avg_of series = Ok v ->
    (series = [] /\ v = PInt 0) \/ (series <> [] /\ exists f, v = PFloat f).
Proof.
  intros series v [H|[H|H]].
  - unfold snort_avg_of in H.
    destruct (comprehension py_float (dict_values series)) as [fs|] eqn:Hfs;
      cbn [bind] in H; [|discriminate].
    pose proof (comprehension_length _ _ _ Hfs) as Hl.
    unfold dict_values in Hl. rewrite length_map in Hl.
    destruct (average_or_zero (map PFloat fs)) as [a|] eqn:Ha; cbn [bind] in H; [|discriminate].
    destruct (average_or_zero_type _ _ Ha) as [[He ->]|[Hne [f ->]]].
    + left. destruct fs; [|discriminate]. destruct series; [|discriminate].
      cbn in H. injection H as <-. auto.
    + right. cbn in H. injection H as <-. split; [|eauto].
      intros ->. destruct fs; [exfalso; apply Hne; reflexivity | discriminate Hl].
  - unfold snort_max_of in H.
    destruct (comprehension py_float (dict_values series)) as [fs|] eqn:Hfs;
      cbn [bind] in H; [|discriminate].
    pose proof (comprehension_length _ _ _ Hfs) as Hl.
    unfold dict_values in Hl. rewrite length_map in Hl.
    destruct fs as [|x rest].
    + left. destruct series; [|discriminate]. cbn in H. injection H as <-. auto.
    + right. cbn in H. injection H as <-. split; [|eauto]. intros ->. discriminate.
  - unfold te_avg_of in H.
    destruct (comprehension (fun value => getitem_nat value 0) (dict_values series))
      as [ls|] eqn:Hls; cbn [bind] in H; [|discriminate].
    pose proof (comprehension_length _ _ _ Hls) as Hl.
    unfold dict_values in Hl. rewrite length_map in Hl.
    destruct (average_or_zero ls) as [a|] eqn:Ha; cbn [bind] in H; [|discriminate].
    destruct (average_or_zero_type _ _ Ha) as [[He ->]|[Hne [f ->]]].
    + left. subst ls. destruct series; [|discriminate].
      cbn in H. injection H as <-. auto.
    + right. cbn in H. injection H as <-. split; [|eauto].
      intros ->. destruct ls; [exfalso; apply Hne; reflexivity | discriminate Hl].
Qed.

Lemma X4_statistic_is_zero_or_float_witness :
  exists f, snort_avg_of [("22:13", PStr "3.5")] = Ok (PFloat f).
Proof.
  destruct (X4_statistic_is_zero_or_float [("22:13", PStr "3.5")]
              (PFloat (S754_finite false 7881299347898368 (-51))))
    as [[H _]|[_ [f Hf]]].
  - left. vm_compute. reflexivity.
  - discriminate.
  - exists f. rewrite <- Hf. vm_compute. reflexivity.
Defined.

(** ** The merge loop of [index] *)

Lemma found_or_none_value {V} (inj : V -> pyval) (m : option (dict V)) (id : string) :
  found_or_none inj m id = Ok (Spec.entry_or_none inj m id).
Proof.
  unfold found_or_none, Spec.entry_or_none. destruct m as [d|]; [|reflexivity].
  unfold dict_has, dict_item. destruct d as [|p d]; [reflexivity|].
  cbn [truthy_list andb]. destruct (dict_get (p :: d) id); reflexivity.
Qed.

(** X5.  The loop that attaches the metrics to a device never raises.  It
    leaves 'id', 'name' and every key other than the six derived ones as
    they were, and sets each derived key to the entry of the matching
    mapping for the device's id, or to [None] when there is none. *)
Theorem X5_merge_sets_entry_or_none :
  forall details metrics average maximum results latency (device : ftd_device),
  exists device',
    append_metrics details metrics average maximum results latency device = Ok device' /\
    dev_id device' = dev_id device /\
    dev_name device' = dev_name device /\
    (forall k, ~ In k Spec.derived_fields ->
               dict_get (dev_fields device') k = dict_get (dev_fields device) k) /\
    dict_get (dev_fields device') "te_test_details"
    = Some (Spec.entry_or_none (fun x => x) (Some details) (dev_id device)) /\
    dict_get (dev_fields device') "snort_cpu_data"
    = Some (Spec.entry_or_none PDict metrics (dev_id device)) /\
    dict_get (dev_fields device') "snort_cpu_avg"
    = Some (Spec.entry_or_none (fun x => x) average (dev_id device)) /\
    dict_get (dev_fields device') "snort_cpu_max"
    = Some (Spec.entry_or_none (fun x => x) maximum (dev_id device)) /\
    dict_get (dev_fields device') "te_test_data"
    = Some (Spec.entry_or_none PDict (Some results) (dev_id device)) /\
    dict_get (dev_fields device') "te_latency_avg"
    = Some (Spec.entry_or_none (fun x => x) (Some latency) (dev_id device)).
Proof.
  intros. unfold append_metrics. repeat (rewrite found_or_none_value; cbn [bind]).
  eexists. split; [reflexivity|]. cbn [set_field dev_id dev_name dev_fields].
  split; [reflexivity|]. split; [reflexivity|]. split.
  - intros k Hk. unfold Spec.derived_fields in Hk. cbn [In] in Hk.
    rewrite !dict_get_set.
    repeat match goal with
           | |- context [String.eqb ?a k] =>
               destruct (String.eqb_spec a k); [exfalso; apply Hk; tauto|]
           end.
    reflexivity.
  - rewrite !dict_get_set. cbn. repeat split; reflexivity.
Qed.

(** ** The sort of [index] *)

Lemma insert_by_name_stable x : forall l r n,
  insert_by_name x l = Ok r ->
  Spec.with_name n r = Spec.with_name n (x :: l).
Proof.
  induction l as [|y l IH]; intros r n; cbn [insert_by_name].
  - now intros [= <-].
  - unfold name_lt. destruct (dev_name y) as [ny|] eqn:Ey; [|discriminate].
    destruct (dev_name x) as [nx|] eqn:Ex; [|discriminate].
    cbn [bind]. destruct (String.ltb ny nx) eqn:Elt; [|now intros [= <-]].
    destruct (insert_by_name x l) as [r'|] eqn:Er; cbn [bind]; [|discriminate].
    intros [= <-]. unfold Spec.with_name in *. cbn [filter].
    rewrite (IH r' n eq_refl). cbn [filter]. rewrite Ey, Ex.
    destruct n as [n|]; [|reflexivity].
    destruct (String.eqb_spec ny n) as [->|]; [|reflexivity].
    destruct (String.eqb_spec nx n) as [->|]; [|reflexivity].
    (* [n < n] is impossible *)
    unfold String.ltb in Elt.
    destruct (String.compare n n) eqn:E; try discriminate.
    pose proof (String.compare_antisym n n) as H. rewrite E in H. discriminate H.
Qed.

Lemma sorted_by_name_stable : forall l r n,
  sorted_by_name l = Ok r -> Spec.with_name n r = Spec.with_name n l.
Proof.
  induction l as [|x l IH]; intros r n; cbn [sorted_by_name].
  - now intros [= <-].
  - destruct (sorted_by_name l) as [s|] eqn:Es; cbn [bind]; [|discriminate].
    intros Hins. rewrite (insert_by_name_stable x s r n Hins).
    unfold Spec.with_name in *. cbn [filter]. now rewrite (IH s n eq_refl).
Qed.

(** X6.  The sort by name returns exactly when there is at most one device
    or every device has a name, and raises [TypeError] otherwise.  What it
    returns is a rearrangement of the devices in ascending order of name
    that keeps devices of the same name in their original order. *)
Theorem X6_sort_by_name :
  forall l : list ftd_device,
    ((List.length l <= 1)%nat \/ Forall (fun d => Spec.named d = true) l ->
     exists r,
       sorted_by_name l = Ok r /\
       Permutation l r /\
       StronglySorted (fun a b => Spec.name_le a b = true) r /\
       forall n, Spec.with_name n r = Spec.with_name n l)
    /\
    ((2 <= List.length l)%nat /\ Exists (fun d => Spec.named d = false) l ->
     sorted_by_name l = Raise TypeError).
Proof.
  intros l. split.
  - intros Hok.
    assert (Hrun : exists r, sorted_by_name l = Ok r).
    { destruct Hok as [Hshort|Hall]; [|now apply sorted_by_name_named].
      destruct l as [|x [|y l]]; [cbn; eauto | cbn; eauto | cbn in Hshort; lia]. }
    destruct Hrun as [r Hr]. exists r. split; [assumption|].
    destruct (sorted_by_name_Ok l r Hr) as [Hperm Hsorted].
    repeat split; auto. intros n. now apply sorted_by_name_stable.
  - intros [Hlen Hex]. now apply sorted_by_name_nameless.
Qed.

(** ** fmc.py: what [getData] does when the token request fails *)

(** X7.  Whatever the server answers, [getData] sends at most three
    requests and leaves the script of the server alone.  After a 401, a
    token request answered with another status than 204 ends in
    [SystemExit] and leaves the stored tokens and headers as they were; one
    answered with 204 but without one of the three token headers ends in
    [KeyError].  In both cases two requests were sent and the first one is
    not retried. *)
Theorem X7_getData_failed_token_request :
  forall (host user password : string) (self : FirePower.firepower)
         (url : string) (params : dict pyval),
    let n := List.length (sent (FirePower.s self)) in
    let first := answers (FirePower.s self) n in
    let token := answers (FirePower.s self) (S n) in
    let run := FirePower.getData host user password url params self in
    let self' := snd run in
    (n < List.length (sent (FirePower.s self')) <= n + 3)%nat /\
    answers (FirePower.s self') = answers (FirePower.s self) /\
    (status_code first = 401 -> status_code token <> 204 ->
     fst run = Raise SystemExit /\
     sent (FirePower.s self')
     = sent (FirePower.s self)
       ++ [Spec.fmc_get url (FirePower.self_headers self) params;
           FirePower.auth_request host user password] /\
     FirePower.self_headers self' = FirePower.self_headers self /\
     FirePower.auth_token self' = FirePower.auth_token self /\
     FirePower.refresh_token self' = FirePower.refresh_token self /\
     FirePower.global_UUID self' = FirePower.global_UUID self) /\
    (status_code first = 401 -> status_code token = 204 ->
     Spec.auth_accepted token = false ->
     fst run = Raise KeyError /\
     sent (FirePower.s self')
     = sent (FirePower.s self)
       ++ [Spec.fmc_get url (FirePower.self_headers self) params;
           FirePower.auth_request host user password] /\
     FirePower.self_headers self' = FirePower.self_headers self).
Proof.
  intros host user password self url params n first token run self'.
  subst self' run token first n. destruct self as [h rt at_ uu [ans snt]].
  cbn [FirePower.s FirePower.self_headers FirePower.refresh_token
       FirePower.auth_token FirePower.global_UUID answers sent].
  set (n := List.length snt). set (first := ans n). set (token := ans (S n)).
  unfold FirePower.getData, FirePower.session_get, send.
  cbn [FirePower.s FirePower.self_headers FirePower.refresh_token
       FirePower.auth_token FirePower.global_UUID answers sent].
  fold n. fold first.
  destruct (status_code first =? 401) eqn:E401.
  - unfold FirePower.authRequest, send.
    cbn [FirePower.s FirePower.self_headers FirePower.refresh_token
         FirePower.auth_token FirePower.global_UUID answers sent].
    rewrite length_app. cbn [List.length]. rewrite Nat.add_1_r. fold n. fold token.
    unfold Spec.auth_accepted.
    destruct (status_code token =? 204) eqn:E204;
      [destruct (header_get (headers token) "X-auth-access-token") as [access|];
       [destruct (header_get (headers token) "X-auth-refresh-token") as [refresh|];
        [destruct (header_get (headers token) "DOMAIN_UUID") as [domain|]|]|]|];
      cbn [FirePower.s FirePower.self_headers FirePower.refresh_token
           FirePower.auth_token FirePower.global_UUID answers sent fst snd andb];
      try (destruct (status_code (ans _) =? 200));
      cbn [FirePower.s FirePower.self_headers FirePower.refresh_token
           FirePower.auth_token FirePower.global_UUID answers sent fst snd];
      rewrite ?length_app; cbn [List.length];
      (split; [lia|]); (split; [reflexivity|]);
      (split; [intros _ H204; try (apply Z.eqb_neq in H204 || (apply Z.eqb_eq in E204; congruence));
               rewrite <- ?app_assoc; repeat split; try reflexivity; congruence
              |intros _ H204 Hacc; try discriminate;
               try (apply Z.eqb_neq in E204; congruence);
               rewrite <- ?app_assoc; repeat split; reflexivity]).
  - destruct (status_code first =? 200);
      cbn [FirePower.s answers sent fst snd]; rewrite length_app; cbn [List.length];
      (split; [lia|]); (split; [reflexivity|]);
      split; intros H401; apply Z.eqb_neq in E401; congruence.
Qed.

(** A 401 followed by a 204 that carries no refresh token. *)
Lemma X7_getData_failed_token_request_witness :
  let answer (k : nat) :=
    match k with
    | 1%nat => {| status_code := 204; text := "";
                  headers := [("X-auth-access-token", "t1"); ("DOMAIN_UUID", "d1")] |}
    | _ => {| status_code := 401; text := "Unauthorized"; headers := [] |}
    end in
  let self := {| FirePower.self_headers := Some [("X-auth-access-token", "t0")];
                 FirePower.refresh_token := Some "r0";
                 FirePower.auth_token := Some "t0"; FirePower.global_UUID := Some "d0";
                 FirePower.s := {| answers := answer; sent := [] |} |} in
  fst (FirePower.getData "fmc.example" "api" "secret" "https://fmc.example/x" [] self)
  = Raise KeyError.
Proof.
  intros answer self.
  exact (proj1 (proj2 (proj2 (proj2
           (X7_getData_failed_token_request "fmc.example" "api" "secret" self
              "https://fmc.example/x" []))) eq_refl eq_refl eq_refl)).
Defined.

(** ** thousandeyes.py: pages without end, and pages that fail *)

(** X8.  The loop over the pages has no bound of its own: when every page
    carries a cursor to which a request can be sent, [n] rounds send [n]
    further requests and the loop is still running, for every [n]. *)
Theorem X8_pages_loop_can_run_forever :
  forall (token : string) (json_loads : string -> option pyval)
         (url_accepted : string -> bool)
         (fuel : nat) (page : pyval) (metrics : list pyval) (s : session) (url : string),
    Spec.well_formed_page page = true ->
    Spec.page_cursor page = Some url ->
    ThousandEyes.sendable url_accepted url = true ->
    Spec.endless (ThousandEyes.sendable url_accepted) (answers s) json_loads
      (List.length (sent s)) ->
    exists s',
      ThousandEyes.pages_loop token json_loads url_accepted fuel page metrics s = (None, s') /\
      List.length (sent s') = (List.length (sent s) + fuel)%nat.
Proof.
  intros token json_loads url_accepted fuel. induction fuel as [|fuel IH];
    intros page metrics s url Hwf Hcur Hsend Hend.
  - exists s. cbn. split; [reflexivity | lia].
  - cbn [ThousandEyes.pages_loop].
    rewrite well_formed_add_metrics, well_formed_next_page by assumption.
    rewrite Hcur. cbn [option_map]. rewrite Hsend.
    unfold ThousandEyes.getData, send.
    destruct (Hend (List.length (sent s)) (le_n _))
      as (H200 & next & url' & Hload & Hwf' & Hcur' & Hsend').
    rewrite H200. cbn [Z.eqb Pos.eqb]. unfold ThousandEyes.loads. rewrite Hload.
    match goal with |- context [ThousandEyes.pages_loop _ _ _ _ _ _ ?x] => set (s1 := x) end.
    destruct (IH next (metrics ++ Spec.page_items page) s1 url' Hwf' Hcur' Hsend')
      as (s' & Hrun & Hlen).
    + subst s1. cbn [answers sent]. rewrite length_app. cbn [List.length].
      intros k Hk. apply Hend. lia.
    + exists s'. split; [exact Hrun|]. rewrite Hlen. subst s1. cbn [sent].
      rewrite length_app. cbn [List.length]. lia.
Qed.

(** A server that always answers the same page, which points to itself. *)
Lemma X8_pages_loop_can_run_forever_witness :
  let page := Spec.make_page [PInt 1] (Some "https://te/again") in
  let s := {| answers := fun _ => {| status_code := 200; text := "page"; headers := [] |};
              sent := [] |} in
  exists s',
    ThousandEyes.pages_loop "token" (fun _ => Some page) (fun _ => true) 5 page [] s
    = (None, s') /\
    List.length (sent s') = 5%nat.
Proof.
  intros page s.
  apply (X8_pages_loop_can_run_forever "token" (fun _ => Some page) (fun _ => true)
           5 page [] s "https://te/again").
  - reflexivity.
  - reflexivity.
  - reflexivity.
  - intros k _. split; [reflexivity|]. exists page, "https://te/again"%string.
    repeat split; reflexivity.
Defined.

(** X9.  A request for a further page that is not answered with 200 makes
    [getTestData_NetworkE2E] raise [TypeError] ([json.loads] of [None]):
    the metrics of the pages read so far are not returned, and neither is
    [None]. *)
Theorem X9_failed_page_raises :
  forall (token : string) (json_loads : string -> option pyval)
         (url_accepted : string -> bool)
         (test_id time_period : Z) (s : session) (first : pyval) (cursor : string)
         (fuel : nat),
    let n := List.length (sent s) in
    status_code (answers s n) = 200 ->
    truthy_str (text (answers s n)) = true ->
    json_loads (text (answers s n)) = Some first ->
    Spec.well_formed_page first = true ->
    Spec.page_has_metrics first = true ->
    Spec.page_cursor first = Some cursor ->
    ThousandEyes.sendable url_accepted cursor = true ->
    status_code (answers s (S n)) <> 200 ->
    fst (ThousandEyes.getTestData_NetworkE2E token json_loads url_accepted (S fuel)
           test_id time_period s)
    = Some (Raise TypeError).
Proof.
  intros token json_loads url_accepted test_id time_period s first cursor fuel n
    H200 Htruthy Hload Hwf Hm Hcur Hsend Hbad.
  unfold ThousandEyes.getTestData_NetworkE2E, ThousandEyes.getData, send.
  fold n. rewrite H200. cbn [Z.eqb Pos.eqb]. rewrite Htruthy.
  unfold ThousandEyes.loads at 1. rewrite Hload.
  rewrite well_formed_has_metrics, Hm by assumption.
  cbn [ThousandEyes.pages_loop].
  rewrite well_formed_add_metrics, well_formed_next_page by assumption.
  rewrite Hcur. cbn [option_map]. rewrite Hsend.
  unfold ThousandEyes.getData, send. cbn [sent answers].
  rewrite length_app. cbn [List.length]. rewrite Nat.add_1_r. fold n.
  apply Z.eqb_neq in Hbad. rewrite Hbad. reflexivity.
Qed.

Lemma X9_failed_page_raises_witness :
  let page := Spec.make_page [PInt 1] (Some "https://te/2") in
  let answer (k : nat) :=
    match k with
    | 0%nat => {| status_code := 200; text := "page"; headers := [] |}
    | _ => {| status_code := 429; text := "slow down"; headers := [] |}
    end in
  fst (ThousandEyes.getTestData_NetworkE2E "token" (fun _ => Some page) (fun _ => true)
         3 42 3600 {| answers := answer; sent := [] |})
  = Some (Raise TypeError).
Proof.
  intros page answer.
  apply (X9_failed_page_raises "token" (fun _ => Some page) (fun _ => true) 42 3600
           {| answers := answer; sent := [] |} page "https://te/2" 2);
    try reflexivity; discriminate.
Defined.

(** X10.  A first page that has metrics but no "pages" object makes
    [getTestData_NetworkE2E] raise [KeyError], although nothing is left to
    fetch. *)
Theorem X10_page_without_pages_raises :
  forall (token : string) (json_loads : string -> option pyval)
         (url_accepted : string -> bool)
         (test_id time_period : Z) (s : session) (d net : dict pyval)
         (items : list pyval) (fuel : nat),
    let n := List.length (sent s) in
    status_code (answers s n) = 200 ->
    truthy_str (text (answers s n)) = true ->
    json_loads (text (answers s n)) = Some (PDict d) ->
    dict_get d "net" = Some (PDict net) ->
    dict_get net "metrics" = Some (PList items) ->
    dict_get d "pages" = None ->
    fst (ThousandEyes.getTestData_NetworkE2E token json_loads url_accepted (S fuel)
           test_id time_period s)
    = Some (Raise KeyError).
Proof.
  intros token json_loads url_accepted test_id time_period s d net items fuel n
    H200 Htruthy Hload Hnet Hmetrics Hpages.
  unfold ThousandEyes.getTestData_NetworkE2E, ThousandEyes.getData, send.
  fold n. rewrite H200. cbn [Z.eqb Pos.eqb]. rewrite Htruthy.
  unfold ThousandEyes.loads. rewrite Hload.
  assert (Hhas : ThousandEyes.has_metrics (PDict d) = Ok true).
  { unfold ThousandEyes.has_metrics. cbn [contains_str getitem_str bind].
    unfold dict_has, dict_item. rewrite Hnet. cbn [bind contains_str].
    unfold dict_has. now rewrite Hmetrics. }
  rewrite Hhas. cbn [ThousandEyes.pages_loop].
  unfold ThousandEyes.add_metrics. rewrite Hhas. cbn [bind getitem_str].
  unfold dict_item. rewrite Hnet. cbn [bind getitem_str]. unfold dict_item.
  rewrite Hmetrics. cbn [bind iterate].
  unfold ThousandEyes.next_page. cbn [getitem_str bind]. unfold dict_item.
  rewrite Hpages. reflexivity.
Qed.

Lemma X10_page_without_pages_raises_witness :
  fst (ThousandEyes.getTestData_NetworkE2E "token"
         (fun _ => Some (PDict [("net", PDict [("metrics", PList [PInt 1])])]))
         (fun _ => true) 1 42 3600
         {| answers := fun _ => {| status_code := 200; text := "page"; headers := [] |};
            sent := [] |})
  = Some (Raise KeyError).
Proof.
  apply (X10_page_without_pages_raises "token"
           (fun _ => Some (PDict [("net", PDict [("metrics", PList [PInt 1])])]))
           (fun _ => true) 42 3600
           {| answers := fun _ => {| status_code := 200; text := "page"; headers := [] |};
              sent := [] |}
           [("net", PDict [("metrics", PList [PInt 1])])]
           [("metrics", PList [PInt 1])] [PInt 1] 0);
    reflexivity.
Defined.

(** ** fmc.py and app.py: the device inventory *)

Lemma comprehension_Forall2 {A B} (f : A -> result B) : forall l r,
  comprehension f l = Ok r -> Forall2 (fun x y => f x = Ok y) l r.
Proof.
  induction l as [|x l IH]; intros r H; cbn in H.
  - injection H as <-. constructor.
  - destruct (f x) as [y|e] eqn:Hx; [|discriminate]. cbn [bind] in H.
    destruct (comprehension f l) as [ys|e] eqn:Hl; [|discriminate]. cbn [bind] in H.
    injection H as <-. constructor; [assumption | apply IH; reflexivity].
Qed.

Lemma comprehension_Raise {A B} (f : A -> result B) x e : forall l,
  In x l -> f x = Raise e -> exists e', comprehension f l = Raise e'.
Proof.
  induction l as [|y l IH]; intros Hin Hx; [contradiction|].
  cbn [comprehension]. destruct Hin as [->|Hin].
  - rewrite Hx. eexists. reflexivity.
  - destruct (f y) as [b|e1]; [|eexists; reflexivity]. cbn [bind].
    destruct (IH Hin Hx) as [e' ->]. eexists. reflexivity.
Qed.

Lemma items_of_truthy resp_json items :
  FirePower.items_of resp_json = Ok (Some items) -> truthy items = true.
Proof.
  unfold FirePower.items_of. intros H.
  destruct (contains_str "items" resp_json) as [[|]|]; cbn [bind] in H; try discriminate.
  destruct (getitem_str resp_json "items") as [v|]; cbn [bind] in H; [|discriminate].
  destruct (py_len_of v) as [n|] eqn:Hn; cbn [bind] in H; [|discriminate].
  destruct (0 <? n) eqn:Hpos; [|discriminate]. injection H as <-.
  apply Z.ltb_lt in Hpos.
  destruct v; cbn in Hn; try discriminate; injection Hn as <-.
  - destruct s; [cbn in Hpos; lia | reflexivity].
  - destruct l; [cbn in Hpos; lia | reflexivity].
  - destruct d; [cbn in Hpos; lia | reflexivity].
Qed.

Lemma getDeviceRecords_truthy host user password json_loads self items :
  fst (FirePower.getDeviceRecords host user password json_loads self) = Ok (Some items) ->
  truthy items = true.
Proof.
  unfold FirePower.getDeviceRecords.
  destruct (FirePower.getData _ _ _ _ _ _) as [[[resp|]|e] self']; cbn [fst];
    try discriminate.
  destruct (truthy_str resp); [|discriminate].
  destruct (FirePower.loads json_loads resp) as [resp_json|e]; cbn [bind fst];
    [|discriminate].
  destruct (FirePower.items_of resp_json) as [found|e] eqn:Hitems; cbn [fst];
    [|discriminate].
  intros H. injection H as ->. exact (items_of_truthy _ _ Hitems).
Qed.

(** X11.  What [getDeviceRecords] returns is [None] or a value that is true
    in an [if]; so [get_ftd_devices] returns [None] exactly when
    [getDeviceRecords] did. *)
Theorem X11_no_devices_only_without_records :
  forall (host user password : string) (json_loads : string -> option pyval)
         (self : FirePower.firepower) (records : option pyval),
    fst (FirePower.getDeviceRecords host user password json_loads self) = Ok records ->
    (forall items, records = Some items -> truthy items = true) /\
    (Fetchers.get_ftd_devices records = Ok None <-> records = None).
Proof.
  intros host user password json_loads self records H.
  assert (Htrue : forall items, records = Some items -> truthy items = true).
  { intros items ->. now apply getDeviceRecords_truthy in H. }
  split; [exact Htrue|]. split.
  - destruct records as [items|]; [|reflexivity].
    unfold Fetchers.get_ftd_devices. rewrite (Htrue items eq_refl).
    destruct (iterate items) as [l|]; cbn [bind]; [|discriminate].
    destruct (comprehension Fetchers.curated l) as [devices|]; cbn [bind]; [|discriminate].
    destruct (comprehension Fetchers.logged devices); cbn [bind]; discriminate.
  - intros ->. reflexivity.
Qed.

Lemma X11_no_devices_only_without_records_witness :
  let device :=
    PDict [("id", PStr "u1"); ("name", PStr "ftd"); ("metadata", PDict [])] in
  let records := Some (PList [device]) in
  (forall items, records = Some items -> truthy items = true) /\
  (Fetchers.get_ftd_devices records = Ok None <-> records = None).
Proof.
  intros device records.
  apply (X11_no_devices_only_without_records "fmc" "user" "secret"
           (fun _ => Some (PDict [("items", PList [device])]))
           {| FirePower.self_headers := None; FirePower.refresh_token := None;
              FirePower.auth_token := None; FirePower.global_UUID := Some "dom";
              FirePower.s :=
                {| answers := fun _ => {| status_code := 200; text := "{}"; headers := [] |};
                   sent := [] |} |}
           records).
  reflexivity.
Defined.

Lemma optional_field_dict d k v :
  Fetchers.optional_field (PDict d) k = Ok v -> v = Spec.or_none (dict_get d k).
Proof.
  unfold Fetchers.optional_field, Spec.or_none. cbn [contains_str bind getitem_str].
  unfold dict_has, dict_item. destruct (dict_get d k); intros H; now injection H as <-.
Qed.

Lemma optional_field_dict_Raise d k e :
  Fetchers.optional_field (PDict d) k = Raise e -> False.
Proof.
  unfold Fetchers.optional_field. cbn [contains_str bind getitem_str].
  unfold dict_has, dict_item. destruct (dict_get d k); discriminate.
Qed.

Lemma curated_dict d device :
  Fetchers.curated (PDict d) = Ok device -> Spec.curated_from d device.
Proof.
  unfold Fetchers.curated. cbn [getitem_str]. unfold dict_item at 1.
  destruct (dict_get d "id") as [id|] eqn:Hid; cbn [bind]; [|discriminate].
  destruct (Fetchers.optional_field (PDict d) "name") as [name|] eqn:H1;
    cbn [bind]; [|discriminate].
  destruct (Fetchers.optional_field (PDict d) "hostName") as [hostName|] eqn:H2;
    cbn [bind]; [|discriminate].
  destruct (Fetchers.optional_field (PDict d) "performanceTier") as [tier|] eqn:H3;
    cbn [bind]; [|discriminate].
  destruct (Fetchers.optional_field (PDict d) "sw_version") as [sw|] eqn:H4;
    cbn [bind]; [|discriminate].
  destruct (Fetchers.optional_field (PDict d) "snortEngine") as [engine|] eqn:H5;
    cbn [bind]; [|discriminate].
  unfold dict_item.
  destruct (dict_get d "metadata") as [metadata|] eqn:Hmd; cbn [bind]; [|discriminate].
  destruct (contains_str "snortVersion" metadata) as [b|] eqn:Hb; cbn [bind];
    [|discriminate].
  destruct (if b then getitem_str metadata "snortVersion" else Ok PNone)
    as [version|] eqn:Hv; cbn [bind]; [|discriminate].
  intros H. injection H as <-.
  apply optional_field_dict in H1, H2, H3, H4, H5. subst.
  unfold Spec.curated_from. rewrite Hid.
  split; [reflexivity|]. split; [discriminate|]. split; [reflexivity|]. split.
  - intros k [<-|[<-|[<-|[<-|[<-|[]]]]]]; reflexivity.
  - exists metadata. split; [exact Hmd|]. intros md ->.
    cbn in Hb. injection Hb as <-. cbn. unfold dict_has in Hv. unfold Spec.or_none.
    cbn [getitem_str] in Hv. unfold dict_item in Hv.
    destruct (dict_get md "snortVersion"); now injection Hv as <-.
Qed.

(** X12.  [get_ftd_devices] gives one dictionary per inventory record, in
    the order of the inventory and never an empty list; for a record that is
    a JSON object the dictionary has exactly the keys id, name, hostName,
    performanceTier, sw_version, snortEngine and snortVersion, the id of
    the record, and [None] for every optional key that the record (or its
    metadata) does not have. *)
Theorem X12_one_curated_device_per_record :
  forall (records : list pyval) (devices : list (dict pyval)),
    Fetchers.get_ftd_devices (Some (PList records)) = Ok (Some devices) ->
    devices <> [] /\
    List.length devices = List.length records /\
    forall (i : nat) (d : dict pyval),
      nth_error records i = Some (PDict d) ->
      exists device, nth_error devices i = Some device /\ Spec.curated_from d device.
Proof.
  intros records devices H. unfold Fetchers.get_ftd_devices in H.
  cbn [truthy iterate bind] in H.
  destruct (truthy_list records) eqn:Hne; [|discriminate].
  destruct (comprehension Fetchers.curated records) as [out|] eqn:Hout;
    cbn [bind] in H; [|discriminate].
  destruct (comprehension Fetchers.logged out); cbn [bind] in H; [|discriminate].
  injection H as <-. apply comprehension_Forall2 in Hout.
  pose proof (Forall2_length Hout) as Hlen.
  split; [|split].
  - destruct records; [discriminate|]. destruct out; [discriminate|]. discriminate.
  - now symmetry.
  - clear Hne Hlen. induction Hout as [|x y l l' Hxy _ IH]; intros i d Hi.
    + destruct i; discriminate.
    + destruct i as [|i]; cbn in Hi |- *.
      * injection Hi as ->. exists y. split; [reflexivity|]. now apply curated_dict.
      * now apply IH.
Qed.

Lemma X12_one_curated_device_per_record_witness :
  let record := [("id", PStr "u1"); ("hostName", PStr "10.0.0.1");
                 ("metadata", PDict [("snortVersion", PStr "3.1")])] in
  let device := [("id", PStr "u1"); ("name", PNone); ("hostName", PStr "10.0.0.1");
                 ("performanceTier", PNone); ("sw_version", PNone);
                 ("snortEngine", PNone); ("snortVersion", PStr "3.1")] in
  [device] <> [] /\
  List.length [device] = List.length [PDict record] /\
  forall (i : nat) (d : dict pyval),
    nth_error [PDict record] i = Some (PDict d) ->
    exists device', nth_error [device] i = Some device' /\ Spec.curated_from d device'.
Proof.
  intros record device.
  apply (X12_one_curated_device_per_record [PDict record] [device]).
  reflexivity.
Defined.

(** X13.  One inventory record without an id, or without metadata, makes
    [get_ftd_devices] raise: no device is returned, the well-formed ones
    included. *)
Theorem X13_record_without_id_or_metadata_raises :
  forall (records : list pyval) (d : dict pyval),
    In (PDict d) records ->
    dict_get d "id" = None \/ dict_get d "metadata" = None ->
    exists e, Fetchers.get_ftd_devices (Some (PList records)) = Raise e.
Proof.
  intros records d Hin Hmissing.
  assert (Hbad : Fetchers.curated (PDict d) = Raise KeyError).
  { unfold Fetchers.curated. cbn [getitem_str]. unfold dict_item at 1.
    destruct Hmissing as [Hid|Hmd].
    - now rewrite Hid.
    - destruct (dict_get d "id"); [|reflexivity]. cbn [bind].
      repeat match goal with
             | |- context [Fetchers.optional_field (PDict d) ?k] =>
                 let v := fresh "v" in let E := fresh "E" in
                 destruct (Fetchers.optional_field (PDict d) k) as [v|] eqn:E;
                 [cbn [bind] | apply optional_field_dict_Raise in E; contradiction]
             end.
      unfold dict_item. now rewrite Hmd. }
  unfold Fetchers.get_ftd_devices. cbn [truthy iterate bind].
  destruct records as [|r records]; [contradiction|]. cbn [truthy_list].
  destruct (comprehension_Raise Fetchers.curated (PDict d) KeyError (r :: records) Hin Hbad)
    as [e ->].
  exists e. reflexivity.
Qed.

Lemma X13_record_without_id_or_metadata_raises_witness :
  exists e,
    Fetchers.get_ftd_devices
      (Some (PList [PDict [("id", PStr "u1"); ("metadata", PDict [])];
                    PDict [("id", PStr "u2"); ("name", PStr "ftd-2")]]))
    = Raise e.
Proof.
  apply (X13_record_without_id_or_metadata_raises
           [PDict [("id", PStr "u1"); ("metadata", PDict [])];
            PDict [("id", PStr "u2"); ("name", PStr "ftd-2")]]
           [("id", PStr "u2"); ("name", PStr "ftd-2")]).
  - right. left. reflexivity.
  - right. reflexivity.
Defined.

(** ** app.py: the health metrics *)

Lemma try_except_Ok {A} (body : result A) handler a :
  body = Ok a -> try_except body handler = Ok a.
Proof. intros ->. reflexivity. Qed.

Lemma loads_value_Exception json_loads x e :
  Fetchers.loads_value json_loads x = Raise e -> is_Exception e = true.
Proof.
  unfold Fetchers.loads_value. destruct x; try (intros H; injection H as <-; reflexivity).
  destruct (json_loads s); [discriminate|]. intros H. injection H as <-. reflexivity.
Qed.

Lemma metric_entry_Exception json_loads hm e :
  Fetchers.metric_entry json_loads hm = Raise e -> is_Exception e = true.
Proof.
  unfold Fetchers.metric_entry. intros H.
  repeat match type of H with
         | (match ?x with Ok _ => _ | Raise _ => _ end) = _ =>
             let E := fresh "E" in
             destruct x eqn:E; cbn [bind] in H;
             [| injection H as <-;
                first [ eapply getitem_str_Exception; eassumption
                      | eapply getitem_nat_Exception; eassumption
                      | eapply loads_value_Exception; eassumption ] ]
         | bind ?x _ = _ => unfold bind at 1 in H
         end.
  destruct (hashable _); [discriminate|]. injection H as <-. reflexivity.
Qed.

Lemma metric_entry_needs_uuid json_loads hm e :
  getitem_str hm "deviceUUID" = Raise e ->
  exists e', Fetchers.metric_entry json_loads hm = Raise e'.
Proof.
  unfold Fetchers.metric_entry. intros Hu. rewrite Hu.
  repeat match goal with
         | |- exists _, bind (Raise _) _ = _ => cbn [bind]; eexists; reflexivity
         | |- exists _, bind ?x _ = _ =>
             destruct x; cbn [bind]; [| eexists; reflexivity]
         end.
  eexists. reflexivity.
Qed.

(** One round of the second loop, by cases on the health metric. *)
Lemma keep_metric_cases json_loads m hm :
  match getitem_str hm "deviceUUID" with
  | Raise e => Fetchers.keep_metric json_loads m hm = Raise e
  | Ok uuid =>
      match Fetchers.metric_entry json_loads hm with
      | Ok (k, raw) => k = uuid /\ Fetchers.keep_metric json_loads m hm = Ok (kdict_set m k raw)
      | Raise _ => Fetchers.keep_metric json_loads m hm = Ok m
      end
  end.
Proof.
  unfold Fetchers.keep_metric.
  destruct (getitem_str hm "deviceUUID") as [uuid|e] eqn:Hu.
  - destruct (Fetchers.metric_entry json_loads hm) as [[k raw]|e] eqn:He.
    + cbn [bind try_except fst snd]. split; [|reflexivity].
      unfold Fetchers.metric_entry in He.
      repeat match type of He with
             | bind ?x _ = _ => destruct x eqn:?; cbn [bind] in He; [|discriminate]
             end.
      destruct (hashable _); [|discriminate]. injection He as <- _. congruence.
    + cbn [bind try_except]. rewrite (metric_entry_Exception _ _ _ He). reflexivity.
  - destruct (metric_entry_needs_uuid json_loads hm e Hu) as [e' He].
    rewrite He. cbn [bind try_except]. rewrite (metric_entry_Exception _ _ _ He).
    reflexivity.
Qed.

Lemma keep_all_with_uuid json_loads hms : forall m,
  Forall (fun hm => exists uuid, getitem_str hm "deviceUUID" = Ok uuid) hms ->
  exists m', for_each hms (Fetchers.keep_metric json_loads) m = Ok m'.
Proof.
  induction hms as [|hm hms IH]; intros m Hall.
  - exists m. reflexivity.
  - inversion Hall as [|? ? [uuid Hu] Hrest]; subst. cbn [for_each].
    pose proof (keep_metric_cases json_loads m hm) as Hcase. rewrite Hu in Hcase.
    destruct (Fetchers.metric_entry json_loads hm) as [[k raw]|e].
    + destruct Hcase as [_ ->]. cbn [bind]. now apply IH.
    + rewrite Hcase. cbn [bind]. now apply IH.
Qed.

Lemma keep_one_without_uuid json_loads hms : forall m,
  Exists (fun hm => exists e, getitem_str hm "deviceUUID" = Raise e) hms ->
  exists e, for_each hms (Fetchers.keep_metric json_loads) m = Raise e.
Proof.
  induction hms as [|hm hms IH]; intros m Hex; [inversion Hex|].
  cbn [for_each].
  destruct (Fetchers.keep_metric json_loads m hm) as [m'|e] eqn:Hk;
    [|exists e; reflexivity].
  cbn [bind]. inversion Hex as [? ? [e Hu]|? ? Hrest]; subst.
  - pose proof (keep_metric_cases json_loads m hm) as Hcase. rewrite Hu in Hcase.
    congruence.
  - now apply IH.
Qed.

(** X14.  The handler that skips a malformed health metric formats the
    'deviceUUID' of that metric for the log.  So, once the first loop has
    collected some metrics, [get_health_metrics] returns a dictionary when
    every collected metric has a 'deviceUUID', whatever else is wrong with
    it, and raises as soon as one has none. *)
Theorem X14_metric_without_uuid_raises :
  forall (fmc_state : Type)
         (getHealthMetrics :
            Z -> string -> string -> string -> fmc_state -> result (option pyval) * fmc_state)
         (json_loads : string -> option pyval)
         (time_period_seconds : Z) (device_uuids : list string) (metric regexFilter : string)
         (fmc fmc' : fmc_state) (health_metrics : list pyval),
    Fetchers.fetch_metrics fmc_state getHealthMetrics time_period_seconds device_uuids
      metric regexFilter [] fmc = (Ok health_metrics, fmc') ->
    health_metrics <> [] ->
    let run := Fetchers.get_health_metrics fmc_state getHealthMetrics json_loads
                 time_period_seconds device_uuids metric regexFilter fmc in
    (Forall (fun hm => exists uuid, getitem_str hm "deviceUUID" = Ok uuid) health_metrics ->
     exists found, fst run = Ok (Some found)) /\
    (Exists (fun hm => exists e, getitem_str hm "deviceUUID" = Raise e) health_metrics ->
     exists e, fst run = Raise e).
Proof.
  intros fmc_state getHealthMetrics json_loads time_period_seconds device_uuids metric
    regexFilter fmc fmc' health_metrics Hfetch Hne run.
  subst run. unfold Fetchers.get_health_metrics. rewrite Hfetch.
  assert (Hlen : (0 <? Z.of_nat (List.length health_metrics)) = true).
  { apply Z.ltb_lt. destruct health_metrics; [congruence | cbn [List.length]; lia]. }
  rewrite Hlen. split.
  - intros Hall.
    destruct (keep_all_with_uuid json_loads health_metrics [] Hall) as [m' ->].
    exists m'. reflexivity.
  - intros Hex.
    destruct (keep_one_without_uuid json_loads health_metrics [] Hex) as [e ->].
    exists e. reflexivity.
Qed.

(** One device whose metric has a response that is no JSON but a
    'deviceUUID', and the same metric without the 'deviceUUID'. *)
Lemma X14_metric_without_uuid_raises_witness :
  let bad := PDict [("response", PStr "<html>"); ("deviceUUID", PStr "u1")] in
  let worse := PDict [("response", PStr "<html>")] in
  let client (hm : pyval) :=
    fun (_ : Z) (_ _ _ : string) (fmc : unit) => (Ok (Some (PList [hm])), fmc) in
  let run hm :=
    Fetchers.get_health_metrics unit (client hm) (fun _ => None) 3600 ["u1"] "cpu" "snort_avg" tt in
  (exists found, fst (run bad) = Ok (Some found)) /\
  (exists e, fst (run worse) = Raise e).
Proof.
  intros bad worse client run. split.
  - apply (X14_metric_without_uuid_raises unit (client bad) (fun _ => None) 3600 ["u1"]
             "cpu" "snort_avg" tt tt [bad]).
    + reflexivity.
    + discriminate.
    + repeat constructor. exists (PStr "u1"). reflexivity.
  - apply (X14_metric_without_uuid_raises unit (client worse) (fun _ => None) 3600 ["u1"]
             "cpu" "snort_avg" tt tt [worse]).
    + reflexivity.
    + discriminate.
    + constructor. exists KeyError. reflexivity.
Defined.

Lemma key_eqb_str x u : key_eqb x (PStr u) = true -> x = PStr u.
Proof.
  destruct x as [|b|z|f|s|l|d]; cbn; try discriminate;
    try (destruct f; discriminate).
  intros H. apply String.eqb_eq in H. now subst.
Qed.

Lemma kdict_get_set_str {V} (d : kdict V) k v u :
  kdict_get (kdict_set d k v) (PStr u)
  = if key_eqb k (PStr u) then Some v else kdict_get d (PStr u).
Proof.
  induction d as [|[k0 v0] d IH]; cbn [kdict_set kdict_get].
  - reflexivity.
  - destruct (key_eqb k0 k) eqn:H0; cbn [kdict_get].
    + destruct (key_eqb k0 (PStr u)) eqn:H1.
      * apply key_eqb_str in H1. subst k0.
        destruct (key_eqb k (PStr u)) eqn:H2; [reflexivity|].
        destruct k as [|b|z|f|s|l|d']; cbn in H0, H2; try discriminate.
        apply String.eqb_eq in H0. subst s. rewrite String.eqb_refl in H2. discriminate.
      * destruct (key_eqb k (PStr u)) eqn:H2; [|reflexivity].
        apply key_eqb_str in H2. subst k. congruence.
    + rewrite IH. destruct (key_eqb k0 (PStr u)) eqn:H1; [|reflexivity].
      destruct (key_eqb k (PStr u)) eqn:H2; [|reflexivity].
      apply key_eqb_str in H1, H2. subst. cbn in H0. rewrite String.eqb_refl in H0.
      discriminate.
Qed.

Lemma kdict_set_length {V} (d : kdict V) k v :
  (List.length (kdict_set d k v) <= S (List.length d))%nat.
Proof.
  induction d as [|[k0 v0] d IH]; cbn [kdict_set List.length]; [lia|].
  destruct (key_eqb k0 k); cbn [List.length]; lia.
Qed.

(** [metric_entry] succeeds exactly on the metrics of the expected shape. *)
Lemma metric_entry_raw_values json_loads hm :
  match Fetchers.metric_entry json_loads hm with
  | Ok entry => Spec.raw_values json_loads hm = Some entry
  | Raise _ => Spec.raw_values json_loads hm = None
  end.
Proof.
  unfold Fetchers.metric_entry, Spec.raw_values.
  destruct hm as [| | | | | |d]; try reflexivity.
  cbn [getitem_str]. unfold dict_item.
  destruct (dict_get d "response") as [response|]; cbn [bind]; [|reflexivity].
  destruct response as [| | | |t| |]; cbn [Fetchers.loads_value bind];
    try reflexivity.
  destruct (json_loads t) as [metric_data|]; cbn [bind];
    [|destruct (dict_get d "deviceUUID"); reflexivity].
  destruct metric_data as [| | | | | |md]; cbn [getitem_str bind];
    try (destruct (dict_get d "deviceUUID"); reflexivity).
  unfold dict_item.
  destruct (dict_get md "data") as [data|]; cbn [bind];
    [|destruct (dict_get d "deviceUUID"); reflexivity].
  destruct data as [| | | | | |dd]; cbn [getitem_str bind];
    try (destruct (dict_get d "deviceUUID"); reflexivity).
  unfold dict_item.
  destruct (dict_get dd "result") as [results|]; cbn [bind];
    [|destruct (dict_get d "deviceUUID"); reflexivity].
  destruct results as [| | | |str|l|rd]; cbn [getitem_nat bind];
    try (destruct (dict_get d "deviceUUID"); reflexivity).
  - destruct (get 0 str); cbn [bind getitem_str];
      destruct (dict_get d "deviceUUID"); reflexivity.
  - destruct l as [|first l]; cbn [nth_error bind];
      [destruct (dict_get d "deviceUUID"); reflexivity|].
    destruct first as [| | | | | |fd]; cbn [getitem_str bind];
      try (destruct (dict_get d "deviceUUID"); reflexivity).
    unfold dict_item.
    destruct (dict_get fd "values") as [raw|]; cbn [bind];
      [|destruct (dict_get d "deviceUUID"); reflexivity].
    destruct (dict_get d "deviceUUID") as [uuid|]; cbn [bind]; [|reflexivity].
    destruct (hashable uuid); reflexivity.
Qed.

Lemma keep_metric_raw_values json_loads m hm m' :
  Fetchers.keep_metric json_loads m hm = Ok m' ->
  m' = match Spec.raw_values json_loads hm with
       | Some (k, raw) => kdict_set m k raw
       | None => m
       end.
Proof.
  intros H. pose proof (keep_metric_cases json_loads m hm) as Hcase.
  pose proof (metric_entry_raw_values json_loads hm) as Hraw.
  destruct (getitem_str hm "deviceUUID"); [|congruence].
  destruct (Fetchers.metric_entry json_loads hm) as [[k raw]|e].
  - rewrite Hraw. destruct Hcase as [_ Hcase]. congruence.
  - rewrite Hraw. congruence.
Qed.

Lemma keep_metrics_values json_loads u hms : forall m m',
  for_each hms (Fetchers.keep_metric json_loads) m = Ok m' ->
  kdict_get m' (PStr u)
  = fold_left
      (fun found health_metric =>
         match Spec.raw_values json_loads health_metric with
         | Some (PStr u', raw) => if String.eqb u' u then Some raw else found
         | _ => found
         end)
      hms (kdict_get m (PStr u)) /\
  (List.length m' <= List.length m + List.length hms)%nat.
Proof.
  induction hms as [|hm hms IH]; intros m m' H; cbn [for_each] in H.
  - injection H as <-. cbn. split; [reflexivity | lia].
  - destruct (Fetchers.keep_metric json_loads m hm) as [m1|] eqn:H1; [|discriminate].
    cbn [bind] in H. destruct (IH m1 m' H) as [Hget Hlen].
    apply keep_metric_raw_values in H1. cbn [fold_left List.length].
    rewrite Hget. subst m1. split.
    + f_equal. destruct (Spec.raw_values json_loads hm) as [[k raw]|]; [|reflexivity].
      rewrite kdict_get_set_str.
      destruct k as [| | |f|s| |]; cbn [key_eqb as_int]; try reflexivity.
      * destruct f; reflexivity.
    + destruct (Spec.raw_values json_loads hm) as [[k raw]|]; [|lia].
      pose proof (kdict_set_length m k raw). lia.
Qed.

Lemma fetch_metrics_length fmc_state getHealthMetrics period metric regexFilter uuids :
  forall acc (fmc fmc' : fmc_state) hms,
  Fetchers.fetch_metrics fmc_state getHealthMetrics period uuids metric regexFilter acc fmc
  = (Ok hms, fmc') ->
  (List.length hms <= List.length acc + List.length uuids)%nat.
Proof.
  induction uuids as [|u uuids IH]; intros acc fmc fmc' hms H; cbn [Fetchers.fetch_metrics] in H.
  - injection H as <- _. cbn. lia.
  - destruct (getHealthMetrics period u metric regexFilter fmc) as [[answer|e] fmc1];
      [|discriminate].
    cbn [List.length].
    destruct answer as [items|].
    + destruct (truthy items).
      * destruct (getitem_nat items 0) as [first|]; [|discriminate].
        apply IH in H. rewrite length_app in H. cbn [List.length] in H. lia.
      * apply IH in H. lia.
    + apply IH in H. lia.
Qed.

(** X15.  In the dictionary that [get_health_metrics] returns, the entry
    of a device is the 'values' of the last collected metric of the
    expected shape that names the device (an earlier one is overwritten, a
    malformed one is skipped), and there is no entry without such a metric;
    the dictionary has at most one entry per requested device. *)
Theorem X15_health_metrics_last_well_formed :
  forall (fmc_state : Type)
         (getHealthMetrics :
            Z -> string -> string -> string -> fmc_state -> result (option pyval) * fmc_state)
         (json_loads : string -> option pyval)
         (time_period_seconds : Z) (device_uuids : list string) (metric regexFilter : string)
         (fmc fmc' : fmc_state) (health_metrics : list pyval) (found : kdict pyval),
    Fetchers.fetch_metrics fmc_state getHealthMetrics time_period_seconds device_uuids
      metric regexFilter [] fmc = (Ok health_metrics, fmc') ->
    fst (Fetchers.get_health_metrics fmc_state getHealthMetrics json_loads
           time_period_seconds device_uuids metric regexFilter fmc) = Ok (Some found) ->
    (forall uuid : string,
       kdict_get found (PStr uuid) = Spec.values_for json_loads health_metrics uuid) /\
    (List.length found <= List.length device_uuids)%nat.
Proof.
  intros fmc_state getHealthMetrics json_loads time_period_seconds device_uuids metric
    regexFilter fmc fmc' health_metrics found Hfetch Hrun.
  unfold Fetchers.get_health_metrics in Hrun. rewrite Hfetch in Hrun.
  destruct (0 <? Z.of_nat (List.length health_metrics)); [|discriminate].
  destruct (for_each health_metrics (Fetchers.keep_metric json_loads) [])
    as [m|] eqn:Hloop; [|discriminate].
  cbn [fst] in Hrun. injection Hrun as ->.
  apply fetch_metrics_length in Hfetch. cbn [List.length] in Hfetch.
  split.
  - intros uuid. destruct (keep_metrics_values json_loads uuid _ _ _ Hloop) as [Hget _].
    exact Hget.
  - destruct (keep_metrics_values json_loads "" _ _ _ Hloop) as [_ Hlen].
    cbn [List.length] in Hlen. lia.
Qed.

(** Two answers for the same device: the second replaces the first. *)
Lemma X15_health_metrics_last_well_formed_witness :
  let loads (t : string) :=
    Some (PDict [("data", PDict [("result", PList [PDict [("values", PStr t)]])])]) in
  let hm (t : string) := PDict [("response", PStr t); ("deviceUUID", PStr "u1")] in
  let client :=
    fun (_ : Z) (uuid _ _ : string) (fmc : unit) => (Ok (Some (PList [hm uuid])), fmc) in
  let found := [(PStr "u1", PStr "second")] in
  (forall uuid : string,
     kdict_get found (PStr uuid)
     = Spec.values_for loads [hm "first"; hm "second"] uuid) /\
  (List.length found <= List.length ["first"; "second"])%nat.
Proof.
  intros loads hm client found.
  apply (X15_health_metrics_last_well_formed unit client loads 3600 ["first"; "second"]
           "cpu" "snort_avg" tt tt [hm "first"; hm "second"] found);
    reflexivity.
Defined.

(** ** app.py: the ThousandEyes results *)

Section TeResults.
Variable te_state : Type.
Variable getTestID : string -> te_state -> result (option pyval) * te_state.
Variable getTestDetails : pyval -> te_state -> result (option pyval) * te_state.
Variable getTestData_NetworkE2E :
  pyval -> Z -> te_state -> result (option (list pyval)) * te_state.
Variable TE_TEST_MAPPING : dict string.
Variable period : Z.

Lemma te_device_step results details device te results' details' te' :
  Fetchers.te_device te_state getTestID getTestDetails getTestData_NetworkE2E
    TE_TEST_MAPPING period
    (results, details) device te = (Ok (results', details'), te') ->
  Spec.entry_after TE_TEST_MAPPING (fun data => data <> []) device results results' /\
  Spec.entry_after TE_TEST_MAPPING (fun d => truthy d = true) device details details' /\
  (Fetchers.mapped_test TE_TEST_MAPPING device = None ->
   results' = results /\ details' = details /\ te' = te).
Proof.
  unfold Fetchers.te_device, Spec.entry_after.
  destruct (Fetchers.mapped_test TE_TEST_MAPPING device) as [test_name|] eqn:Hmap.
  2:{ intros H. injection H as <- <- <-. repeat split; auto. }
  destruct (getTestID test_name te) as [[test_id|e] te1]; [|discriminate].
  assert (Hskip : (Ok (results, details), te1) = (Ok (results', details'), te') ->
            (forall id v, dict_get results' id = Some v ->
               dict_get results id = Some v \/
               (v <> [] /\ dev_id device = id /\ Some test_name <> None)) /\
            (forall id v, dict_get details' id = Some v ->
               dict_get details id = Some v \/
               (truthy v = true /\ dev_id device = id /\ Some test_name <> None)) /\
            (Some test_name = None -> results' = results /\ details' = details /\ te' = te)).
  { intros H. injection H as <- <- <-. repeat split; auto; discriminate. }
  destruct test_id as [id|]; [|exact Hskip].
  destruct (truthy id); [|exact Hskip]. clear Hskip.
  destruct (getTestDetails id te1) as [[test_details|e] te2]; [|discriminate].
  destruct (getTestData_NetworkE2E id period te2) as [[test_data|e] te3]; [|discriminate].
  intros H. injection H as <- <- <-. split; [|split; [|discriminate]].
  - intros id' v Hv. destruct test_data as [data|]; [|now left].
    destruct (truthy_list data) eqn:Hdata; [|now left].
    rewrite dict_get_set in Hv. destruct (String.eqb_spec (dev_id device) id') as [<-|_];
      [|now left].
    injection Hv as <-. right. repeat split; [|discriminate].
    intros ->. discriminate.
  - intros id' v Hv. destruct test_details as [d|]; [|now left].
    destruct (truthy d) eqn:Hd; [|now left].
    rewrite dict_get_set in Hv. destruct (String.eqb_spec (dev_id device) id') as [<-|_];
      [|now left].
    injection Hv as <-. right. repeat split; [assumption|discriminate].
Qed.

Lemma te_devices_steps devices : forall results details te results' details' te',
  Fetchers.te_devices te_state getTestID getTestDetails getTestData_NetworkE2E
    TE_TEST_MAPPING period
    devices (results, details) te = (Ok (results', details'), te') ->
  (forall id data, dict_get results' id = Some data ->
     dict_get results id = Some data \/
     (data <> [] /\ exists device, In device devices /\ dev_id device = id /\
        Fetchers.mapped_test TE_TEST_MAPPING device <> None)) /\
  (forall id d, dict_get details' id = Some d ->
     dict_get details id = Some d \/
     (truthy d = true /\ exists device, In device devices /\ dev_id device = id /\
        Fetchers.mapped_test TE_TEST_MAPPING device <> None)) /\
  (Forall (fun device => Fetchers.mapped_test TE_TEST_MAPPING device = None) devices ->
   results' = results /\ details' = details /\ te' = te).
Proof.
  induction devices as [|device devices IH]; intros results details te results' details' te' H.
  - cbn in H. injection H as <- <- <-. repeat split; auto.
  - cbn [Fetchers.te_devices] in H.
    destruct (Fetchers.te_device _ _ _ _ _ _ (results, details) device te)
      as [[[r1 d1]|e] te1] eqn:Hstep; [|discriminate].
    apply te_device_step in Hstep. destruct Hstep as (Hr & Hd & Hnone).
    apply IH in H. destruct H as (Hr' & Hd' & Hnone').
    split; [|split].
    + intros id data Hget. destruct (Hr' id data Hget) as [Hold|(Hgood & dev & Hin & Hrest)].
      * destruct (Hr id data Hold) as [Hold'|(Hgood & Hid & Hmap)]; [now left|].
        right. split; [assumption|]. exists device. repeat split; auto. now left.
      * right. split; [assumption|]. exists dev. split; [now right | assumption].
    + intros id d Hget. destruct (Hd' id d Hget) as [Hold|(Hgood & dev & Hin & Hrest)].
      * destruct (Hd id d Hold) as [Hold'|(Hgood & Hid & Hmap)]; [now left|].
        right. split; [assumption|]. exists device. repeat split; auto. now left.
      * right. split; [assumption|]. exists dev. split; [now right | assumption].
    + intros Hall. inversion Hall as [|? ? Hhead Htail]; subst.
      destruct (Hnone Hhead) as (-> & -> & ->). now apply Hnone'.
Qed.

End TeResults.

(** X16.  [get_te_test_results] stores test data and test details only
    under the id of a device of the list whose name is non-empty and in
    TE_TEST_MAPPING; stored test data are never an empty list and stored
    details are never false in an [if].  When no device has such a name the
    ThousandEyes client is not used at all and both dictionaries are
    empty. *)
Theorem X16_te_results_only_for_mapped_devices :
  forall (te_state : Type)
         (getTestID : string -> te_state -> result (option pyval) * te_state)
         (getTestDetails : pyval -> te_state -> result (option pyval) * te_state)
         (getTestData_NetworkE2E :
            pyval -> Z -> te_state -> result (option (list pyval)) * te_state)
         (TE_TEST_MAPPING : dict string)
         (time_period_seconds : Z) (devices : list ftd_device) (te te' : te_state)
         (te_results : dict (list pyval)) (te_test_details : dict pyval),
    Fetchers.get_te_test_results te_state getTestID getTestDetails getTestData_NetworkE2E
      TE_TEST_MAPPING time_period_seconds devices te
    = (Ok (te_results, te_test_details), te') ->
    (forall id data, dict_get te_results id = Some data ->
       data <> [] /\
       exists device, In device devices /\ dev_id device = id /\
         Fetchers.mapped_test TE_TEST_MAPPING device <> None) /\
    (forall id details, dict_get te_test_details id = Some details ->
       truthy details = true /\
       exists device, In device devices /\ dev_id device = id /\
         Fetchers.mapped_test TE_TEST_MAPPING device <> None) /\
    (Forall (fun device => Fetchers.mapped_test TE_TEST_MAPPING device = None) devices ->
     te_results = [] /\ te_test_details = [] /\ te' = te).
Proof.
  intros te_state getTestID getTestDetails getTestData_NetworkE2E TE_TEST_MAPPING
    time_period_seconds devices te te' te_results te_test_details H.
  unfold Fetchers.get_te_test_results in H.
  apply te_devices_steps in H. destruct H as (Hr & Hd & Hnone).
  split; [|split].
  - intros id data Hget. destruct (Hr id data Hget) as [Hold|Hnew];
      [discriminate | exact Hnew].
  - intros id details Hget. destruct (Hd id details Hget) as [Hold|Hnew];
      [discriminate | exact Hnew].
  - exact Hnone.
Qed.

(** Two devices, the first without a name, the second mapped to a test. *)
Lemma X16_te_results_only_for_mapped_devices_witness :
  let nameless := {| dev_id := "u1"; dev_name := None; dev_fields := [] |} in
  let mapped := {| dev_id := "u2"; dev_name := Some "ftd-2"; dev_fields := [] |} in
  let mapping := [("ftd-2", "test-2")] in
  let devices := [nameless; mapped] in
  let te_results := [("u2", [PInt 7])] in
  let te_test_details := [("u2", PDict [("testName", PStr "test-2")])] in
  (forall id data, dict_get te_results id = Some data ->
     data <> [] /\
     exists device, In device devices /\ dev_id device = id /\
       Fetchers.mapped_test mapping device <> None) /\
  (forall id details, dict_get te_test_details id = Some details ->
     truthy details = true /\
     exists device, In device devices /\ dev_id device = id /\
       Fetchers.mapped_test mapping device <> None) /\
  (Forall (fun device => Fetchers.mapped_test mapping device = None) devices ->
   te_results = [] /\ te_test_details = [] /\ 3%nat = 0%nat).
Proof.
  intros nameless mapped mapping devices te_results te_test_details.
  apply (X16_te_results_only_for_mapped_devices nat
           (fun _ te => (Ok (Some (PInt 42)), S te))
           (fun _ te => (Ok (Some (PDict [("testName", PStr "test-2")])), S te))
           (fun _ _ te => (Ok (Some [PInt 7]), S te))
           mapping 3600 devices 0%nat 3%nat te_results te_test_details).
  reflexivity.
Defined.

(** ** thousandeyes.py: the index of tests *)

Lemma add_test_lookup index test index' name :
  ThousandEyes.add_test index test = Ok index' ->
  kdict_get index' (PStr name)
  = match Spec.live_test name test with
    | Some id => Some id
    | None => kdict_get index (PStr name)
    end.
Proof.
  unfold ThousandEyes.add_test, Spec.live_test.
  destruct test as [| | | | | |d]; try discriminate.
  cbn [getitem_str]. unfold dict_item.
  destruct (dict_get d "savedEvent") as [saved|]; cbn [bind]; [|discriminate].
  destruct (equals_zero saved) eqn:Hzero.
  - destruct (dict_get d "testId") as [id|]; cbn [bind]; [|discriminate].
    destruct (dict_get d "testName") as [n|]; cbn [bind]; [|discriminate].
    unfold kdict_setitem. destruct (hashable n) eqn:Hhash; [|discriminate].
    intros H. injection H as <-. rewrite kdict_get_set_str.
    destruct n as [|b|z|f|s|l|d']; cbn [key_eqb as_int andb]; try reflexivity.
    + destruct f; reflexivity.
    + destruct (String.eqb s name); reflexivity.
  - intros H. injection H as <-.
    destruct (dict_get d "testName") as [[| | | |s| |]|]; try reflexivity.
    destruct (dict_get d "testId"); reflexivity.
Qed.

Lemma add_tests_lookup name tests : forall index index',
  for_each tests ThousandEyes.add_test index = Ok index' ->
  kdict_get index' (PStr name)
  = fold_left
      (fun found test =>
         match Spec.live_test name test with Some id => Some id | None => found end)
      tests (kdict_get index (PStr name)).
Proof.
  induction tests as [|test tests IH]; intros index index' H; cbn [for_each] in H.
  - injection H as <-. reflexivity.
  - destruct (ThousandEyes.add_test index test) as [index1|] eqn:H1; [|discriminate].
    cbn [bind] in H. rewrite (IH _ _ H). cbn [fold_left].
    now rewrite (add_test_lookup _ _ _ name H1).
Qed.

Lemma add_test_Exception index test e :
  ThousandEyes.add_test index test = Raise e -> is_Exception e = true.
Proof.
  unfold ThousandEyes.add_test. intros H.
  destruct (getitem_str test "savedEvent") as [saved|e1] eqn:E1; cbn [bind] in H;
    [|injection H as <-; eapply getitem_str_Exception; eassumption].
  destruct (equals_zero saved); [|discriminate].
  destruct (getitem_str test "testId") as [id|e2] eqn:E2; cbn [bind] in H;
    [|injection H as <-; eapply getitem_str_Exception; eassumption].
  destruct (getitem_str test "testName") as [n|e3] eqn:E3; cbn [bind] in H;
    [|injection H as <-; eapply getitem_str_Exception; eassumption].
  unfold kdict_setitem in H. destruct (hashable n); [discriminate|].
  injection H as <-. reflexivity.
Qed.

Lemma add_tests_Exception tests : forall index e,
  for_each tests ThousandEyes.add_test index = Raise e -> is_Exception e = true.
Proof.
  induction tests as [|test tests IH]; intros index e H; cbn [for_each] in H;
    [discriminate|].
  destruct (ThousandEyes.add_test index test) as [index1|e1] eqn:H1; cbn [bind] in H.
  - eapply IH; eassumption.
  - injection H as <-. eapply add_test_Exception; eassumption.
Qed.

(** X17.  After [ThousandEyes(logger)] has read the list of tests,
    [getTestID] of a name gives the 'testId' of the last test of the list
    that has this name and a 'savedEvent' equal to 0, and [None] when the
    list has no such test. *)
Theorem X17_test_id_of_last_live_test :
  forall (token : string) (json_loads : string -> option pyval) (session : session)
         (self : ThousandEyes.thousandeyes) (d : dict pyval) (tests : list pyval),
    let answer := answers session (List.length (sent session)) in
    status_code answer = 200 ->
    json_loads (text answer) = Some (PDict d) ->
    dict_get d "test" = Some (PList tests) ->
    ThousandEyes.init token json_loads session = Ok self ->
    forall name : string,
      ThousandEyes.getTestID self (PStr name) = Ok (Spec.last_live tests name).
Proof.
  intros token json_loads session self d tests answer H200 Hload Htests Hinit name.
  unfold ThousandEyes.init, ThousandEyes.getTestList, ThousandEyes.getData, send in Hinit.
  cbn [ThousandEyes.te_session ThousandEyes.test_name_to_id] in Hinit.
  fold answer in Hinit. rewrite H200 in Hinit. cbn [Z.eqb Pos.eqb] in Hinit.
  destruct (truthy_str (text answer)); [|discriminate].
  unfold ThousandEyes.loads in Hinit. rewrite Hload in Hinit. cbn [bind] in Hinit.
  unfold ThousandEyes.tests_of in Hinit. cbn [contains_str getitem_str bind] in Hinit.
  unfold dict_has, dict_item in Hinit. rewrite Htests in Hinit.
  cbn [bind py_len_of iterate] in Hinit.
  destruct (0 <? Z.of_nat (List.length tests)); cbn [bind] in Hinit; [|discriminate].
  destruct (for_each tests ThousandEyes.add_test []) as [index|] eqn:Hloop;
    cbn [bind] in Hinit; [|discriminate].
  injection Hinit as <-.
  unfold ThousandEyes.getTestID, kdict_find. cbn [hashable ThousandEyes.test_name_to_id].
  f_equal. exact (add_tests_lookup name tests [] index Hloop).
Qed.

(** Two live tests of the same name and a saved event. *)
Lemma X17_test_id_of_last_live_test_witness :
  let test (name : string) (id saved : Z) :=
    PDict [("testName", PStr name); ("testId", PInt id); ("savedEvent", PInt saved)] in
  let tests := [test "branch" 1 0; test "branch" 2 0; test "branch" 3 1; test "hq" 4 0] in
  let index := [(PStr "branch", PInt 2); (PStr "hq", PInt 4)] in
  kdict_find index (PStr "branch") = Ok (Spec.last_live tests "branch").
Proof.
  intros test tests index.
  refine (X17_test_id_of_last_live_test "token"
            (fun _ => Some (PDict [("test", PList tests)]))
            {| answers := fun _ => {| status_code := 200; text := "tests"; headers := [] |};
               sent := [] |}
            {| ThousandEyes.test_name_to_id := index;
               ThousandEyes.te_session :=
                 {| answers :=
                      fun _ => {| status_code := 200; text := "tests"; headers := [] |};
                    sent := [{| req_verb := GET;
                                req_url := "https://api.thousandeyes.com/v6/tests";
                                req_headers := Some (ThousandEyes.self_headers "token");
                                req_params := []; req_auth := None |}] |} |}
            [("test", PList tests)] tests _ _ _ _ "branch");
    reflexivity.
Defined.

(** X18.  [ThousandEyes(logger)] ends the process when the list of tests
    cannot be read (no 200, or an empty body) and, for a body that is an
    object, exactly when it has no 'test' or a 'test' of length 0.  A list
    that holds only saved events does not end the process: the object is
    built with an empty index, and [getTestID] finds no test. *)
Theorem X18_exit_without_tests :
  forall (token : string) (json_loads : string -> option pyval) (session : session),
    let answer := answers session (List.length (sent session)) in
    let run := ThousandEyes.init token json_loads session in
    (status_code answer <> 200 \/ text answer = ""%string -> run = Raise SystemExit) /\
    (forall d,
       status_code answer = 200 -> text answer <> ""%string ->
       json_loads (text answer) = Some (PDict d) ->
       (run = Raise SystemExit <-> Spec.no_tests d)) /\
    (forall d tests,
       status_code answer = 200 -> text answer <> ""%string ->
       json_loads (text answer) = Some (PDict d) ->
       dict_get d "test" = Some (PList tests) -> tests <> [] ->
       Forall (fun test => exists saved,
                 getitem_str test "savedEvent" = Ok saved /\ equals_zero saved = false)
              tests ->
       exists self,
         run = Ok self /\ ThousandEyes.test_name_to_id self = [] /\
         forall test_name, hashable test_name = true ->
           ThousandEyes.getTestID self test_name = Ok None).
Proof.
  intros token json_loads session answer run. subst run.
  unfold ThousandEyes.init, ThousandEyes.getTestList, ThousandEyes.getData, send.
  cbn [ThousandEyes.te_session ThousandEyes.test_name_to_id]. fold answer.
  split; [|split].
  - intros [Hbad|Hempty].
    + apply Z.eqb_neq in Hbad. rewrite Hbad. reflexivity.
    + destruct (status_code answer =? 200); [|reflexivity]. rewrite Hempty. reflexivity.
  - intros d H200 Htext Hload. rewrite H200. cbn [Z.eqb Pos.eqb].
    destruct (text answer) as [|c t] eqn:Ht; [congruence|]. cbn [truthy_str].
    unfold ThousandEyes.loads. rewrite Hload. cbn [bind].
    unfold ThousandEyes.tests_of, Spec.no_tests. cbn [contains_str getitem_str bind].
    unfold dict_has, dict_item.
    destruct (dict_get d "test") as [tests|]; cbn [bind]; [|tauto].
    destruct (py_len_of tests) as [n|e] eqn:Hlen; cbn [bind].
    + destruct (0 <? n) eqn:Hpos.
      * assert (Hiter : exists items, iterate tests = Ok items).
        { destruct tests; try discriminate; eexists; reflexivity. }
        destruct Hiter as [items ->]. cbn [bind].
        destruct (for_each items ThousandEyes.add_test []) as [index|e] eqn:Hloop;
          cbn [bind].
        -- split; [discriminate|]. intros H. injection H as ->. discriminate.
        -- split.
           ++ intros H. injection H as ->. apply add_tests_Exception in Hloop.
              discriminate.
           ++ intros H. injection H as ->. discriminate.
      * apply Z.ltb_ge in Hpos. split; [intros _|reflexivity]. f_equal.
        destruct tests; cbn in Hlen; try discriminate; injection Hlen as <-; lia.
    + split; [|discriminate]. intros H. injection H as ->.
      destruct tests; discriminate.
  - intros d tests H200 Htext Hload Htests Hne Hsaved. rewrite H200. cbn [Z.eqb Pos.eqb].
    destruct (text answer) as [|c t] eqn:Ht; [congruence|]. cbn [truthy_str].
    unfold ThousandEyes.loads. rewrite Hload. cbn [bind].
    unfold ThousandEyes.tests_of. cbn [contains_str getitem_str bind].
    unfold dict_has, dict_item. rewrite Htests. cbn [bind py_len_of iterate].
    assert (Hpos : (0 <? Z.of_nat (List.length tests)) = true).
    { apply Z.ltb_lt. destruct tests; [congruence | cbn [List.length]; lia]. }
    rewrite Hpos. cbn [bind].
    assert (Hloop : forall index, for_each tests ThousandEyes.add_test index = Ok index).
    { clear -Hsaved. induction Hsaved as [|test tests (saved & Hget & Hzero) _ IH];
        intros index; [reflexivity|].
      cbn [for_each]. unfold ThousandEyes.add_test at 1. rewrite Hget. cbn [bind].
      rewrite Hzero. cbn [bind]. apply IH. }
    rewrite Hloop. cbn [bind]. eexists. split; [reflexivity|].
    cbn [ThousandEyes.test_name_to_id]. split; [reflexivity|].
    intros test_name Hhash. unfold ThousandEyes.getTestID, kdict_find.
    cbn [ThousandEyes.test_name_to_id]. now rewrite Hhash.
Qed.

(** X19.  [getTestDetails] sends one request, for the test of that id, and
    returns the first element of the 'test' of the answer; unlike
    [__getTestList] it does not look at the length, and an empty 'test'
    raises [IndexError].  Without 'test' the result is [None]. *)
Theorem X19_test_details_first_element :
  forall (token : string) (json_loads : string -> option pyval) (test_id : Z)
         (session : session) (d : dict pyval),
    let answer := answers session (List.length (sent session)) in
    let run := ThousandEyes.getTestDetails token json_loads test_id session in
    status_code answer = 200 ->
    text answer <> ""%string ->
    json_loads (text answer) = Some (PDict d) ->
    sent (snd run)
    = sent session ++
      [{| req_verb := GET;
          req_url := ("https://api.thousandeyes.com/v6/tests/"
                      ++ ThousandEyes.format_int test_id)%string;
          req_headers := Some (ThousandEyes.self_headers token);
          req_params := []; req_auth := None |}] /\
    (dict_get d "test" = None -> fst run = Ok None) /\
    (dict_get d "test" = Some (PList []) -> fst run = Raise IndexError) /\
    (forall first rest,
       dict_get d "test" = Some (PList (first :: rest)) -> fst run = Ok (Some first)).
Proof.
  intros token json_loads test_id session d answer run H200 Htext Hload. subst run.
  unfold ThousandEyes.getTestDetails, ThousandEyes.getData, send. fold answer.
  rewrite H200. cbn [Z.eqb Pos.eqb].
  destruct (text answer) as [|c t] eqn:Ht; [congruence|]. cbn [truthy_str].
  unfold ThousandEyes.loads. rewrite Hload. cbn [bind contains_str getitem_str fst snd sent].
  unfold dict_has, dict_item.
  split; [reflexivity|]. split; [|split].
  - intros ->. reflexivity.
  - intros ->. reflexivity.
  - intros first rest ->. reflexivity.
Qed.

Lemma X19_test_details_first_element_witness :
  let session :=
    {| answers := fun _ => {| status_code := 200; text := "details"; headers := [] |};
       sent := [] |} in
  let d := [("test", PList [])] in
  let run := ThousandEyes.getTestDetails "token" (fun _ => Some (PDict d)) 42 session in
  sent (snd run)
  = [{| req_verb := GET;
        req_url := "https://api.thousandeyes.com/v6/tests/42";
        req_headers := Some (ThousandEyes.self_headers "token");
        req_params := []; req_auth := None |}] /\
  (dict_get d "test" = None -> fst run = Ok None) /\
  (dict_get d "test" = Some (PList []) -> fst run = Raise IndexError) /\
  (forall first rest,
     dict_get d "test" = Some (PList (first :: rest)) -> fst run = Ok (Some first)).
Proof.
  intros session d run.
  apply (X19_test_details_first_element "token" (fun _ => Some (PDict d)) 42 session d).
  - reflexivity.
  - discriminate.
  - reflexivity.
Defined.

(** ** fmc.py: from the login to the inventory *)

(** X20.  After an accepted login the request for the inventory goes to the
    domain that the login answer named in its DOMAIN_UUID header, with the
    X-auth-access-token of that answer, expanded and limited to 1000
    records: the two requests sent are the token request, with the user
    name and the password and no headers, and this one. *)
Theorem X20_inventory_request_after_login :
  forall (host user password : string) (json_loads : string -> option pyval)
         (session : session) (access refresh domain : string),
    let n := List.length (sent session) in
    let login := answers session n in
    status_code login = 204 ->
    header_get (headers login) "X-auth-access-token" = Some access ->
    header_get (headers login) "X-auth-refresh-token" = Some refresh ->
    header_get (headers login) "DOMAIN_UUID" = Some domain ->
    status_code (answers session (S n)) <> 401 ->
    exists self,
      FirePower.init host user password session = (Ok tt, self) /\
      FirePower.auth_token self = Some access /\
      FirePower.refresh_token self = Some refresh /\
      FirePower.global_UUID self = Some domain /\
      sent (FirePower.s
              (snd (FirePower.getDeviceRecords host user password json_loads self)))
      = sent session ++
        [{| req_verb := POST;
            req_url := (("https://" ++ host ++ "/api/fmc_platform/v1")
                        ++ "/auth/generatetoken")%string;
            req_headers := None; req_params := [];
            req_auth := Some (user, password) |};
         {| req_verb := GET;
            req_url := (("https://" ++ host ++ "/api/fmc_config/v1")
                        ++ "/domain/" ++ domain ++ "/devices/devicerecords")%string;
            req_headers := Some [("Content-Type", "application/json");
                                 ("X-auth-access-token", access)];
            req_params := [("expanded", PBool true); ("limit", PInt 1000)];
            req_auth := None |}].
Proof.
  intros host user password json_loads session access refresh domain n login
    H204 Haccess Hrefresh Hdomain Hnext.
  unfold FirePower.init, FirePower.authRequest, send.
  cbn [FirePower.s FirePower.self_headers FirePower.refresh_token FirePower.auth_token
       FirePower.global_UUID].
  fold n. fold login. rewrite H204. cbn [Z.eqb Pos.eqb].
  rewrite Haccess, Hrefresh, Hdomain.
  eexists. split; [reflexivity|].
  cbn [FirePower.auth_token FirePower.refresh_token FirePower.global_UUID].
  repeat (split; [reflexivity|]).
  unfold FirePower.getDeviceRecords, FirePower.getData, FirePower.session_get, send.
  cbn [FirePower.s FirePower.self_headers FirePower.refresh_token FirePower.auth_token
       FirePower.global_UUID FirePower.format_uuid sent answers].
  rewrite length_app. cbn [List.length]. rewrite Nat.add_1_r. fold n.
  apply Z.eqb_neq in Hnext. rewrite Hnext.
  destruct (status_code (answers session (S n)) =? 200).
  - destruct (truthy_str (text (answers session (S n)))).
    + destruct (bind _ _); cbn [snd FirePower.s sent];
        rewrite <- app_assoc; reflexivity.
    + cbn [snd FirePower.s sent]. rewrite <- app_assoc. reflexivity.
  - cbn [snd FirePower.s sent]. rewrite <- app_assoc. reflexivity.
Qed.

Lemma X20_inventory_request_after_login_witness :
  let login :=
    {| status_code := 204; text := "";
       headers := [("X-auth-access-token", "tok"); ("X-auth-refresh-token", "ref");
                   ("DOMAIN_UUID", "dom")] |} in
  let inventory := {| status_code := 200; text := "{}"; headers := [] |} in
  let session :=
    {| answers := fun k => match k with 0%nat => login | _ => inventory end; sent := [] |} in
  exists self,
    FirePower.init "fmc" "user" "secret" session = (Ok tt, self) /\
    FirePower.auth_token self = Some "tok" /\
    FirePower.refresh_token self = Some "ref" /\
    FirePower.global_UUID self = Some "dom" /\
    sent (FirePower.s
            (snd (FirePower.getDeviceRecords "fmc" "user" "secret" (fun _ => None) self)))
    = [{| req_verb := POST;
          req_url := "https://fmc/api/fmc_platform/v1/auth/generatetoken";
          req_headers := None; req_params := [];
          req_auth := Some ("user", "secret") |};
       {| req_verb := GET;
          req_url := "https://fmc/api/fmc_config/v1/domain/dom/devices/devicerecords";
          req_headers := Some [("Content-Type", "application/json");
                               ("X-auth-access-token", "tok")];
          req_params := [("expanded", PBool true); ("limit", PInt 1000)];
          req_auth := None |}].
Proof.
  intros login inventory session.
  apply (X20_inventory_request_after_login "fmc" "user" "secret" (fun _ => None) session
           "tok" "ref" "dom");
    try reflexivity.
  discriminate.
Defined.

(** ** app.py: the windows behind the fields of a device *)

Lemma append_metrics_snort details metrics average maximum results latency device device' :
  append_metrics details metrics average maximum results latency device = Ok device' ->
  dev_id device' = dev_id device /\
  dict_get (dev_fields device') "snort_cpu_data"
  = Some (Spec.entry_or_none PDict metrics (dev_id device)) /\
  dict_get (dev_fields device') "snort_cpu_avg"
  = Some (Spec.entry_or_none (fun x => x) average (dev_id device)) /\
  dict_get (dev_fields device') "snort_cpu_max"
  = Some (Spec.entry_or_none (fun x => x) maximum (dev_id device)).
Proof.
  unfold append_metrics. repeat (rewrite found_or_none_value; cbn [bind]).
  intros H. injection H as <-. cbn [set_field dev_id dev_name dev_fields].
  split; [reflexivity|]. rewrite !dict_get_set. cbn. repeat split; reflexivity.
Qed.

Lemma Forall2_In_right {A B} (R : A -> B -> Prop) l r y :
  Forall2 R l r -> In y r -> exists x, In x l /\ R x y.
Proof.
  induction 1 as [|a b l r Hab _ IH]; intros Hin; [contradiction|].
  destruct Hin as [<-|Hin].
  - exists a. split; [now left | assumption].
  - destruct (IH Hin) as (x & Hx & Hr). exists x. split; [now right | assumption].
Qed.

(** X21.  In the devices that [index] hands to the page, the series
    'snort_cpu_data' and the average 'snort_cpu_avg' of a device come from
    the health metrics of the last TIME_PERIOD_SECONDS seconds, and the
    maximum 'snort_cpu_max' from those of the last 86400 seconds, whatever
    the configured period is; both are asked for the devices with a
    non-empty id, and a field is [None] when its window gave no metrics or
    none for the device. *)
Theorem X21_fields_and_their_windows :
  forall (period : Z) (devices : list ftd_device)
         (health : Z -> list string -> string -> string -> option (dict (list pyval)))
         (tests : Z -> list ftd_device -> dict (list pyval) * dict pyval)
         (out : list ftd_device),
    devices <> [] ->
    index period (Some devices) health tests = Ok (Some out) ->
    let device_uuids := map dev_id (filter (fun d => truthy_str (dev_id d)) devices) in
    let configured := health period device_uuids "cpu" "snort_avg" in
    let last_day := health 86400 device_uuids "cpu" "snort_avg" in
    forall device, In device out ->
      dict_get (dev_fields device) "snort_cpu_data"
      = Some (Spec.from_window PDict convert_snort_metric_data configured (dev_id device)) /\
      dict_get (dev_fields device) "snort_cpu_avg"
      = Some (Spec.from_window (fun x => x)
                (fun raw => m <- convert_snort_metric_data raw ;; calculate_snort_avg m)
                configured (dev_id device)) /\
      dict_get (dev_fields device) "snort_cpu_max"
      = Some (Spec.from_window (fun x => x)
                (fun raw => m <- convert_snort_metric_data raw ;; calculate_snort_max m)
                last_day (dev_id device)).
Proof.
  intros period devices health tests out Hne Hindex device_uuids configured last_day.
  unfold index in Hindex. destruct devices as [|d0 devices]; [congruence|].
  set (all := d0 :: devices) in *.
  fold device_uuids in Hindex. fold configured in Hindex. fold last_day in Hindex.
  assert (Hconf : exists metrics average,
            match configured with
            | Some raw =>
                if truthy_list raw
                then snort_cpu_metrics <- convert_snort_metric_data raw ;;
                     snort_average <- calculate_snort_avg snort_cpu_metrics ;;
                     Ok (Some snort_cpu_metrics, Some snort_average)
                else Ok (None, None)
            | None => Ok (None, None)
            end = Ok (metrics, average) /\
            forall id,
              Spec.entry_or_none PDict metrics id
              = Spec.from_window PDict convert_snort_metric_data configured id /\
              Spec.entry_or_none (fun x => x) average id
              = Spec.from_window (fun x => x)
                  (fun raw => m <- convert_snort_metric_data raw ;; calculate_snort_avg m)
                  configured id).
  { destruct configured as [raw|]; [|exists None, None; split; [reflexivity|]; now intros].
    destruct raw as [|p raw]; [exists None, None; split; [reflexivity|]; now intros|].
    cbn [truthy_list] in Hindex |- *. unfold Spec.from_window.
    destruct (convert_snort_metric_data (p :: raw)) as [m|]; cbn [bind] in Hindex |- *;
      [|discriminate].
    destruct (calculate_snort_avg m) as [a|]; cbn [bind] in Hindex |- *; [|discriminate].
    exists (Some m), (Some a). split; [reflexivity|]. now intros. }
  destruct Hconf as (metrics & average & Hconf & Hfields). rewrite Hconf in Hindex.
  cbn [bind fst snd] in Hindex.
  assert (Hday : exists maximum,
            match last_day with
            | Some raw =>
                if truthy_list raw
                then snort_cpu_metrics_24h <- convert_snort_metric_data raw ;;
                     snort_max <- calculate_snort_max snort_cpu_metrics_24h ;;
                     Ok (Some snort_max)
                else Ok None
            | None => Ok None
            end = Ok maximum /\
            forall id,
              Spec.entry_or_none (fun x => x) maximum id
              = Spec.from_window (fun x => x)
                  (fun raw => m <- convert_snort_metric_data raw ;; calculate_snort_max m)
                  last_day id).
  { destruct last_day as [raw|]; [|exists None; split; [reflexivity|]; now intros].
    destruct raw as [|p raw]; [exists None; split; [reflexivity|]; now intros|].
    cbn [truthy_list] in Hindex |- *. unfold Spec.from_window.
    destruct (convert_snort_metric_data (p :: raw)) as [m|]; cbn [bind] in Hindex |- *;
      [|discriminate].
    destruct (calculate_snort_max m) as [a|]; cbn [bind] in Hindex |- *; [|discriminate].
    exists (Some a). split; [reflexivity|]. now intros. }
  destruct Hday as (maximum & Hday & Hmax). rewrite Hday in Hindex. cbn [bind] in Hindex.
  destruct (tests period all) as [raw_te details].
  destruct (convert_te_test_data raw_te) as [te_results|]; cbn [bind] in Hindex;
    [|discriminate].
  destruct (calculate_te_avg te_results) as [latency|]; cbn [bind] in Hindex;
    [|discriminate].
  destruct (comprehension _ all) as [merged|] eqn:Hmerged; cbn [bind] in Hindex;
    [|discriminate].
  destruct (sorted_by_name merged) as [sorted|] eqn:Hsorted; cbn [bind] in Hindex;
    [|discriminate].
  injection Hindex as <-.
  destruct (sorted_by_name_Ok _ _ Hsorted) as [Hperm _].
  apply comprehension_Forall2 in Hmerged.
  intros device Hin. apply (Permutation_in _ (Permutation_sym Hperm)) in Hin.
  destruct (Forall2_In_right _ _ _ _ Hmerged Hin) as (before & _ & Happend).
  apply append_metrics_snort in Happend.
  destruct Happend as (Hid & Hdata & Havg & Hmaximum).
  rewrite Hdata, Havg, Hmaximum, <- Hid.
  destruct (Hfields (dev_id device)) as [-> ->]. rewrite Hmax. repeat split.
Qed.

(** One device, a configured period of one hour: the average is that of the
    hour, the maximum that of the day. *)
Lemma X21_fields_and_their_windows_witness :
  let device := {| dev_id := "u1"; dev_name := Some "ftd-1"; dev_fields := [] |} in
  let health (period : Z) (_ : list string) (_ _ : string) :=
    Some [("u1", [PList [PInt 1700000000;
                         PStr (if period =? 3600 then "3.5" else "9.0")]])] in
  let shown :=
    {| dev_id := "u1"; dev_name := Some "ftd-1";
       dev_fields :=
         [("te_test_details", PNone);
          ("snort_cpu_data", PDict [("22:13", PStr "3.5")]);
          ("snort_cpu_avg", PFloat (round1 (b64_of_decimal false 35 (-1))));
          ("snort_cpu_max", PFloat (round1 (b64_of_decimal false 90 (-1))));
          ("te_test_data", PNone);
          ("te_latency_avg", PNone)] |} in
  dict_get (dev_fields shown) "snort_cpu_data"
  = Some (Spec.from_window PDict convert_snort_metric_data
            (health 3600 ["u1"] "cpu" "snort_avg") (dev_id shown)) /\
  dict_get (dev_fields shown) "snort_cpu_avg"
  = Some (Spec.from_window (fun x => x)
            (fun raw => m <- convert_snort_metric_data raw ;; calculate_snort_avg m)
            (health 3600 ["u1"] "cpu" "snort_avg") (dev_id shown)) /\
  dict_get (dev_fields shown) "snort_cpu_max"
  = Some (Spec.from_window (fun x => x)
            (fun raw => m <- convert_snort_metric_data raw ;; calculate_snort_max m)
            (health 86400 ["u1"] "cpu" "snort_avg") (dev_id shown)).
Proof.
  intros device health shown.
  apply (X21_fields_and_their_windows 3600 [device] health (fun _ _ => ([], [])) [shown]).
  - discriminate.
  - vm_compute. reflexivity.
  - left. reflexivity.
Defined.
